(** * afiche-generator: a shallow embedding of the flyer generator

    The development follows the layout of the repository.

    - [Py], [OsPath]: the Python built-ins the backend calls
      ([str.replace], [in], [str.strip], [os.path.join], ...).
    - [Js], [SessionStore], [Router]: the Pinia store
      [frontend/src/stores/session.js] and the navigation guard of
      [router/index.js].
    - [AuthService]: [services/auth_service.py].
    - [Os]: the file system the backend works on, with POSIX path
      resolution, and the state-and-exception monad the services run in.
    - [Docx], [TemplateProcessor]: [services/template_processor.py].
    - [Pil], [Reportlab], [DocumentGenerator]:
      [services/document_generator.py].
    - [FileService]: [services/file_service.py].
    - [Api]: the endpoints of [main.py], as the error-handling section
      of the design gives them.
    - [LoginView]: [frontend/src/views/LoginView.vue].
    - [Scenario]: a host with the templates, LibreOffice and poppler, to
      run the services on.

    Part I holds the definitions, Part II the lemmas and theorems of the
    specification, Part III further properties of the code.

    A Python [str] is a sequence of code points; it is modelled by a Rocq
    [string] whose characters are the code points 0..255 (the Latin-1
    repertoire), which covers the markers, the file names and the
    predefined answers of the program. *)

From Stdlib Require Import ZArith QArith Qround String Ascii List Lia Bool.
From stdpp Require Import gmap strings list pretty.

Open Scope string_scope.
Open Scope Z_scope.

(** String concatenation computes under [simpl] as soon as its first
    argument starts with a character. *)
#[global] Arguments String.append !s1 s2 : simpl nomatch.

(* ===================================================================== *)
(** * Part I: definitions *)
(* ===================================================================== *)

(** ** Exceptions and results *)

(** The subclasses of Python's [Exception] that the modelled code and its
    libraries raise. [KeyboardInterrupt] and [SystemExit] derive from
    [BaseException] only and are outside the model: an [except Exception]
    clause does not catch them. *)
Inductive exn : Type :=
| ValueError (msg : string)
| KeyError (key : string)
| IndexError (msg : string)
| OSError (msg : string)
| FileNotFoundError (msg : string)
| FileExistsError (msg : string)
| IsADirectoryError (msg : string)
| NotADirectoryError (msg : string)
| PermissionError (msg : string)
| CalledProcessError (returncode : Z) (cmd : list string)
| PackageNotFoundError (msg : string)
| LibraryError (msg : string).

Inductive result (A : Type) : Type :=
| Ok (a : A)
| Raise (e : exn).
Arguments Ok {A} a.
Arguments Raise {A} e.

(** A computation over a state [S] that may raise. State changes made
    before an exception is raised are kept, as in Python. *)
Definition M (S A : Type) : Type := S -> result A * S.

Definition ret {S A} (a : A) : M S A := fun s => (Ok a, s).
Definition raise {S A} (e : exn) : M S A := fun s => (Raise e, s).
Definition bind {S A B} (m : M S A) (f : A -> M S B) : M S B :=
  fun s => match m s with
           | (Ok a, s') => f a s'
           | (Raise e, s') => (Raise e, s')
           end.
Definition get {S} : M S S := fun s => (Ok s, s).
Definition put {S} (s : S) : M S unit := fun _ => (Ok tt, s).
Definition modify {S} (f : S -> S) : M S unit := fun s => (Ok tt, f s).

(** An expression that may raise and leaves the state alone. *)
Definition lift {S A} (r : result A) : M S A := fun s => (r, s).

(** [try: body  except Exception as e: handler(e)]. *)
Definition try_except {S A} (body : M S A) (handler : exn -> M S A) : M S A :=
  fun s => match body s with
           | (Ok a, s') => (Ok a, s')
           | (Raise e, s') => handler e s'
           end.

Declare Scope py_scope.
Delimit Scope py_scope with py.
Notation "x <- c1 ;; c2" := (bind c1 (fun x => c2))
  (at level 100, c1 at next level, right associativity) : py_scope.
Notation "c1 ;;; c2" := (bind c1 (fun _ => c2))
  (at level 100, right associativity) : py_scope.

(** [for x in xs: body(x)]. *)
Fixpoint for_each {S A} (xs : list A) (body : A -> M S unit) : M S unit :=
  match xs with
  | [] => ret tt
  | x :: xs' => bind (body x) (fun _ => for_each xs' body)
  end.

(** [for x in xs: acc = body(acc, x)]: a loop that carries a local
    variable. *)
Fixpoint for_fold {S A B} (xs : list A) (body : B -> A -> M S B) (acc : B) : M S B :=
  match xs with
  | [] => ret acc
  | x :: xs' => bind (body acc x) (fun acc' => for_fold xs' body acc')
  end.

(** ** Python built-ins on [str] and [list] *)

Module Py.

(** [Some rest] when [p] is a prefix of [s], with [s = p ++ rest]. *)
Fixpoint strip_prefix (p s : string) : option string :=
  match p with
  | EmptyString => Some s
  | String a p' =>
      match s with
      | EmptyString => None
      | String b s' => if Ascii.eqb a b then strip_prefix p' s' else None
      end
  end.

(** [s.startswith(p)]. *)
Definition startswith (s p : string) : bool :=
  match strip_prefix p s with Some _ => true | None => false end.

(** [sub in s]. *)
Fixpoint contains (sub s : string) : bool :=
  startswith s sub ||
  match s with
  | EmptyString => false
  | String _ s' => contains sub s'
  end.

(** The scan of [s.replace(old, new)] for a non-empty [old]: left to
    right, non-overlapping. [skip] counts the characters of a matched
    occurrence that are still to be dropped. *)
Fixpoint replace_scan (old new : string) (skip : nat) (s : string) : string :=
  match s with
  | EmptyString => EmptyString
  | String c s' =>
      match skip with
      | S k => replace_scan old new k s'
      | O =>
          if startswith s old
          then new ++ replace_scan old new (Nat.pred (String.length old)) s'
          else String c (replace_scan old new O s')
      end
  end.

(** With an empty [old], Python inserts [new] before every character
    and at the end. *)
Fixpoint intersperse (new s : string) : string :=
  match s with
  | EmptyString => new
  | String c s' => new ++ String c (intersperse new s')
  end.

(** [s.replace(old, new)]. *)
Definition replace (s old new : string) : string :=
  match old with
  | EmptyString => intersperse new s
  | String _ _ => replace_scan old new O s
  end.

(** [s.endswith(p)]: [p] is [s] or a suffix of its tail. *)
Fixpoint endswith (s p : string) : bool :=
  String.eqb s p ||
  match s with
  | EmptyString => false
  | String _ s' => endswith s' p
  end.

(** [l[i]] on a list, with Python's negative indices. The index is
    first converted to a machine index ([Py_ssize_t], 64 bits): an
    integer that does not fit is refused before the list is looked at. *)
Definition index {A} (l : list A) (i : Z) : result A :=
  if (i <? - 2 ^ 63) || (2 ^ 63 <=? i)
  then Raise (IndexError "cannot fit 'int' into an index-sized integer")
  else
    let n := Z.of_nat (List.length l) in
    let j := if i <? 0 then n + i else i in
    if (0 <=? j) && (j <? n)
    then match nth_error l (Z.to_nat j) with
         | Some a => Ok a
         | None => Raise (IndexError "list index out of range")
         end
    else Raise (IndexError "list index out of range").

(** Character classes of [str] on the code points 0..255. *)
Definition code (c : ascii) : Z := Z.of_nat (nat_of_ascii c).

Definition within (lo hi n : Z) : bool := (lo <=? n) && (n <=? hi).

(** [c.isspace()], which is also the class [\s] of [re]. *)
Definition isspace (c : ascii) : bool :=
  let n := code c in
  within 9 13 n || within 28 32 n || (n =? 133) || (n =? 160).

(** The class [\w] of [re] on [str]: alphanumeric or underscore. *)
Definition isword (c : ascii) : bool :=
  let n := code c in
  within 48 57 n || within 65 90 n || (n =? 95) || within 97 122 n
  || (n =? 170) || (n =? 178) || (n =? 179) || (n =? 181) || (n =? 185)
  || (n =? 186) || within 188 190 n || within 192 214 n
  || within 216 246 n || within 248 255 n.

Definition lower_char (c : ascii) : ascii :=
  let n := code c in
  if within 65 90 n || within 192 214 n || within 216 222 n
  then ascii_of_nat (Z.to_nat (n + 32))
  else c.

Fixpoint map_chars (f : ascii -> ascii) (s : string) : string :=
  match s with
  | EmptyString => EmptyString
  | String c s' => String (f c) (map_chars f s')
  end.

Fixpoint filter_chars (p : ascii -> bool) (s : string) : string :=
  match s with
  | EmptyString => EmptyString
  | String c s' => if p c then String c (filter_chars p s') else filter_chars p s'
  end.

(** [s.lower()]. *)
Definition lower (s : string) : string := map_chars lower_char s.

(** [s.lstrip()]. *)
Fixpoint lstrip (s : string) : string :=
  match s with
  | EmptyString => EmptyString
  | String c s' => if isspace c then lstrip s' else s
  end.

(** [s.rstrip()]. *)
Fixpoint rstrip (s : string) : string :=
  match s with
  | EmptyString => EmptyString
  | String c s' =>
      match rstrip s' with
      | EmptyString => if isspace c then EmptyString else String c EmptyString
      | r => String c r
      end
  end.

(** [s.strip()]. *)
Definition strip (s : string) : string := rstrip (lstrip s).

(** [re.sub(r'\s+', ' ', s)]: every maximal run of whitespace becomes
    one space. [in_run] tells that the previous character was
    whitespace. *)
Fixpoint collapse_spaces (in_run : bool) (s : string) : string :=
  match s with
  | EmptyString => EmptyString
  | String c s' =>
      if isspace c
      then if in_run then collapse_spaces true s'
           else String " " (collapse_spaces true s')
      else String c (collapse_spaces false s')
  end.

(** [repr(s)] of a [str]. The quote is the apostrophe, unless the
    string holds an apostrophe and no double quote. The quote and the
    backslash are escaped, tab, line feed and carriage return are
    written [\t], [\n], [\r], and every other code point that is not
    printable as [\xhh]. *)
Definition apostrophe : ascii := "039"%char.
Definition double_quote : ascii := "034"%char.
Definition backslash : ascii := "092"%char.

(** [c.isprintable()]. *)
Definition isprintable (c : ascii) : bool :=
  let n := code c in
  within 32 126 n || (within 161 255 n && negb (n =? 173)).

Definition hex_digit (n : Z) : string :=
  String.substring (Z.to_nat n) 1 "0123456789abcdef".

Definition repr_char (quote c : ascii) : string :=
  let n := code c in
  if Ascii.eqb c quote || Ascii.eqb c backslash
  then String backslash (String c EmptyString)
  else if n =? 9 then String backslash "t"
  else if n =? 10 then String backslash "n"
  else if n =? 13 then String backslash "r"
  else if isprintable c then String c EmptyString
  else String backslash "x" ++ hex_digit (n / 16) ++ hex_digit (n mod 16).

Fixpoint escape (quote : ascii) (s : string) : string :=
  match s with
  | EmptyString => EmptyString
  | String c s' => repr_char quote c ++ escape quote s'
  end.

Definition repr (s : string) : string :=
  let quote :=
    if contains (String apostrophe EmptyString) s
       && negb (contains (String double_quote EmptyString) s)
    then double_quote else apostrophe in
  String quote (escape quote s ++ String quote EmptyString).

End Py.

(** ** JavaScript values *)

Module Js.

(** The values the session store can hold. Numbers are the integers;
    [NaN] does not occur in the modelled code. *)
Inductive value : Type :=
| undefined
| null
| boolean (b : bool)
| number (z : Z)
| str (s : string).

#[global] Instance value_eq_dec : EqDecision value.
Proof. solve_decision. Defined.

(** [ToBoolean]. *)
Definition truthy (v : value) : bool :=
  match v with
  | undefined | null => false
  | boolean b => b
  | number z => negb (z =? 0)
  | str s => negb (String.eqb s "")
  end.

(** [a && b]: the left operand when it is falsy, else the right one. *)
Definition and_ (a b : value) : value := if truthy a then b else a.

(** [!a]. *)
Definition not_ (a : value) : value := boolean (negb (truthy a)).

(** [a !== b]. *)
Definition strict_ne (a b : value) : value := boolean (negb (bool_decide (a = b))).

(** [a || b]: the left operand when it is truthy, else the right one. *)
Definition or_ (a b : value) : value := if truthy a then a else b.

End Js.

(** ** frontend/src/stores/session.js *)

Module SessionStore.

(** The two refs of the store. *)
Record state : Type := mk_state {
  sessionId : Js.value;
  authenticated : Js.value
}.

(** [ref(null)] and [ref(false)]. *)
Definition init : state :=
  {| sessionId := Js.null; authenticated := Js.boolean false |}.

(** [computed(() => authenticated.value && sessionId.value !== null)]. *)
Definition isAuthenticated (st : state) : Js.value :=
  Js.and_ (authenticated st) (Js.strict_ne (sessionId st) Js.null).

Definition setSession (id : Js.value) (st : state) : state :=
  {| sessionId := id; authenticated := authenticated st |}.

Definition setAuthenticated (value : Js.value) (st : state) : state :=
  {| sessionId := sessionId st; authenticated := value |}.

Definition clearSession (st : state) : state :=
  {| sessionId := Js.null; authenticated := Js.boolean false |}.

(** A call of one of the three actions. *)
Inductive action : Type :=
| SetSession (id : Js.value)
| SetAuthenticated (value : Js.value)
| ClearSession.

Definition perform (st : state) (a : action) : state :=
  match a with
  | SetSession id => setSession id st
  | SetAuthenticated v => setAuthenticated v st
  | ClearSession => clearSession st
  end.

(** The store after a sequence of calls, oldest first. *)
Definition run (acts : list action) (st : state) : state :=
  fold_left perform acts st.

End SessionStore.

(** ** The navigation guard of the router *)

Module Router.

Record route : Type := mk_route {
  path : string;
  name : string;
  meta_requiresAuth : Js.value  (* [to.meta.requiresAuth] *)
}.

Definition welcome : route :=
  {| path := "/"; name := "welcome"; meta_requiresAuth := Js.undefined |}.
Definition login : route :=
  {| path := "/login"; name := "login"; meta_requiresAuth := Js.undefined |}.
Definition generator : route :=
  {| path := "/generator"; name := "generator";
     meta_requiresAuth := Js.boolean true |}.

Definition routes : list route := [welcome; login; generator].

(** What the guard passes to [next]. *)
Inductive decision : Type :=
| Proceed                       (* [next()] *)
| Redirect (name : string).     (* [next({ name })] *)

(** [router.beforeEach((to, from, next) => ...)]. *)
Definition beforeEach (to : route) (store : SessionStore.state) : decision :=
  if Js.truthy (Js.and_ (meta_requiresAuth to)
                        (Js.not_ (SessionStore.isAuthenticated store)))
  then Redirect "login"
  else Proceed.

End Router.

(** ** services/auth_service.py *)

Module AuthService.

Record SessionData : Type := mk_session {
  session_id : string;
  current_question : Z;
  authenticated : bool
}.

Record question : Type := mk_question {
  q_number : Z;
  q_text : string;
  q_answer : string
}.

(** Code points used by the texts of the service. *)
Definition iquest : string := String "191"%char "".
Definition aacute : string := String "225"%char "".
Definition eacute : string := String "233"%char "".
Definition oacute : string := String "243"%char "".
Definition ntilde : string := String "241"%char "".

Definition security_questions : list question :=
  [ {| q_number := 1;
       q_text := iquest ++ "Cu" ++ aacute ++ "l es el nombre de tu iglesia?";
       q_answer := "iglesia central" |};
    {| q_number := 2;
       q_text := iquest ++ "En qu" ++ eacute ++ " ciudad se realizar" ++ aacute ++ " el evento?";
       q_answer := "lima" |};
    {| q_number := 3;
       q_text := iquest ++ "Cu" ++ aacute ++ "l es el tema de la campa" ++ ntilde ++ "a?";
       q_answer := "esperanza viva" |} ].

(** [self.sessions]. *)
Abbreviation sessions := (gmap string SessionData).

(** The dict returned by [validate_answer]; absent keys are [None]. *)
Record response : Type := mk_response {
  success : bool;
  message : option string;
  next_question : option Z;
  question_text : option string
}.

(** [_normalize_text]. *)
Definition _normalize_text (text : string) : string :=
  let text := Py.lower (Py.strip text) in
  let text := Py.filter_chars (fun c => Py.isword c || Py.isspace c) text in
  let text := Py.collapse_spaces false text in
  text.

(** [create_session]; [uuid] is the value of [str(uuid.uuid4())]. *)
Definition create_session (uuid : string) : M sessions (string * question) :=
  (modify (fun ss : sessions =>
             <[uuid := {| session_id := uuid; current_question := 1;
                          authenticated := false |}]> ss) ;;;
   q <- lift (Py.index security_questions 0) ;;
   ret (uuid, q))%py.

Definition set_authenticated (b : bool) (sd : SessionData) : SessionData :=
  {| session_id := session_id sd; current_question := current_question sd;
     authenticated := b |}.

Definition set_current_question (q : Z) (sd : SessionData) : SessionData :=
  {| session_id := session_id sd; current_question := q;
     authenticated := authenticated sd |}.

(** [validate_answer]. *)
Definition validate_answer (sid : string) (question_number : Z) (answer : string)
  : M sessions response :=
  (ss <- get ;;
   match ss !! sid with
   | None => raise (ValueError ("Sesi" ++ oacute ++ "n inv" ++ aacute ++ "lida"))
   | Some _ =>
       let normalized_answer := _normalize_text answer in
       expected <- lift (Py.index security_questions (question_number - 1)) ;;
       let expected_answer := q_answer expected in
       if String.eqb normalized_answer expected_answer
       then
         if question_number =? 3
         then
           modify (fun ss : sessions => alter (set_authenticated true) sid ss) ;;;
           ret {| success := true; message := Some ("Autenticaci" ++ oacute ++ "n exitosa");
                  next_question := None; question_text := None |}
         else
           modify (fun ss : sessions =>
                     alter (set_current_question (question_number + 1)) sid ss) ;;;
           next_q <- lift (Py.index security_questions question_number) ;;
           ret {| success := true; message := None;
                  next_question := Some (q_number next_q);
                  question_text := Some (q_text next_q) |}
       else
         modify (fun ss : sessions => alter (set_current_question 1) sid ss) ;;;
         first <- lift (Py.index security_questions 0) ;;
         ret {| success := false;
                message := Some "Respuesta incorrecta. Reiniciando...";
                next_question := Some 1;
                question_text := Some (q_text first) |}
   end)%py.

(** [is_authenticated]. *)
Definition is_authenticated (sid : string) (ss : sessions) : bool :=
  match ss !! sid with
  | Some sd => authenticated sd
  | None => false
  end.

(** A request to [validate_answer] for one session. *)
Record request : Type := mk_request {
  rq_question : Z;
  rq_answer : string
}.

(** A sequence of requests for session [sid], oldest first: what each
    call returned or raised, and the session store at the end. A call
    that raises leaves what it wrote. *)
Fixpoint serve (sid : string) (rqs : list request) (ss : sessions)
  : list (result response) * sessions :=
  match rqs with
  | [] => ([], ss)
  | rq :: rest =>
      let '(r, ss1) := validate_answer sid (rq_question rq) (rq_answer rq) ss in
      let '(rs, ss2) := serve sid rest ss1 in
      (r :: rs, ss2)
  end.

(** The transition rules in the words of the specification:
    [correct(q<3) -> q+1], [correct(3) -> authenticated=true],
    [incorrect(any) -> q=1]. *)
Definition rule (q : Z) (correct : bool) (sd : SessionData) : SessionData :=
  if correct
  then if q <? 3 then set_current_question (q + 1) sd
       else set_authenticated true sd
  else set_current_question 1 sd.

(** The answer stored for question [q], for [q] in 1..3. *)
Definition expected_answer (q : Z) : string :=
  match Py.index security_questions (q - 1) with
  | Ok qu => q_answer qu
  | Raise _ => ""
  end.

Definition is_correct (rq : request) : bool :=
  String.eqb (_normalize_text (rq_answer rq)) (expected_answer (rq_question rq)).

(** The rules applied along a sequence of requests. *)
Fixpoint follow (rqs : list request) (sd : SessionData) : SessionData :=
  match rqs with
  | [] => sd
  | rq :: rest => follow rest (rule (rq_question rq) (is_correct rq) sd)
  end.

End AuthService.

(** ** os.path (the POSIX flavour) *)

Module OsPath.

(** [os.path.join(a, b)]. *)
Definition join (a b : string) : string :=
  if Py.startswith b "/" then b
  else if String.eqb a "" || Py.endswith a "/" then a ++ b
  else a ++ "/" ++ b.

(** [os.path.isabs(p)]. *)
Definition isabs (p : string) : bool := Py.startswith p "/".

(** [p.split('/')]: the components of a path; never empty. *)
Fixpoint split_sep (p : string) : list string :=
  match p with
  | EmptyString => [EmptyString]
  | String c p' =>
      if Ascii.eqb c "/" then EmptyString :: split_sep p'
      else match split_sep p' with
           | h :: t => String c h :: t
           | [] => [String c EmptyString]
           end
  end.

(** [(p[:i], p[i:])] for [i = p.rfind('/') + 1]. *)
Fixpoint rpartition (p : string) : string * string :=
  match p with
  | EmptyString => (EmptyString, EmptyString)
  | String c p' =>
      let '(h, t) := rpartition p' in
      match h with
      | String _ _ => (String c h, t)
      | EmptyString =>
          if Ascii.eqb c "/" then (String c EmptyString, t)
          else (EmptyString, String c t)
      end
  end.

Fixpoint all_sep (s : string) : bool :=
  match s with
  | EmptyString => true
  | String c s' => Ascii.eqb c "/" && all_sep s'
  end.

(** [s.rstrip('/')]. *)
Fixpoint rstrip_sep (s : string) : string :=
  match s with
  | EmptyString => EmptyString
  | String c s' =>
      match rstrip_sep s' with
      | EmptyString => if Ascii.eqb c "/" then EmptyString else String c EmptyString
      | r => String c r
      end
  end.

(** [os.path.dirname(p)]. *)
Definition dirname (p : string) : string :=
  let head := fst (rpartition p) in
  if negb (String.eqb head "") && negb (all_sep head) then rstrip_sep head else head.

(** [os.path.basename(p)]. *)
Definition basename (p : string) : string := snd (rpartition p).

(** [os.path.split(p)]. *)
Definition split (p : string) : string * string := (dirname p, basename p).

(** The last component of a path. *)
Definition final_name (p : string) : string := List.last (split_sep p) EmptyString.

(** A component that names an entry: not empty, not [.] and not [..]. *)
Definition is_name (c : string) : bool :=
  negb (String.eqb c "") && negb (String.eqb c ".") && negb (String.eqb c "..").

End OsPath.

(** ** python-docx documents *)

Module Docx.

(** A run: its text and its formatting (the [w:rPr] element). *)
Record run : Type := mk_run {
  text : string;
  rPr : string
}.

(** The runs of a document live in a store and are named by their index:
    python-docx hands out proxies of the same run whenever a merged cell
    is listed more than once in [row.cells]. Runs of the store that no
    body paragraph and no cell lists stand for the runs the loops of the
    template processor cannot reach (headers, footers, tables nested in
    cells). *)
Definition paragraph : Type := list nat.     (* [paragraph.runs] *)
Definition cell : Type := list paragraph.    (* [cell.paragraphs] *)
Definition row : Type := list cell.          (* [row.cells] *)
Definition table : Type := list row.         (* [table.rows] *)

Record document : Type := mk_document {
  runs : list run;
  paragraphs : list paragraph;               (* [doc.paragraphs] *)
  tables : list table                        (* [doc.tables] *)
}.

End Docx.

(** ** Pillow images *)

Module Pil.

Record image : Type := mk_image {
  mode : string;          (* "RGB", "RGBA", "L", "CMYK", ... *)
  size : Z * Z;           (* width, height in pixels *)
  origin : string         (* what was rendered *)
}.

(** [img.convert(mode)]. *)
Definition convert (m : string) (img : image) : image :=
  {| mode := m; size := size img; origin := origin img |}.

(** [img.resize(size, Image.Resampling.LANCZOS)]. *)
Definition resize (sz : Z * Z) (img : image) : image :=
  {| mode := mode img; size := sz; origin := origin img |}.

End Pil.

(** ** PDF files *)

Module Pdf.

(** What a page shows. *)
Inductive item : Type :=
| Text (s : string)
| Image (img : Pil.image) (x y width height : Z).

Record page : Type := mk_page {
  pagesize : Z * Z;       (* in page units *)
  items : list item
}.

End Pdf.

(** ** The file system and the clock *)

Module Os.

Inductive content : Type :=
| DocxFile (d : Docx.document)
| PdfFile (pages : list Pdf.page)
| TiffFile (img : Pil.image)
| Bytes (s : string).

(** A regular file with its last-modified time, or a directory. An
    immutable file can neither be written nor removed. Symbolic links
    are not modelled, and the times of directories are not tracked. *)
Inductive node : Type :=
| File (c : content) (mtime : Z) (immutable : bool)
| Dir.

(** Entries are keyed by their canonical absolute path, a list of
    names from the root. The root itself is always a directory. *)
Record world : Type := mk_world {
  fs : gmap (list string) node;
  cwd : list string;      (* the working directory of the process *)
  clock : Z;              (* [time.time()], in seconds *)
  stdout : list string    (* the lines printed so far *)
}.

Definition with_fs (w : world) (f : gmap (list string) node) : world :=
  {| fs := f; cwd := cwd w; clock := clock w; stdout := stdout w |}.

Definition node_at (f : gmap (list string) node) (k : list string) : option node :=
  match k with
  | [] => Some Dir
  | _ :: _ => f !! k
  end.

Definition is_dir (f : gmap (list string) node) (k : list string) : bool :=
  match node_at f k with
  | Some Dir => true
  | _ => false
  end.

Definition parent (k : list string) : list string := removelast k.

(** One component of a path, looked up from the directory [cur]. *)
Definition step (f : gmap (list string) node) (cur : list string) (c : string)
  : option (list string) :=
  if is_dir f cur then
    if String.eqb c "" || String.eqb c "." then Some cur
    else if String.eqb c ".." then
      if is_dir f (parent cur) then Some (parent cur) else None
    else match node_at f (cur ++ [c])%list with
         | Some _ => Some (cur ++ [c])%list
         | None => None
         end
  else None.

Fixpoint walk (f : gmap (list string) node) (cur : list string) (comps : list string)
  : option (list string) :=
  match comps with
  | [] => Some cur
  | c :: rest =>
      match step f cur c with
      | Some cur' => walk f cur' rest
      | None => None
      end
  end.

(** Where a lookup starts: the root or the working directory. *)
Definition start (w : world) (p : string) : list string :=
  if OsPath.isabs p then [] else cwd w.

(** The entry a path names, when there is one. *)
Definition resolve (w : world) (p : string) : option (list string) :=
  if String.eqb p "" then None
  else walk (fs w) (start w p) (OsPath.split_sep p).

(** [os.path.exists(p)]. *)
Definition exists_ (w : world) (p : string) : bool :=
  match resolve w p with Some _ => true | None => false end.

(** [os.path.isfile(p)]. *)
Definition isfile (w : world) (p : string) : bool :=
  match resolve w p with
  | Some k => match node_at (fs w) k with Some (File _ _ _) => true | _ => false end
  | None => false
  end.

(** [os.path.isdir(p)]. *)
Definition isdir (w : world) (p : string) : bool :=
  match resolve w p with Some k => is_dir (fs w) k | None => false end.

(** *** The errors of the operating system

    The error numbers the modelled calls fail with, the subclass of
    [OSError] Python raises for each, and the text of [str(e)]: the
    number, its description and the [repr] of the file names. *)
Inductive errno : Type :=
| EPERM | ENOENT | EBUSY | EEXIST | ENOTDIR | EISDIR | ENOTEMPTY.

Definition strerror (e : errno) : string :=
  match e with
  | EPERM => "[Errno 1] Operation not permitted"
  | ENOENT => "[Errno 2] No such file or directory"
  | EBUSY => "[Errno 16] Device or resource busy"
  | EEXIST => "[Errno 17] File exists"
  | ENOTDIR => "[Errno 20] Not a directory"
  | EISDIR => "[Errno 21] Is a directory"
  | ENOTEMPTY => "[Errno 39] Directory not empty"
  end.

Definition os_error (e : errno) (names : string) : exn :=
  let msg := strerror e ++ ": " ++ names in
  match e with
  | EPERM => PermissionError msg
  | ENOENT => FileNotFoundError msg
  | EEXIST => FileExistsError msg
  | ENOTDIR => NotADirectoryError msg
  | EISDIR => IsADirectoryError msg
  | EBUSY | ENOTEMPTY => OSError msg
  end.

(** The error of a call on one path, and of one on two. *)
Definition error_at (e : errno) (p : string) : exn := os_error e (Py.repr p).

Definition error_between (e : errno) (src dst : string) : exn :=
  os_error e (Py.repr src ++ " -> " ++ Py.repr dst).

Definition enoent (p : string) : exn := error_at ENOENT p.

Definition is_file (f : gmap (list string) node) (k : list string) : bool :=
  match node_at f k with
  | Some (File _ _ _) => true
  | _ => false
  end.

(** A walk that meets a regular file where it needs a directory fails
    with [ENOTDIR]; one that misses an entry fails with [ENOENT]. *)
Fixpoint blocked (f : gmap (list string) node) (cur : list string) (comps : list string)
  : bool :=
  match comps with
  | [] => false
  | c :: rest =>
      is_file f cur
      || match step f cur c with
         | Some cur' => blocked f cur' rest
         | None => false
         end
  end.

(** Why a walk from the directory [cur] fails, when it does. The
    starting point of a lookup is a directory; when the working
    directory is gone, nothing is found. *)
Definition walk_errno (f : gmap (list string) node) (cur : list string)
  (comps : list string) : errno :=
  if is_dir f cur && blocked f cur comps then ENOTDIR else ENOENT.

(** Why the lookup of [p] fails, when it does. *)
Definition lookup_errno (w : world) (p : string) : errno :=
  if String.eqb p "" then ENOENT
  else walk_errno (fs w) (start w p) (OsPath.split_sep p).

(** The directory a walk ends in. *)
Definition walk_dir (f : gmap (list string) node) (cur : list string) (comps : list string)
  : errno + list string :=
  match walk f cur comps with
  | Some d => if is_dir f d then inr d
              else inl (if is_dir f cur then ENOTDIR else ENOENT)
  | None => inl (walk_errno f cur comps)
  end.

(** The components of a path without the empty ones at its end. *)
Fixpoint strip_trailing (comps : list string) : list string :=
  match comps with
  | [] => []
  | c :: rest =>
      match strip_trailing rest with
      | [] => if String.eqb c "" then [] else [c]
      | r => c :: r
      end
  end.

(** The directory of the last component of [p], that component, and
    whether separators follow it. The path [/] has no last component. *)
Definition parentat (w : world) (p : string) : errno + (list string * string * bool) :=
  if String.eqb p "" then inl ENOENT
  else
    let slash := String.eqb (OsPath.final_name p) "" in
    let comps := if slash then strip_trailing (OsPath.split_sep p)
                 else OsPath.split_sep p in
    match walk_dir (fs w) (start w p) (removelast comps) with
    | inr d => inr (d, List.last comps EmptyString, slash)
    | inl e => inl e
    end.

(** [os.path.getmtime(p)]; the code asks only for regular files. *)
Definition getmtime (p : string) : M world Z :=
  fun w => match resolve w p with
           | Some k => match node_at (fs w) k with
                       | Some (File _ m _) => (Ok m, w)
                       | _ => (Ok 0, w)
                       end
           | None => (Raise (error_at (lookup_errno w p) p), w)
           end.

(** The name of [k] when it is an entry of the directory [d]. *)
Definition child_of (d k : list string) : option string :=
  match k with
  | [] => None
  | _ :: _ =>
      if bool_decide (removelast k = d) then Some (List.last k EmptyString) else None
  end.

(** [os.listdir(p)]: the names of the entries of a directory, in the
    order the file system lists them. *)
Definition listdir (p : string) : M world (list string) :=
  fun w => match resolve w p with
           | Some d =>
               if is_dir (fs w) d
               then (Ok (omap (fun kn => child_of d (fst kn)) (map_to_list (fs w))), w)
               else (Raise (error_at ENOTDIR p), w)
           | None => (Raise (error_at (lookup_errno w p) p), w)
           end.

(** [os.remove(p)]. *)
Definition remove (p : string) : M world unit :=
  fun w => match resolve w p with
           | Some k =>
               match node_at (fs w) k with
               | Some (File _ _ false) => (Ok tt, with_fs w (delete k (fs w)))
               | Some (File _ _ true) => (Raise (error_at EPERM p), w)
               | _ => (Raise (error_at EISDIR p), w)
               end
           | None => (Raise (error_at (lookup_errno w p) p), w)
           end.

(** The directory and the name under which the last component of [p]
    is, or would be, entered as a regular file. *)
Definition locate (w : world) (p : string) : result (list string * string) :=
  match parentat w p with
  | inr (d, n, slash) =>
      if OsPath.is_name n && negb slash then Ok (d, n) else Raise (error_at EISDIR p)
  | inl e => Raise (error_at e p)
  end.

(** Creating or overwriting the regular file [p] with content [c]
    ([open(p, 'wb')], [doc.save(p)], [img.save(p)]). *)
Definition write_file (p : string) (c : content) : M world unit :=
  fun w => match locate w p with
           | Ok (d, n) =>
               match node_at (fs w) (d ++ [n])%list with
               | Some Dir => (Raise (error_at EISDIR p), w)
               | Some (File _ _ true) => (Raise (error_at EPERM p), w)
               | _ => (Ok tt, with_fs w (<[(d ++ [n])%list := File c (clock w) false]> (fs w)))
               end
           | Raise e => (Raise e, w)
           end.

(** Reading the regular file [p]. *)
Definition read_file (p : string) : M world content :=
  fun w => match resolve w p with
           | Some k =>
               match node_at (fs w) k with
               | Some (File c _ _) => (Ok c, w)
               | _ => (Raise (error_at EISDIR p), w)
               end
           | None => (Raise (error_at (lookup_errno w p) p), w)
           end.

(** [k] lies below [d]. *)
Definition below (d k : list string) : bool :=
  bool_decide (d <> k) && bool_decide (take (List.length d) k = d).

(** [os.rename(src, dst)] for a regular file [src]; moving a directory
    tree is not modelled and reported as an error of the library. The
    directories of both names are looked up first; then a name that is
    [.], [..] or the root is refused, the source must be there, and
    separators after the name of a regular file are refused. Renaming a
    file to itself does nothing; a directory is no destination for a
    file, and an ancestor of the source is reported as not empty. *)
Definition rename (src dst : string) : M world unit :=
  fun w =>
    match parentat w src with
    | inl e => (Raise (error_between e src dst), w)
    | inr (ds, ns, slash_s) =>
        match parentat w dst with
        | inl e => (Raise (error_between e src dst), w)
        | inr (dd, nd, slash_d) =>
            if negb (OsPath.is_name ns && OsPath.is_name nd)
            then (Raise (error_between EBUSY src dst), w)
            else
              let k := (ds ++ [ns])%list in
              let k' := (dd ++ [nd])%list in
              match node_at (fs w) k with
              | None => (Raise (error_between ENOENT src dst), w)
              | Some Dir => (Raise (LibraryError "rename of a directory"), w)
              | Some (File c m immutable) =>
                  if slash_s || slash_d
                  then (Raise (error_between ENOTDIR src dst), w)
                  else if below k' k
                  then (Raise (error_between ENOTEMPTY src dst), w)
                  else if bool_decide (k = k') then (Ok tt, w)
                  else if immutable
                  then (Raise (error_between EPERM src dst), w)
                  else
                    match node_at (fs w) k' with
                    | Some Dir => (Raise (error_between EISDIR src dst), w)
                    | Some (File _ _ true) => (Raise (error_between EPERM src dst), w)
                    | _ => (Ok tt, with_fs w (<[k' := File c m false]> (delete k (fs w))))
                    end
              end
        end
    end.

(** [os.mkdir(p)]. *)
Definition mkdir (p : string) : M world unit :=
  fun w =>
    match parentat w p with
    | inl e => (Raise (error_at e p), w)
    | inr (d, n, _) =>
        if OsPath.is_name n
        then match node_at (fs w) (d ++ [n])%list with
             | Some _ => (Raise (error_at EEXIST p), w)
             | None => (Ok tt, with_fs w (<[(d ++ [n])%list := Dir]> (fs w)))
             end
        else (Raise (error_at EEXIST p), w)
    end.

(** The end of [os.makedirs]: [mkdir(name)], whose [OSError] is passed
    on unless [exist_ok] holds and [name] is a directory. *)
Definition mkdir_exist_ok (name : string) : M world unit :=
  try_except (mkdir name)
    (fun e => w <- get ;; if negb (isdir w name) then raise e else ret tt)%py.

(** [os.makedirs(name, exist_ok=True)], as the library has it: the head
    of the path is made first when it does not exist, a
    [FileExistsError] of that call is passed over, and a path that ends
    in [.] is then taken to be there. [fuel] bounds the depth of the
    recursion; the length of the name is enough, the head being
    shorter. *)
Fixpoint makedirs_rec (fuel : nat) (name : string) : M world unit :=
  (let '(head, tail) := OsPath.split name in
   let '(head, tail) := if String.eqb tail "" then OsPath.split head else (head, tail) in
   w <- get ;;
   if negb (String.eqb head "") && negb (String.eqb tail "")
      && negb (exists_ w head)
   then
     match fuel with
     | S fuel' =>
         try_except (makedirs_rec fuel' head)
           (fun e => match e with
                     | FileExistsError _ => ret tt
                     | _ => raise e
                     end)
     | O => ret tt
     end ;;;
     if String.eqb tail "." then ret tt else mkdir_exist_ok name
   else mkdir_exist_ok name)%py.

Definition makedirs (p : string) : M world unit :=
  makedirs_rec (String.length p) p.

(** [time.time()]. *)
Definition time : M world Z := fun w => (Ok (clock w), w).


(** [print(line)]. *)
Definition print (line : string) : M world unit :=
  fun w => (Ok tt, {| fs := fs w; cwd := cwd w; clock := clock w;
                      stdout := (stdout w ++ [line])%list |}).



(** Two file systems with the same directories. *)
Definition same_dirs (f f' : gmap (list string) node) : Prop :=
  forall k, is_dir f k = is_dir f' k.

(** The entry under the last component of [p], when its directory is
    there. *)
Definition entry (w : world) (p : string) : option node :=
  match locate w p with
  | Ok (d, n) => node_at (fs w) (d ++ [n])%list
  | Raise _ => None
  end.

(** [repr(cmd)] for a list of strings. *)
Definition repr_list (cmd : list string) : string :=
  "[" ++ String.concat ", " (List.map Py.repr cmd) ++ "]".

(** The members of [signal.Signals] on Linux. *)
Definition signal_name (n : Z) : option string :=
  if n =? 34 then Some "SIGRTMIN"
  else if n =? 64 then Some "SIGRTMAX"
  else if n <=? 0 then None
  else
    List.nth_error
      [ "SIGHUP"; "SIGINT"; "SIGQUIT"; "SIGILL"; "SIGTRAP"; "SIGABRT"; "SIGBUS";
        "SIGFPE"; "SIGKILL"; "SIGUSR1"; "SIGSEGV"; "SIGUSR2"; "SIGPIPE";
        "SIGALRM"; "SIGTERM"; "SIGSTKFLT"; "SIGCHLD"; "SIGCONT"; "SIGSTOP";
        "SIGTSTP"; "SIGTTIN"; "SIGTTOU"; "SIGURG"; "SIGXCPU"; "SIGXFSZ";
        "SIGVTALRM"; "SIGPROF"; "SIGWINCH"; "SIGIO"; "SIGPWR"; "SIGSYS" ]
      (Z.to_nat (n - 1)).

(** [str(e)]. *)
Definition str (e : exn) : string :=
  match e with
  | ValueError msg => msg
  | KeyError key => Py.repr key
  | IndexError msg => msg
  | OSError msg => msg
  | FileNotFoundError msg => msg
  | FileExistsError msg => msg
  | IsADirectoryError msg => msg
  | NotADirectoryError msg => msg
  | PermissionError msg => msg
  | CalledProcessError rc cmd =>
      if rc <? 0
      then match signal_name (- rc) with
           | Some name =>
               "Command '" ++ repr_list cmd ++ "' died with <Signals." ++ name
               ++ ": " ++ pretty (- rc) ++ ">."
           | None =>
               "Command '" ++ repr_list cmd ++ "' died with unknown signal "
               ++ pretty (- rc) ++ "."
           end
      else "Command '" ++ repr_list cmd ++ "' returned non-zero exit status "
           ++ pretty rc ++ "."
  | PackageNotFoundError msg => msg
  | LibraryError msg => msg
  end.

End Os.


(** ** services/template_processor.py *)

Module TemplateProcessor.

(** [self.template_dir]: the root of the project. *)
Definition template_dir : string := ".".

(** [self.templates]. *)
Definition templates : gmap string string :=
  <["a4" := "Formato a4.docx"]> (<["4x1" := "Formato 4x1.docx"]> ∅).

Definition marker_fecha : string := "{{fecha_evento}}".
Definition marker_hora : string := "{{hora_evento}}".
Definition marker_lugar : string := "{{lugar_evento}}".
Definition marker_referencia : string := "{{referencia_evento}}".

(** [data.get(key, "")]. *)
Definition get_or_empty (data : gmap string string) (key : string) : string :=
  match data !! key with
  | Some v => v
  | None => EmptyString
  end.

(** The dict [replacements], in the order its items are iterated. *)
Definition replacements (data : gmap string string) : list (string * string) :=
  [ (marker_fecha, get_or_empty data "fecha_evento");
    (marker_hora, get_or_empty data "hora_evento");
    (marker_lugar, get_or_empty data "lugar_evento");
    (marker_referencia, get_or_empty data "referencia_evento") ].

(** The inner loop of [_replace_in_runs], on one run. *)
Definition replace_marker (r : Docx.run) (mv : string * string) : Docx.run :=
  if Py.contains (fst mv) (Docx.text r)
  then {| Docx.text := Py.replace (Docx.text r) (fst mv) (snd mv);
          Docx.rPr := Docx.rPr r |}
  else r.

Definition replace_in_run (data : gmap string string) (r : Docx.run) : Docx.run :=
  fold_left replace_marker (replacements data) r.

(** [_replace_in_runs(runs, data)], on the store of runs. *)
Definition _replace_in_runs (runs : list nat) (data : gmap string string)
  (store : list Docx.run) : list Docx.run :=
  fold_left (fun st i => alter (replace_in_run data) i st) runs store.

(** The loop over [doc.paragraphs]. *)
Definition replace_in_paragraphs (ps : list Docx.paragraph) (data : gmap string string)
  (store : list Docx.run) : list Docx.run :=
  fold_left (fun st p => _replace_in_runs p data st) ps store.

(** The loops over [doc.tables], [table.rows], [row.cells] and
    [cell.paragraphs]. *)
Definition replace_in_tables (ts : list Docx.table) (data : gmap string string)
  (store : list Docx.run) : list Docx.run :=
  fold_left (fun st table =>
    fold_left (fun st row =>
      fold_left (fun st cell => replace_in_paragraphs cell data st) row st)
      table st)
    ts store.

Definition replace_in_document (data : gmap string string) (doc : Docx.document)
  : Docx.document :=
  {| Docx.runs := replace_in_tables (Docx.tables doc) data
                    (replace_in_paragraphs (Docx.paragraphs doc) data (Docx.runs doc));
     Docx.paragraphs := Docx.paragraphs doc;
     Docx.tables := Docx.tables doc |}.

(** [Document(path)]. *)
Definition Document (path : string) : M Os.world Docx.document :=
  fun w => match Os.read_file path w with
           | (Ok (Os.DocxFile d), _) => (Ok d, w)
           | _ => (Raise (PackageNotFoundError ("Package not found at '" ++ path ++ "'")), w)
           end.

(** [process_template]. *)
Definition process_template (template_type : string) (data : gmap string string)
  (output_path : string) : M Os.world string :=
  (name <- lift (match templates !! template_type with
                 | Some n => Ok n
                 | None => Raise (KeyError template_type)
                 end) ;;
   let template_path := OsPath.join template_dir name in
   w <- get ;;
   if negb (Os.exists_ w template_path)
   then raise (FileNotFoundError ("Plantilla no encontrada: " ++ template_path))
   else
     doc <- Document template_path ;;
     Os.write_file output_path (Os.DocxFile (replace_in_document data doc)) ;;;
     ret output_path)%py.

(** *** Reading the text of a run

    The text of a run as literal pieces and markers, to state what the
    replacement does. *)

Inductive marker : Type := fecha | hora | lugar | referencia.

#[global] Instance marker_eq_dec : EqDecision marker.
Proof. solve_decision. Defined.

Definition marker_text (k : marker) : string :=
  match k with
  | fecha => marker_fecha
  | hora => marker_hora
  | lugar => marker_lugar
  | referencia => marker_referencia
  end.

(** The field a marker stands for. *)
Definition field_value (data : gmap string string) (k : marker) : string :=
  match k with
  | fecha => get_or_empty data "fecha_evento"
  | hora => get_or_empty data "hora_evento"
  | lugar => get_or_empty data "lugar_evento"
  | referencia => get_or_empty data "referencia_evento"
  end.

Inductive segment : Type :=
| Lit (s : string)
| Mark (k : marker).

(** The text of the segments once the markers in [done] stand for their
    fields. *)
Fixpoint partial_fill (done : list marker) (data : gmap string string)
  (segs : list segment) : string :=
  match segs with
  | [] => EmptyString
  | Lit s :: rest => s ++ partial_fill done data rest
  | Mark k :: rest =>
      (if bool_decide (k ∈ done) then field_value data k else marker_text k)
      ++ partial_fill done data rest
  end.

(** The text as the template has it. *)
Definition render (segs : list segment) : string := partial_fill [] ∅ segs.

(** The text with every marker replaced by its field. *)
Definition fill (data : gmap string string) (segs : list segment) : string :=
  partial_fill [fecha; hora; lugar; referencia] data segs.

(** A piece of text opens the marker [m] when one of its non-empty ends
    starts with [m] or is a beginning of [m]: the piece then holds [m], or
    may form it with the text that follows. *)
Fixpoint opens (m s : string) : bool :=
  match s with
  | EmptyString => false
  | String _ s' => Py.startswith s m || Py.startswith m s || opens m s'
  end.

(** Text that opens none of the four markers. A single brace inside the
    text, as in [Sala {A}], is inert; text that ends in a brace is not. *)
Definition inert (s : string) : bool :=
  negb (opens marker_fecha s) && negb (opens marker_hora s)
  && negb (opens marker_lugar s) && negb (opens marker_referencia s).

(** The literal pieces are inert. *)
Definition plain (segs : list segment) : bool :=
  forallb (fun seg => match seg with Lit s => inert s | Mark _ => true end) segs.

(** The four fields are inert. *)
Definition plain_fields (data : gmap string string) : bool :=
  inert (field_value data fecha) && inert (field_value data hora)
  && inert (field_value data lugar) && inert (field_value data referencia).

(** The runs the loops of [process_template] reach, in order, with
    repetitions. *)
Definition visited (doc : Docx.document) : list nat :=
  (concat (Docx.paragraphs doc)
   ++ concat (concat (concat (concat (Docx.tables doc)))))%list.

End TemplateProcessor.

(** ** reportlab.pdfgen.canvas *)

Module Reportlab.

Record canvas : Type := mk_canvas {
  filename : string;
  pagesize : Z * Z;
  code : list Pdf.item;       (* what was drawn on the current page *)
  pages : list Pdf.page       (* the pages already shown *)
}.

(** [canvas.Canvas(filename, pagesize=pagesize)]. *)
Definition Canvas (filename : string) (pagesize : Z * Z) : canvas :=
  {| filename := filename; pagesize := pagesize; code := []; pages := [] |}.

(** [c.drawImage(image, x, y, width=width, height=height)] with the
    path of an image file. *)
Definition drawImage (c : canvas) (image : string) (x y width height : Z)
  : M Os.world canvas :=
  (content <- Os.read_file image ;;
   match content with
   | Os.TiffFile img =>
       ret {| filename := filename c; pagesize := pagesize c;
              code := (code c ++ [Pdf.Image img x y width height])%list;
              pages := pages c |}
   | _ => raise (LibraryError ("cannot identify image file '" ++ image ++ "'"))
   end)%py.

(** [c.showPage()]. *)
Definition showPage (c : canvas) : canvas :=
  {| filename := filename c; pagesize := pagesize c; code := [];
     pages := (pages c ++ [ {| Pdf.pagesize := pagesize c; Pdf.items := code c |} ])%list |}.

(** [c.save()]: the page being drawn is shown, and the file written. *)
Definition save (c : canvas) : M Os.world unit :=
  let c' := match code c with [] => c | _ :: _ => showPage c end in
  Os.write_file (filename c') (Os.PdfFile (pages c')).

End Reportlab.

(** ** services/document_generator.py *)

Module DocumentGenerator.

(** What the generator calls outside Python: the programs it launches
    and the rasteriser of pdf2image. *)
Record externals : Type := mk_externals {
  (** Launching [cmd] and waiting for it: the exit status, or [None]
      when the executable is not found; the program may change the
      file system. *)
  run_process : list string -> Os.world -> option Z * Os.world;
  (** [convert_from_path(path, dpi=dpi)]. *)
  convert_from_path : string -> Z -> Os.world -> result (list Pil.image)
}.

(** The dicts of the list [generate_all] returns; error entries alone
    have a [message]. *)
Record DocumentInfo : Type := mk_info {
  type : string;
  filename : string;
  status : string;
  message : option string
}.

(** The three variants of the specification and the generator of each. *)
Inductive variant : Type := compact | banner | large_format.

Definition suffix (v : variant) : string :=
  match v with
  | compact => "a4"
  | banner => "4x1"
  | large_format => "gigantografia"
  end.

(** [target_size], also the [pagesize] and the extent of the drawn image. *)
Definition target_size : Z * Z := (11811, 17717).

(** Python's [round] on a rational: half-way cases go to the even
    neighbour. *)
Definition py_round (q : Q) : Z :=
  let f := Qfloor q in
  match Qcompare (q - inject_Z f) (1 # 2) with
  | Lt => f
  | Gt => f + 1
  | Eq => if Z.even f then f else f + 1
  end.

(** The pixels of [cm] centimetres at [dpi] dots per inch:
    [round(cm / 2.54 * dpi)]. *)
Definition pixels_of_cm (cm dpi : Z) : Z :=
  py_round (inject_Z cm / (254 # 100) * inject_Z dpi)%Q.

Section Generator.

Variable E : externals.
Variable temp_storage : string.      (* [self.temp_storage] *)

(** [__init__]. *)
Definition init : M Os.world unit := Os.makedirs temp_storage.

(** [subprocess.run(cmd, check=True, capture_output=True)]. *)
Definition subprocess_run (cmd : list string) : M Os.world unit :=
  fun w => match run_process E cmd w with
           | (None, w') => (Raise (Os.enoent (List.hd EmptyString cmd)), w')
           | (Some rc, w') =>
               if rc =? 0 then (Ok tt, w')
               else (Raise (CalledProcessError rc cmd), w')
           end.

(** [_convert_docx_to_pdf]. *)
Definition _convert_docx_to_pdf (docx_path pdf_path : string) : M Os.world unit :=
  (let cmd := [ "libreoffice"; "--headless"; "--convert-to"; "pdf";
                "--outdir"; OsPath.dirname pdf_path; docx_path ] in
   subprocess_run cmd ;;;
   let generated_pdf := Py.replace docx_path ".docx" ".pdf" in
   if negb (String.eqb generated_pdf pdf_path)
   then Os.rename generated_pdf pdf_path
   else ret tt)%py.

(** [_generate_a4]. *)
Definition _generate_a4 (data : gmap string string) (project_name : string)
  : M Os.world string :=
  (let docx_path := OsPath.join temp_storage (project_name ++ "_a4.docx") in
   let pdf_path := OsPath.join temp_storage (project_name ++ "_a4.pdf") in
   TemplateProcessor.process_template "a4" data docx_path ;;;
   _convert_docx_to_pdf docx_path pdf_path ;;;
   ret (project_name ++ "_a4.pdf"))%py.

(** [_generate_4x1]. *)
Definition _generate_4x1 (data : gmap string string) (project_name : string)
  : M Os.world string :=
  (let docx_path := OsPath.join temp_storage (project_name ++ "_4x1.docx") in
   let pdf_path := OsPath.join temp_storage (project_name ++ "_4x1.pdf") in
   TemplateProcessor.process_template "4x1" data docx_path ;;;
   _convert_docx_to_pdf docx_path pdf_path ;;;
   ret (project_name ++ "_4x1.pdf"))%py.

(** [_generate_gigantografia]. *)
Definition _generate_gigantografia (data : gmap string string) (project_name : string)
  : M Os.world string :=
  (let docx_path := OsPath.join temp_storage (project_name ++ "_giga_temp.docx") in
   let pdf_temp_path := OsPath.join temp_storage (project_name ++ "_giga_temp.pdf") in
   let pdf_final_path :=
     OsPath.join temp_storage (project_name ++ "_gigantografia.pdf") in
   TemplateProcessor.process_template "a4" data docx_path ;;;
   _convert_docx_to_pdf docx_path pdf_temp_path ;;;
   images <- (fun w => (convert_from_path E pdf_temp_path 300 w, w)) ;;
   img <- lift (Py.index images 0) ;;
   let img := if negb (String.eqb (Pil.mode img) "CMYK")
              then Pil.convert "CMYK" img else img in
   let img_resized := Pil.resize target_size img in
   let c := Reportlab.Canvas pdf_final_path (11811, 17717) in
   let temp_img_path := OsPath.join temp_storage (project_name ++ "_temp.tiff") in
   Os.write_file temp_img_path (Os.TiffFile img_resized) ;;;
   c <- Reportlab.drawImage c temp_img_path 0 0 11811 17717 ;;
   Reportlab.save c ;;;
   Os.remove temp_img_path ;;;
   Os.remove pdf_temp_path ;;;
   Os.remove docx_path ;;;
   ret (project_name ++ "_gigantografia.pdf"))%py.

Definition success_info (type filename : string) : DocumentInfo :=
  {| type := type; filename := filename; status := "success"; message := None |}.

Definition error_info (type : string) (e : exn) : DocumentInfo :=
  {| type := type; filename := EmptyString; status := "error";
     message := Some (Os.str e) |}.

(** [generate_all]. *)
Definition generate_all (data : gmap string string) (project_name : string)
  : M Os.world (list DocumentInfo) :=
  (let results := [] in
   results <- try_except
     (a4_filename <- _generate_a4 data project_name ;;
      ret (results ++ [success_info "a4" a4_filename])%list)
     (fun e => ret (results ++ [error_info "a4" e])%list) ;;
   results <- try_except
     (format_4x1_filename <- _generate_4x1 data project_name ;;
      ret (results ++ [success_info "4x1" format_4x1_filename])%list)
     (fun e => ret (results ++ [error_info "4x1" e])%list) ;;
   results <- try_except
     (giga_filename <- _generate_gigantografia data project_name ;;
      ret (results ++ [success_info "gigantografia" giga_filename])%list)
     (fun e => ret (results ++ [error_info "gigantografia" e])%list) ;;
   ret results)%py.

(** [generate_all] as the error-handling section of the design writes
    it: one loop over the three generator methods. *)
Definition generate_all_loop (data : gmap string string) (project_name : string)
  : M Os.world (list DocumentInfo) :=
  (results <- for_fold
     [ ("a4", _generate_a4); ("4x1", _generate_4x1);
       ("gigantografia", _generate_gigantografia) ]
     (fun results (m : string * (gmap string string -> string -> M Os.world string)) =>
        let '(doc_type, generator_method) := m in
        try_except
          (filename <- generator_method data project_name ;;
           ret (results ++ [success_info doc_type filename])%list)
          (fun e => ret (results ++ [error_info doc_type e])%list))
     [] ;;
   ret results)%py.

(** The generator of a variant. *)
Definition generate (v : variant) : gmap string string -> string -> M Os.world string :=
  match v with
  | compact => _generate_a4
  | banner => _generate_4x1
  | large_format => _generate_gigantografia
  end.

(** The entry [generate_all] appends for what a generator returned or
    raised. *)
Definition info_of (v : variant) (r : result string) : DocumentInfo :=
  match r with
  | Ok name => success_info (suffix v) name
  | Raise e => error_info (suffix v) e
  end.

End Generator.

End DocumentGenerator.

(** ** services/file_service.py *)

Module FileService.

Section Service.

Variable storage_path : string.      (* [self.storage_path] *)
Variable cleanup_hours : Z.          (* [self.cleanup_hours] *)

(** [__init__]. *)
Definition init : M Os.world unit := Os.makedirs storage_path.


(** The body of the loop of [cleanup_old_files]. *)
Definition cleanup_one (cutoff : Z) (filename : string) : M Os.world unit :=
  (let file_path := OsPath.join storage_path filename in
   w <- get ;;
   if Os.isfile w file_path
   then
     file_age <- Os.getmtime file_path ;;
     if file_age <? cutoff
     then try_except (Os.remove file_path)
            (fun e => Os.print ("Error eliminando " ++ filename ++ ": " ++ Os.str e))
     else ret tt
   else ret tt)%py.


(** [cleanup_old_files]. *)
Definition cleanup_old_files : M Os.world unit :=
  (now <- Os.time ;;
   let cutoff := now - cleanup_hours * 3600 in
   names <- Os.listdir storage_path ;;
   for_each names (cleanup_one cutoff))%py.

End Service.

End FileService.

(** ** The endpoints of main.py *)

Module Api.

(** What an endpoint answers: the body of a 200 response, or the
    [HTTPException] it raises. *)
Inductive http (A : Type) : Type :=
| Response (body : A)
| HTTPException (status_code : Z) (detail : string).
Arguments Response {A} body.
Arguments HTTPException {A} status_code detail.

Definition iacute : string := String "237"%char "".

Record ValidateAnswerRequest : Type := mk_validate_request {
  session_id : string;
  question_number : Z;
  answer : string
}.

Record ValidationResponse : Type := mk_validation {
  success : bool;
  message : string;
  next_question : option Z;
  question_text : option string
}.

(** [ValidationResponse] built from the keys of the dict [result].
    The field [message] is declared
    without a default: a dict that lacks the key is refused with
    pydantic's [ValidationError], a subclass of [ValueError]. *)
Definition ValidationResponse_of (res : AuthService.response)
  : result ValidationResponse :=
  match AuthService.message res with
  | Some m =>
      Ok {| success := AuthService.success res;
            message := m;
            next_question := AuthService.next_question res;
            question_text := AuthService.question_text res |}
  | None => Raise (ValueError "1 validation error for ValidationResponse")
  end.

(** [isinstance(e, InvalidSessionError)]. The class is declared beside
    the endpoint and raised nowhere: no exception of the services is an
    instance of it. *)
Definition is_InvalidSessionError (e : exn) : bool := false.

(** [POST /api/auth/validate-answer]. *)
Definition validate_answer (request : ValidateAnswerRequest)
  : AuthService.sessions -> http ValidationResponse * AuthService.sessions :=
  fun ss =>
    match (res <- AuthService.validate_answer (session_id request)
                    (question_number request) (answer request) ;;
           lift (ValidationResponse_of res))%py ss with
    | (Ok v, ss') => (Response v, ss')
    | (Raise e, ss') =>
        if is_InvalidSessionError e
        then (HTTPException 401
                ("Sesi" ++ AuthService.oacute ++ "n inv" ++ AuthService.aacute ++ "lida"),
              ss')
        else (HTTPException 500 "Error interno del servidor", ss')
    end.

(** The body of [POST /api/generate] once pydantic has accepted it. A
    body whose [referencia_evento] is [null] is not covered: the field
    holds a string here. *)
Record GenerateRequest : Type := mk_generate_request {
  g_session_id : string;
  fecha_evento : string;
  hora_evento : string;
  lugar_evento : string;
  referencia_evento : string;
  nombre_proyecto : string
}.

Record GenerateResponse : Type := mk_generate_response {
  g_success : bool;
  documents : list DocumentGenerator.DocumentInfo
}.


Section Services.

Variable E : DocumentGenerator.externals.
Variable temp_storage : string.      (* of [document_generator] *)
Variable storage_path : string.      (* of [file_service] *)

(** The dict the endpoint hands to [generate_all]. *)
Definition event_data (request : GenerateRequest) : gmap string string :=
  <["fecha_evento" := fecha_evento request]>
 (<["hora_evento" := hora_evento request]>
 (<["lugar_evento" := lugar_evento request]>
 (<["referencia_evento" := referencia_evento request]> ∅))).

(** [POST /api/generate]; [ss] is the session store of [auth_service]. *)
Definition generate_documents (request : GenerateRequest) (ss : AuthService.sessions)
  : Os.world -> http GenerateResponse * Os.world :=
  fun w =>
    if negb (AuthService.is_authenticated (g_session_id request) ss)
    then (HTTPException 401 ("Sesi" ++ AuthService.oacute ++ "n no autenticada"), w)
    else if String.eqb (Py.strip (nombre_proyecto request)) ""
    then (HTTPException 400 ("nombre_proyecto no puede estar vac" ++ iacute ++ "o"), w)
    else
      match DocumentGenerator.generate_all E temp_storage (event_data request)
              (nombre_proyecto request) w with
      | (Ok results, w') =>
          (Response {| g_success := true; documents := results |}, w')
      | (Raise e, w') =>
          match e with
          | FileNotFoundError _ =>
              (HTTPException 500 ("Plantilla no encontrada: " ++ Os.str e), w')
          | _ =>
              (HTTPException 500 ("Error generando documentos: " ++ Os.str e), w')
          end
      end.


End Services.

End Api.

(** ** frontend/src/views/LoginView.vue *)

Module LoginView.

(** What an awaited call of the API client settles to: the data of the
    response, or an error with its [message]. *)
Inductive settled (A : Type) : Type :=
| Resolved (data : A)
| Rejected (message : Js.value).
Arguments Resolved {A} data.
Arguments Rejected {A} message.

(** The data of the two responses the view reads; a property the
    server left out is [undefined]. *)
Record StartData : Type := mk_start {
  session_id : Js.value;
  question_number : Js.value;
  total_questions : Js.value;
  start_question_text : Js.value
}.

Record AnswerData : Type := mk_answer {
  success : Js.value;
  message : Js.value;
  next_question : Js.value;
  question_text : Js.value
}.

(** The refs of the component. *)
Record refs : Type := mk_refs {
  currentQuestion : Js.value;
  totalQuestions : Js.value;
  questionText : Js.value;
  answer : Js.value;
  loading : Js.value;
  errorMessage : Js.value
}.

(** The component, the session store it uses and the names it passed to
    [router.push], oldest first. Moving the focus to the input is not
    modelled. *)
Record page : Type := mk_page {
  view : refs;
  store : SessionStore.state;
  pushed : list string
}.

(** The refs as [setup] initialises them. *)
Definition setup (st : SessionStore.state) : page :=
  {| view := {| currentQuestion := Js.number 1;
                totalQuestions := Js.number 3;
                questionText := Js.str "";
                answer := Js.str "";
                loading := Js.boolean false;
                errorMessage := Js.str "" |};
     store := st;
     pushed := [] |}.

(** The user types into the input bound to [answer]. *)
Definition type_answer (text : string) (p : page) : page :=
  {| view := {| currentQuestion := currentQuestion (view p);
                totalQuestions := totalQuestions (view p);
                questionText := questionText (view p);
                answer := Js.str text;
                loading := loading (view p);
                errorMessage := errorMessage (view p) |};
     store := store p;
     pushed := pushed p |}.

Section View.

(** The API client and the server behind it. *)
Variable Server : Type.
Variable startSession : Server -> settled StartData * Server.
Variable validateAnswer :
  Js.value -> Js.value -> Js.value -> Server -> settled AnswerData * Server.

(** The [onMounted] hook. *)
Definition onMounted (p : page) (s : Server) : page * Server :=
  match startSession s with
  | (Resolved response, s') =>
      ({| view := {| currentQuestion := question_number response;
                     totalQuestions := total_questions response;
                     questionText := start_question_text response;
                     answer := answer (view p);
                     loading := loading (view p);
                     errorMessage := errorMessage (view p) |};
          store := SessionStore.setSession (session_id response) (store p);
          pushed := pushed p |}, s')
  | (Rejected _, s') =>
      ({| view := {| currentQuestion := currentQuestion (view p);
                     totalQuestions := totalQuestions (view p);
                     questionText := questionText (view p);
                     answer := answer (view p);
                     loading := loading (view p);
                     errorMessage :=
                       Js.str ("Error al iniciar sesi" ++ AuthService.oacute
                               ++ "n. Por favor, intenta de nuevo.") |};
          store := store p;
          pushed := pushed p |}, s')
  end.

(** [handleSubmit]. *)
Definition handleSubmit (p : page) (s : Server) : page * Server :=
  match validateAnswer (SessionStore.sessionId (store p))
          (currentQuestion (view p)) (answer (view p)) s with
  | (Resolved response, s') =>
      if Js.truthy (success response)
      then
        if Js.truthy (next_question response)
        then
          ({| view := {| currentQuestion := next_question response;
                         totalQuestions := totalQuestions (view p);
                         questionText := question_text response;
                         answer := Js.str "";
                         loading := Js.boolean false;
                         errorMessage := Js.str "" |};
              store := store p;
              pushed := pushed p |}, s')
        else
          ({| view := {| currentQuestion := currentQuestion (view p);
                         totalQuestions := totalQuestions (view p);
                         questionText := questionText (view p);
                         answer := answer (view p);
                         loading := Js.boolean true;
                         errorMessage := Js.str "" |};
              store := SessionStore.setAuthenticated (Js.boolean true) (store p);
              pushed := (pushed p ++ ["generator"])%list |}, s')
      else
        ({| view := {| currentQuestion := next_question response;
                       totalQuestions := totalQuestions (view p);
                       questionText := question_text response;
                       answer := Js.str "";
                       loading := Js.boolean false;
                       errorMessage := message response |};
            store := store p;
            pushed := pushed p |}, s')
  | (Rejected m, s') =>
      ({| view := {| currentQuestion := currentQuestion (view p);
                     totalQuestions := totalQuestions (view p);
                     questionText := questionText (view p);
                     answer := answer (view p);
                     loading := Js.boolean false;
                     errorMessage :=
                       Js.or_ m (Js.str "Error al validar respuesta. Por favor, intenta de nuevo.") |};
          store := store p;
          pushed := pushed p |}, s')
  end.

(** The user answers with each text of [texts] in turn: typing it and
    submitting the form. *)
Fixpoint submit_all (texts : list string) (p : page) (s : Server) : page * Server :=
  match texts with
  | [] => (p, s)
  | text :: rest =>
      let '(p', s') := handleSubmit (type_answer text p) s in
      submit_all rest p' s'
  end.

End View.

Arguments onMounted {Server} startSession p s.
Arguments handleSubmit {Server} validateAnswer p s.
Arguments submit_all {Server} validateAnswer texts p s.

End LoginView.

(** ** A deployment to run the services on *)

Module Scenario.

(** A name without its last extension. *)
Fixpoint drop_ext (s : string) : string :=
  match s with
  | EmptyString => EmptyString
  | String c s' =>
      if Py.contains "." s' then String c (drop_ext s')
      else if Ascii.eqb c "." then EmptyString
      else s
  end.

(** The page LibreOffice prints for a document: A4, the runs in order. *)
Definition print_docx (d : Docx.document) : Pdf.page :=
  {| Pdf.pagesize := (595, 842);
     Pdf.items := List.map (fun r => Pdf.Text (Docx.text r)) (Docx.runs d) |}.

(** [libreoffice --headless --convert-to pdf --outdir DIR FILE]: the PDF
    takes the base name of the document and goes to [DIR]. *)
Definition soffice (cmd : list string) (w : Os.world) : option Z * Os.world :=
  match cmd with
  | [_; _; _; _; _; outdir; src] =>
      match Os.read_file src w with
      | (Ok (Os.DocxFile d), _) =>
          let out := OsPath.join outdir (drop_ext (OsPath.basename src) ++ ".pdf") in
          match Os.write_file out (Os.PdfFile [print_docx d]) w with
          | (Ok _, w') => (Some 0, w')
          | (Raise _, w') => (Some 1, w')
          end
      | _ => (Some 1, w)
      end
  | _ => (Some 1, w)
  end.

(** poppler at work: one RGB image per page. *)
Definition rasterise (path : string) (dpi : Z) (w : Os.world) : result (list Pil.image) :=
  match Os.read_file path w with
  | (Ok (Os.PdfFile pages), _) =>
      Ok (List.map (fun pg =>
                 {| Pil.mode := "RGB";
                    Pil.size := (fst (Pdf.pagesize pg) * dpi / 72,
                                 snd (Pdf.pagesize pg) * dpi / 72);
                    Pil.origin := path |}) pages)
  | _ => Raise (LibraryError "Unable to get page count.")
  end.

Definition installed : DocumentGenerator.externals :=
  {| DocumentGenerator.run_process := soffice;
     DocumentGenerator.convert_from_path := rasterise |}.

(** A host without poppler: the rasteriser raises. *)
Definition without_poppler : DocumentGenerator.externals :=
  {| DocumentGenerator.run_process := soffice;
     DocumentGenerator.convert_from_path :=
       fun _ _ _ => Raise (LibraryError "Unable to get page count. Is poppler installed and in PATH?") |}.

(** A LibreOffice that exits with status 0 and writes nothing. *)
Definition silent_office : DocumentGenerator.externals :=
  {| DocumentGenerator.run_process := fun _ w => (Some 0, w);
     DocumentGenerator.convert_from_path := rasterise |}.


(** The template: two runs in a paragraph, and a table whose row lists
    a merged cell twice. *)
Definition template : Docx.document :=
  {| Docx.runs :=
       [ {| Docx.text := "Fecha: {{fecha_evento}} a las {{hora_evento}}";
            Docx.rPr := "bold" |};
         {| Docx.text := "Te esperamos"; Docx.rPr := "italic" |};
         {| Docx.text := "{{lugar_evento}}"; Docx.rPr := "size=24" |};
         {| Docx.text := "Ref: {{referencia_evento}}"; Docx.rPr := "size=10" |} ];
     Docx.paragraphs := [ [0%nat; 1%nat] ];
     Docx.tables := [ [ [ [ [2%nat] ]; [ [3%nat] ]; [ [3%nat] ] ] ] ] |}.

(** The working directory [/srv/app] holds the two templates, the
    storage directory [temp_files] and a file of the application. *)
Definition host : Os.world :=
  {| Os.fs :=
       <[ ["srv"; "app"; "Formato a4.docx"] := Os.File (Os.DocxFile template) 1000 false ]>
      (<[ ["srv"; "app"; "Formato 4x1.docx"] := Os.File (Os.DocxFile template) 1000 false ]>
      (<[ ["srv"; "app"; ".env"] := Os.File (Os.Bytes "SECRET=1") 1000 false ]>
      (<[ ["srv"; "app"; "temp_files"] := Os.Dir ]>
      (<[ ["srv"; "app"] := Os.Dir ]>
      (<[ ["srv"] := Os.Dir ]> ∅)))));
     Os.cwd := ["srv"; "app"];
     Os.clock := 100000;
     Os.stdout := [] |}.

(** The host after the template of the compact variant was lost. *)
Definition host_without_a4 : Os.world :=
  Os.with_fs host (delete ["srv"; "app"; "Formato a4.docx"] (Os.fs host)).

(** The storage directory a day and more later: an old PDF, an old PDF
    that cannot be removed, a young PDF, and a subdirectory with an old
    file. *)
Definition stored : Os.world :=
  {| Os.fs :=
       <[ ["srv"; "app"; "temp_files"; "old.pdf"] := Os.File (Os.PdfFile []) 1000 false ]>
      (<[ ["srv"; "app"; "temp_files"; "locked.pdf"] := Os.File (Os.PdfFile []) 1000 true ]>
      (<[ ["srv"; "app"; "temp_files"; "young.pdf"] := Os.File (Os.PdfFile []) 99000 false ]>
      (<[ ["srv"; "app"; "temp_files"; "sub"; "old.pdf"] := Os.File (Os.PdfFile []) 1000 false ]>
      (<[ ["srv"; "app"; "temp_files"; "sub"] := Os.Dir ]> (Os.fs host)))));
     Os.cwd := ["srv"; "app"];
     Os.clock := 100000;
     Os.stdout := [] |}.


Definition event : gmap string string :=
  <["fecha_evento" := "15 de Diciembre"]>
 (<["hora_evento" := "7:00 PM"]>
 (<["lugar_evento" := "Auditorio Central"]>
 (<["referencia_evento" := ""]> ∅))).

Definition project : string := "Campa" ++ AuthService.ntilde ++ "a_Navidad".

(** A host without LibreOffice: the executable is not found. *)
Definition without_office : DocumentGenerator.externals :=
  {| DocumentGenerator.run_process := fun _ w => (None, w);
     DocumentGenerator.convert_from_path := rasterise |}.

(** A rasteriser that finds no page. *)
Definition no_pages : DocumentGenerator.externals :=
  {| DocumentGenerator.run_process := soffice;
     DocumentGenerator.convert_from_path := fun _ _ _ => Ok [] |}.

(** A document whose marker is split over two runs. *)
Definition split_marker : Docx.document :=
  {| Docx.runs :=
       [ {| Docx.text := "Fecha: {{fecha_"; Docx.rPr := "bold" |};
         {| Docx.text := "evento}}"; Docx.rPr := "italic" |} ];
     Docx.paragraphs := [ [0%nat; 1%nat] ];
     Docx.tables := [] |}.

(** A server that accepts whatever it is sent as the last answer, and
    one whose calls all fail. *)
Definition accepting (sid q a : Js.value) (s : unit)
  : LoginView.settled LoginView.AnswerData * unit :=
  (LoginView.Resolved
     {| LoginView.success := Js.boolean true;
        LoginView.message := Js.str "ok";
        LoginView.next_question := Js.null;
        LoginView.question_text := Js.null |}, s).

Definition unreachable (s : unit) : LoginView.settled LoginView.StartData * unit :=
  (LoginView.Rejected (Js.str "No se pudo conectar con el servidor"), s).

End Scenario.

(* ===================================================================== *)
(** * Part II: lemmas and theorems *)
(* ===================================================================== *)

(** ** The monad *)

Lemma bind_ok {S A B} (m : M S A) (f : A -> M S B) s b s' :
  bind m f s = (Ok b, s') ->
  exists a s1, m s = (Ok a, s1) /\ f a s1 = (Ok b, s').
Proof.
  unfold bind. destruct (m s) as [[a|e] s1]; intros H.
  - exists a, s1. split; [reflexivity | exact H].
  - discriminate H.
Qed.

Lemma bind_of_ok {S A B} (m : M S A) (f : A -> M S B) s a s1 :
  m s = (Ok a, s1) -> bind m f s = f a s1.
Proof. unfold bind. intros ->. reflexivity. Qed.

Lemma bind_of_raise {S A B} (m : M S A) (f : A -> M S B) s e s1 :
  m s = (Raise e, s1) -> bind m f s = (Raise e, s1).
Proof. unfold bind. intros ->. reflexivity. Qed.

(** ** The session store and the navigation guard *)

Section SessionStoreFacts.
Import SessionStore.

Lemma truthy_isAuthenticated st :
  Js.truthy (isAuthenticated st)
  = Js.truthy (authenticated st) && negb (bool_decide (sessionId st = Js.null)).
Proof.
  unfold isAuthenticated, Js.and_, Js.strict_ne.
  destruct (Js.truthy (authenticated st)) eqn:E; simpl; [reflexivity | exact E].
Qed.

Lemma isAuthenticated_boolean st b :
  authenticated st = Js.boolean b ->
  isAuthenticated st = Js.boolean (b && negb (bool_decide (sessionId st = Js.null))).
Proof.
  intros Hb. unfold isAuthenticated, Js.and_, Js.strict_ne. rewrite Hb.
  destruct b; reflexivity.
Qed.

Lemma guard_unauthenticated to st :
  Js.truthy (Router.meta_requiresAuth to) = true ->
  Js.truthy (isAuthenticated st) = false ->
  Router.beforeEach to st = Router.Redirect "login".
Proof.
  intros Hreq Hno. unfold Router.beforeEach, Js.and_, Js.not_.
  rewrite Hreq, Hno. reflexivity.
Qed.

End SessionStoreFacts.

(** C10. After every sequence of [setSession], [setAuthenticated] and
    [clearSession] calls, [isAuthenticated] is true exactly when the
    [authenticated] flag is true and [sessionId] is not [null]: the value
    is truthy exactly when the flag is truthy and the id is not [null],
    and it is the boolean [true] exactly when that holds for a boolean
    flag. Calling [setAuthenticated(true)] while [sessionId] is [null]
    leaves it [false]; after [clearSession] it is [false], and the guard
    then answers a navigation to the protected generator route, and to any
    route that requires authentication, with a redirect to [login]. *)
Theorem session_isAuthenticated_characterised :
  forall (acts : list SessionStore.action),
    let st := SessionStore.run acts SessionStore.init in
    (Js.truthy (SessionStore.isAuthenticated st) = true <->
       Js.truthy (SessionStore.authenticated st) = true
       /\ SessionStore.sessionId st <> Js.null)
    /\ (forall b, SessionStore.authenticated st = Js.boolean b ->
          (SessionStore.isAuthenticated st = Js.boolean true <->
             b = true /\ SessionStore.sessionId st <> Js.null))
    /\ (SessionStore.sessionId st = Js.null ->
          SessionStore.isAuthenticated
            (SessionStore.setAuthenticated (Js.boolean true) st) = Js.boolean false)
    /\ SessionStore.isAuthenticated (SessionStore.clearSession st) = Js.boolean false
    /\ Router.beforeEach Router.generator (SessionStore.clearSession st)
       = Router.Redirect "login"
    /\ (forall to, Js.truthy (Router.meta_requiresAuth to) = true ->
          Router.beforeEach to (SessionStore.clearSession st)
          = Router.Redirect "login").
Proof.
  intros acts st.
  assert (Hnn : forall v : Js.value,
             negb (bool_decide (v = Js.null)) = true <-> v <> Js.null).
  { intros v. rewrite negb_true_iff, bool_decide_eq_false. reflexivity. }
  split; [| split; [| split; [| split; [| split]]]].
  - rewrite truthy_isAuthenticated, andb_true_iff, Hnn. reflexivity.
  - intros b Hb. rewrite (isAuthenticated_boolean st b Hb).
    rewrite <- Hnn, <- andb_true_iff. split.
    + intros H. injection H as H. exact H.
    + intros H. rewrite H. reflexivity.
  - intros Hnull. unfold SessionStore.isAuthenticated, SessionStore.setAuthenticated.
    simpl. rewrite Hnull. reflexivity.
  - reflexivity.
  - reflexivity.
  - intros to Hreq. apply guard_unauthenticated; [exact Hreq | reflexivity].
Qed.

(** The claim at the calls the login view makes. *)
Lemma session_isAuthenticated_characterised_witness :
  SessionStore.isAuthenticated
    (SessionStore.setAuthenticated (Js.boolean true)
       (SessionStore.run [SessionStore.SetSession Js.null] SessionStore.init))
  = Js.boolean false.
Proof.
  exact (proj1 (proj2 (proj2
           (session_isAuthenticated_characterised [SessionStore.SetSession Js.null])))
           eq_refl).
Defined.

(** ** The authentication service *)

Section AuthServiceFacts.
Import AuthService.

(** The documented example of [_normalize_text]: inverted exclamation
    mark, comma and exclamation mark are dropped. *)
Example normalize_hola_mundo :
  _normalize_text (String "161"%char "Hola, Mundo!") = "hola mundo".
Proof. reflexivity. Qed.

Lemma index_questions (q : Z) :
  1 <= q <= 3 ->
  exists qu, Py.index security_questions (q - 1) = Ok qu
             /\ q_answer qu = expected_answer q.
Proof.
  intros Hq. assert (q = 1 \/ q = 2 \/ q = 3) as [-> | [-> | ->]] by lia;
    eexists; split; reflexivity.
Qed.

(** One call of [validate_answer] on a known session, for one of the
    three questions. *)
Lemma validate_answer_step sid (ss : sessions) sd q answer :
  ss !! sid = Some sd ->
  1 <= q <= 3 ->
  let correct := String.eqb (_normalize_text answer) (expected_answer q) in
  exists r,
    validate_answer sid q answer ss
    = (Ok r, alter (rule q correct) sid ss)
    /\ success r = correct.
Proof.
  intros Hsid Hq correct. unfold validate_answer.
  rewrite (bind_of_ok get _ ss ss ss eq_refl). rewrite Hsid.
  destruct (index_questions q Hq) as (qu & Hqu & Hans).
  unfold lift at 1. unfold bind at 1. rewrite Hqu, Hans.
  fold correct. unfold rule.
  destruct correct.
  - destruct (Z.eqb_spec q 3) as [-> | Hne].
    + eexists. split; reflexivity.
    + assert (Hlt : (q <? 3) = true) by (apply Z.ltb_lt; lia). rewrite Hlt.
      assert (q = 1 \/ q = 2) as [-> | ->] by lia; eexists; split; reflexivity.
  - eexists. split; reflexivity.
Qed.

Lemma rule_in_range q correct sd :
  1 <= q <= 3 ->
  1 <= current_question sd <= 3 ->
  1 <= current_question (rule q correct sd) <= 3.
Proof.
  intros Hq Hsd. unfold rule. destruct correct; simpl; [| lia].
  destruct (Z.ltb_spec q 3); simpl; lia.
Qed.

Lemma serve_follows sid rqs :
  forall (ss : sessions) sd,
    ss !! sid = Some sd ->
    Forall (fun rq => 1 <= rq_question rq <= 3) rqs ->
    Forall (fun r => exists resp, r = Ok resp) (fst (serve sid rqs ss))
    /\ snd (serve sid rqs ss) !! sid = Some (follow rqs sd)
    /\ (forall sid', sid' <> sid -> snd (serve sid rqs ss) !! sid' = ss !! sid').
Proof.
  induction rqs as [| rq rest IH]; intros ss sd Hsid Hall; simpl.
  - repeat split; [constructor | exact Hsid].
  - inversion Hall as [| ? ? Hq Hrest]; subst.
    destruct (validate_answer_step sid ss sd (rq_question rq) (rq_answer rq) Hsid Hq)
      as (r & Hr & _).
    rewrite Hr.
    assert (Hsid' : alter (rule (rq_question rq) (is_correct rq)) sid ss !! sid
                    = Some (rule (rq_question rq) (is_correct rq) sd)).
    { rewrite lookup_alter_eq, Hsid. reflexivity. }
    specialize (IH _ _ Hsid' Hrest) as (IH1 & IH2 & IH3).
    unfold is_correct in *.
    destruct (serve sid rest _) as [rs ss2]. simpl in *.
    split; [| split].
    + constructor; [eexists; reflexivity | exact IH1].
    + exact IH2.
    + intros sid' Hne. rewrite (IH3 sid' Hne). apply lookup_alter_ne. congruence.
Qed.

Lemma follow_in_range rqs :
  forall sd,
    Forall (fun rq => 1 <= rq_question rq <= 3) rqs ->
    1 <= current_question sd <= 3 ->
    1 <= current_question (follow rqs sd) <= 3.
Proof.
  induction rqs as [| rq rest IH]; intros sd Hall Hsd; simpl; [exact Hsd |].
  inversion Hall; subst. apply IH; [assumption |]. apply rule_in_range; assumption.
Qed.

End AuthServiceFacts.

(** What [validate_answer] does with the rules. For every session and
    every sequence of answer validations for the questions 1, 2 and 3,
    each call returns, and the state of the session changes by the rules
    with [q] the [question_number] of the request, whatever question the
    session is at: a correct answer for question [q < 3] sets
    [current_question] to [q + 1], a correct answer for question 3 sets
    [authenticated], an incorrect answer sets [current_question] to 1.
    The other sessions are untouched. *)
Theorem validate_answer_follows_rules :
  forall (sid : string) (ss : AuthService.sessions) (sd : AuthService.SessionData)
         (rqs : list AuthService.request),
    ss !! sid = Some sd ->
    1 <= AuthService.current_question sd <= 3 ->
    Forall (fun rq => 1 <= AuthService.rq_question rq <= 3) rqs ->
    Forall (fun r => exists resp, r = Ok resp) (fst (AuthService.serve sid rqs ss))
    /\ snd (AuthService.serve sid rqs ss) !! sid = Some (AuthService.follow rqs sd)
    /\ 1 <= AuthService.current_question (AuthService.follow rqs sd) <= 3
    /\ (forall sid', sid' <> sid ->
          snd (AuthService.serve sid rqs ss) !! sid' = ss !! sid')
    /\ (forall q answer, 1 <= q <= 3 ->
          let correct := String.eqb (AuthService._normalize_text answer)
                                    (AuthService.expected_answer q) in
          exists r,
            AuthService.validate_answer sid q answer ss
            = (Ok r, alter (AuthService.rule q correct) sid ss)
            /\ AuthService.success r = correct).
Proof.
  intros sid ss sd rqs Hsid Hsd Hall.
  destruct (serve_follows sid rqs ss sd Hsid Hall) as (H1 & H2 & H3).
  split; [exact H1 |]. split; [exact H2 |].
  split; [apply follow_in_range; assumption |].
  split; [exact H3 |].
  intros q answer Hq. apply (validate_answer_step sid ss sd q answer Hsid Hq).
Qed.

(** The three predefined answers, typed with capitals and punctuation,
    authenticate a fresh session. *)
Lemma validate_answer_follows_rules_witness :
  snd (AuthService.serve "s1"
         [ {| AuthService.rq_question := 1; AuthService.rq_answer := " Iglesia Central " |};
           {| AuthService.rq_question := 2; AuthService.rq_answer := "Lima!" |};
           {| AuthService.rq_question := 3; AuthService.rq_answer := "Esperanza  Viva" |} ]
         (snd (AuthService.create_session "s1" ∅))) !! "s1"
  = Some {| AuthService.session_id := "s1";
            AuthService.current_question := 3;
            AuthService.authenticated := true |}.
Proof.
  refine (proj1 (proj2
    (validate_answer_follows_rules "s1" (snd (AuthService.create_session "s1" ∅))
       {| AuthService.session_id := "s1"; AuthService.current_question := 1;
          AuthService.authenticated := false |}
       _ _ _ _))).
  - reflexivity.
  - simpl. lia.
  - repeat constructor; simpl; lia.
Defined.

(** C9 fails of the code: [validate_answer] takes the question from the
    request, not from the state of the session. On a fresh session, at
    question 1, the request for question 3 with the answer of question 3
    authenticates the session at once and leaves [current_question] at 1,
    where the rules on the state give an incorrect answer at question 1
    and no authentication. The request for question -1 with the answer of
    question 2 is indexed from the end of the list, counts as correct and
    sets [current_question] to 0, outside 1..3. *)
Lemma validate_answer_unchecked_question_counterexample :
  let ss := snd (AuthService.create_session "s1" ∅) in
  ss !! "s1" = Some {| AuthService.session_id := "s1";
                       AuthService.current_question := 1;
                       AuthService.authenticated := false |}
  /\ snd (AuthService.validate_answer "s1" 3 "esperanza viva" ss) !! "s1"
     = Some {| AuthService.session_id := "s1";
               AuthService.current_question := 1;
               AuthService.authenticated := true |}
  /\ (exists r, fst (AuthService.validate_answer "s1" (-1) "lima" ss) = Ok r
                /\ AuthService.success r = true
                /\ AuthService.next_question r = Some 3)
  /\ snd (AuthService.validate_answer "s1" (-1) "lima" ss) !! "s1"
     = Some {| AuthService.session_id := "s1";
               AuthService.current_question := 0;
               AuthService.authenticated := false |}
  /\ ~ (forall sid (ss : AuthService.sessions) sd question_number answer,
          ss !! sid = Some sd ->
          1 <= AuthService.current_question sd <= 3 ->
          snd (AuthService.validate_answer sid question_number answer ss) !! sid
          = Some (AuthService.rule (AuthService.current_question sd)
                    (String.eqb (AuthService._normalize_text answer)
                       (AuthService.expected_answer (AuthService.current_question sd)))
                    sd))
  /\ ~ (forall sid (ss : AuthService.sessions) sd question_number answer sd',
          ss !! sid = Some sd ->
          1 <= AuthService.current_question sd <= 3 ->
          snd (AuthService.validate_answer sid question_number answer ss) !! sid
          = Some sd' ->
          1 <= AuthService.current_question sd' <= 3).
Proof.
  intros ss. split; [reflexivity |]. split; [vm_compute; reflexivity |].
  split; [eexists; split; [vm_compute; reflexivity | split; reflexivity] |].
  split; [vm_compute; reflexivity |]. split.
  - intros H.
    specialize (H "s1" ss _ 3 "esperanza viva" eq_refl ltac:(simpl; lia)).
    vm_compute in H. discriminate H.
  - intros H.
    specialize (H "s1" ss _ (-1) "lima" _ eq_refl ltac:(simpl; lia) eq_refl).
    simpl in H. lia.
Qed.

(** ** The orchestrator *)

Ltac bind_inv H :=
  let a := fresh "a" in
  let w := fresh "w" in
  let Hm := fresh "Hstep" in
  apply bind_ok in H as (a & w & Hm & H).

Tactic Notation "bind_step" hyp(H) "as" ident(Hm) :=
  let a := fresh "a" in
  let w := fresh "w" in
  apply bind_ok in H as (a & w & Hm & H).

Section GeneratorFacts.
Import DocumentGenerator.

Variable E : externals.
Variable temp_storage : string.

Lemma try_except_info v (gen : M Os.world string) (results : list DocumentInfo) w :
  try_except
    (bind gen (fun name => ret (results ++ [success_info (suffix v) name])%list))
    (fun e => ret (results ++ [error_info (suffix v) e])%list) w
  = (Ok (results ++ [info_of v (fst (gen w))])%list, snd (gen w)).
Proof.
  unfold try_except, bind, ret. destruct (gen w) as [[name | e] w1]; reflexivity.
Qed.

Lemma generate_all_unfold data project_name w :
  let r1 := _generate_a4 E temp_storage data project_name w in
  let r2 := _generate_4x1 E temp_storage data project_name (snd r1) in
  let r3 := _generate_gigantografia E temp_storage data project_name (snd r2) in
  generate_all E temp_storage data project_name w
  = (Ok [ info_of compact (fst r1); info_of banner (fst r2);
          info_of large_format (fst r3) ], snd r3).
Proof.
  intros r1 r2 r3. unfold generate_all.
  rewrite (bind_of_ok _ _ w _ _ (try_except_info compact _ [] w)).
  rewrite (bind_of_ok _ _ _ _ _ (try_except_info banner _ _ _)).
  rewrite (bind_of_ok _ _ _ _ _ (try_except_info large_format _ _ _)).
  reflexivity.
Qed.

Lemma generate_filename v data project_name w name w' :
  generate E temp_storage v data project_name w = (Ok name, w') ->
  name = project_name ++ "_" ++ suffix v ++ ".pdf".
Proof.
  intros H. destruct v; simpl in H.
  - unfold _generate_a4 in H. do 2 bind_inv H. injection H as <- _. reflexivity.
  - unfold _generate_4x1 in H. do 2 bind_inv H. injection H as <- _. reflexivity.
  - unfold _generate_gigantografia in H. do 10 bind_inv H.
    injection H as <- _. reflexivity.
Qed.

Lemma suffix_inj v1 v2 : suffix v1 = suffix v2 -> v1 = v2.
Proof. destruct v1, v2; simpl; intros H; first [reflexivity | discriminate H]. Qed.

End GeneratorFacts.

(** C1. For every event-field set, project name, state of the host and
    behaviour of the external tools, [generate_all] returns normally with
    exactly three entries, in the order a4 (compact), 4x1 (banner),
    gigantografia (large format). Each generator is run from the state its
    predecessor left, whether that one returned or raised; the entry of a
    generator that raised [e] has status [error], an empty file name and
    the message [str(e)], the entry of one that returned has status
    [success] and the name returned. *)
Theorem generate_all_isolates_failures :
  forall (E : DocumentGenerator.externals) (temp_storage : string)
         (data : gmap string string) (project_name : string) (w : Os.world),
  exists r1 w1 r2 w2 r3 w3,
    DocumentGenerator.generate E temp_storage DocumentGenerator.compact
      data project_name w = (r1, w1)
    /\ DocumentGenerator.generate E temp_storage DocumentGenerator.banner
         data project_name w1 = (r2, w2)
    /\ DocumentGenerator.generate E temp_storage DocumentGenerator.large_format
         data project_name w2 = (r3, w3)
    /\ DocumentGenerator.generate_all E temp_storage data project_name w
       = (Ok [ DocumentGenerator.info_of DocumentGenerator.compact r1;
               DocumentGenerator.info_of DocumentGenerator.banner r2;
               DocumentGenerator.info_of DocumentGenerator.large_format r3 ], w3)
    /\ (forall v e,
          DocumentGenerator.info_of v (Raise e)
          = {| DocumentGenerator.type := DocumentGenerator.suffix v;
               DocumentGenerator.filename := "";
               DocumentGenerator.status := "error";
               DocumentGenerator.message := Some (Os.str e) |})
    /\ (forall v name,
          DocumentGenerator.info_of v (Ok name)
          = {| DocumentGenerator.type := DocumentGenerator.suffix v;
               DocumentGenerator.filename := name;
               DocumentGenerator.status := "success";
               DocumentGenerator.message := None |}).
Proof.
  intros E ts data P w.
  pose proof (generate_all_unfold E ts data P w) as H. simpl in H.
  destruct (DocumentGenerator._generate_a4 E ts data P w) as [r1 w1] eqn:E1.
  simpl in H.
  destruct (DocumentGenerator._generate_4x1 E ts data P w1) as [r2 w2] eqn:E2.
  simpl in H.
  destruct (DocumentGenerator._generate_gigantografia E ts data P w2) as [r3 w3] eqn:E3.
  simpl in H.
  exists r1, w1, r2, w2, r3, w3. simpl.
  repeat split; assumption.
Qed.

(** C4. A generator that returns for variant [v] and project [P] returns
    the file name [P_suffix(v).pdf]; the suffixes a4, 4x1 and
    gigantografia are one per variant; and every [success] entry of
    [generate_all] carries the file name built from the project name and
    the type of the entry. *)
Theorem filename_follows_convention :
  forall (E : DocumentGenerator.externals) (temp_storage : string)
         (v : DocumentGenerator.variant) (data : gmap string string)
         (project_name : string) (w w' : Os.world) (name : string),
    DocumentGenerator.generate E temp_storage v data project_name w = (Ok name, w') ->
    name = project_name ++ "_" ++ DocumentGenerator.suffix v ++ ".pdf"
    /\ DocumentGenerator.suffix DocumentGenerator.compact = "a4"
    /\ DocumentGenerator.suffix DocumentGenerator.banner = "4x1"
    /\ DocumentGenerator.suffix DocumentGenerator.large_format = "gigantografia"
    /\ (forall v1 v2, DocumentGenerator.suffix v1 = DocumentGenerator.suffix v2 -> v1 = v2)
    /\ (forall w0 results w1 info,
          DocumentGenerator.generate_all E temp_storage data project_name w0
          = (Ok results, w1) ->
          In info results ->
          DocumentGenerator.status info = "success" ->
          DocumentGenerator.filename info
          = project_name ++ "_" ++ DocumentGenerator.type info ++ ".pdf").
Proof.
  intros E ts v data P w w' name H.
  split; [exact (generate_filename E ts v data P w name w' H) |].
  do 3 (split; [reflexivity |]).
  split; [exact suffix_inj |].
  intros w0 results w1 info Hall Hin Hst.
  rewrite generate_all_unfold in Hall. injection Hall as <- _.
  assert (Hone : forall v0 w2,
             info = DocumentGenerator.info_of v0
                      (fst (DocumentGenerator.generate E ts v0 data P w2)) ->
             DocumentGenerator.filename info
             = P ++ "_" ++ DocumentGenerator.type info ++ ".pdf").
  { intros v0 w2 ->.
    destruct (DocumentGenerator.generate E ts v0 data P w2) as [[n | e] w3] eqn:Hg.
    - simpl. f_equal. exact (generate_filename E ts v0 data P w2 n w3 Hg).
    - simpl in Hst. discriminate Hst. }
  destruct Hin as [<- | [<- | [<- | []]]].
  - exact (Hone DocumentGenerator.compact _ eq_refl).
  - exact (Hone DocumentGenerator.banner _ eq_refl).
  - exact (Hone DocumentGenerator.large_format _ eq_refl).
Qed.

(** The large format of the project of the scenario. *)
Lemma filename_follows_convention_witness :
  fst (DocumentGenerator.generate Scenario.installed "temp_files"
         DocumentGenerator.large_format Scenario.event Scenario.project Scenario.host)
  = Ok (Scenario.project ++ "_gigantografia.pdf")
  /\ Scenario.project ++ "_gigantografia.pdf"
     = Scenario.project ++ "_" ++ DocumentGenerator.suffix DocumentGenerator.large_format
       ++ ".pdf".
Proof.
  split; [vm_compute; reflexivity |].
  refine (proj1 (filename_follows_convention Scenario.installed "temp_files"
                   DocumentGenerator.large_format Scenario.event Scenario.project
                   Scenario.host
                   (snd (DocumentGenerator.generate Scenario.installed "temp_files"
                           DocumentGenerator.large_format Scenario.event
                           Scenario.project Scenario.host))
                   (Scenario.project ++ "_gigantografia.pdf") _)).
  vm_compute. reflexivity.
Defined.

(** The request of the scenario on a host with every tool in place. *)
Example generate_all_campaign :
  fst (DocumentGenerator.generate_all Scenario.installed "temp_files"
         Scenario.event Scenario.project Scenario.host)
  = Ok [ DocumentGenerator.success_info "a4" (Scenario.project ++ "_a4.pdf");
         DocumentGenerator.success_info "4x1" (Scenario.project ++ "_4x1.pdf");
         DocumentGenerator.success_info "gigantografia"
           (Scenario.project ++ "_gigantografia.pdf") ].
Proof. vm_compute. reflexivity. Qed.

(** Without the template of the compact variant the first entry is an
    error, the banner is generated all the same, and the large format,
    which starts from the same template, fails as well. *)
Example generate_all_missing_template :
  List.map DocumentGenerator.status
    match fst (DocumentGenerator.generate_all Scenario.installed "temp_files"
                 Scenario.event "P" Scenario.host_without_a4) with
    | Ok results => results
    | Raise _ => []
    end
  = ["error"; "success"; "error"]
  /\ List.map DocumentGenerator.message
       match fst (DocumentGenerator.generate_all Scenario.installed "temp_files"
                    Scenario.event "P" Scenario.host_without_a4) with
       | Ok results => results
       | Raise _ => []
       end
     = [ Some "Plantilla no encontrada: ./Formato a4.docx"; None;
         Some "Plantilla no encontrada: ./Formato a4.docx" ].
Proof. vm_compute. split; reflexivity. Qed.

(** ** The built-ins at work *)

(** [str.replace] scans from the left and does not look at what it has
    written. *)
Example replace_examples :
  Py.replace "aaaa" "aa" "b" = "bb"
  /\ Py.replace "abab" "ab" "abab" = "abababab"
  /\ Py.replace "abc" "" "-" = "-a-b-c-"
  /\ Py.replace "temp_files/a.docx_a4.docx" ".docx" ".pdf" = "temp_files/a.pdf_a4.pdf".
Proof. vm_compute. repeat split. Qed.

Example join_examples :
  OsPath.join "temp_files" "P_a4.pdf" = "temp_files/P_a4.pdf"
  /\ OsPath.join "temp_files/" "P_a4.pdf" = "temp_files/P_a4.pdf"
  /\ OsPath.join "temp_files" "/etc/passwd" = "/etc/passwd"
  /\ OsPath.join "" "P_a4.pdf" = "P_a4.pdf".
Proof. vm_compute. repeat split. Qed.

Example dirname_examples :
  OsPath.dirname "temp_files/P_a4.pdf" = "temp_files"
  /\ OsPath.dirname "P_a4.pdf" = ""
  /\ OsPath.dirname "/P_a4.pdf" = "/"
  /\ OsPath.dirname "/srv/app//P_a4.pdf" = "/srv/app"
  /\ OsPath.basename "temp_files/P_a4.pdf" = "P_a4.pdf".
Proof. vm_compute. repeat split. Qed.

Example index_examples :
  Py.index [1; 2; 3] 0 = Ok 1
  /\ Py.index [1; 2; 3] (-1) = Ok 3
  /\ Py.index [1; 2; 3] 3 = Raise (IndexError "list index out of range")
  /\ Py.index [1; 2; 3] (-4) = Raise (IndexError "list index out of range").
Proof. vm_compute. repeat split. Qed.

(** ** Strings and paths *)

Section PathFacts.
Import OsPath.

Lemma string_app_assoc (a b c : string) : (a ++ b) ++ c = a ++ b ++ c.
Proof. induction a as [| x a IH]; simpl; [reflexivity | rewrite IH; reflexivity]. Qed.

Lemma string_app_nil_r (a : string) : a ++ "" = a.
Proof. induction a as [| x a IH]; simpl; [reflexivity | rewrite IH; reflexivity]. Qed.

Lemma string_app_inv_head (a b c : string) : a ++ b = a ++ c -> b = c.
Proof.
  induction a as [| x a IH]; simpl; intros H; [exact H |].
  injection H as H. exact (IH H).
Qed.

Lemma string_length_app (a b : string) :
  String.length (a ++ b) = (String.length a + String.length b)%nat.
Proof. induction a as [| x a IH]; simpl; [reflexivity | rewrite IH; reflexivity]. Qed.

Lemma startswith_sep_cons c s :
  Py.startswith (String c s) "/" = Ascii.eqb "/" c.
Proof.
  unfold Py.startswith. cbn [Py.strip_prefix].
  destruct (Ascii.eqb "/" c); reflexivity.
Qed.

Lemma startswith_sep_app a b :
  a <> "" -> Py.startswith (a ++ b) "/" = Py.startswith a "/".
Proof.
  destruct a as [| c a]; [congruence |]. intros _. cbn [String.append].
  rewrite !startswith_sep_cons. reflexivity.
Qed.


Lemma contains_sep_cons c s :
  Py.contains "/" (String c s) = Ascii.eqb "/" c || Py.contains "/" s.
Proof. cbn [Py.contains]. rewrite startswith_sep_cons. reflexivity. Qed.

Lemma split_sep_nonempty p : split_sep p <> [].
Proof.
  destruct p as [| c p]; cbn [split_sep]; [discriminate |].
  destruct (Ascii.eqb c "/"); [discriminate |].
  destruct (split_sep p); discriminate.
Qed.

Lemma split_sep_plain f : Py.contains "/" f = false -> split_sep f = [f].
Proof.
  induction f as [| c f IH]; [reflexivity |].
  rewrite contains_sep_cons. intros H. apply orb_false_iff in H as [Hc Hf].
  cbn [split_sep]. rewrite Ascii.eqb_sym, Hc, (IH Hf). reflexivity.
Qed.

Lemma split_sep_app_sep a b :
  split_sep (a ++ String "/" b) = (split_sep a ++ split_sep b)%list.
Proof.
  induction a as [| c a IH]; cbn [String.append split_sep]; [reflexivity |].
  destruct (Ascii.eqb c "/"); rewrite IH; [reflexivity |].
  pose proof (split_sep_nonempty a) as Hne.
  destruct (split_sep a) as [| h t]; [congruence | reflexivity].
Qed.

(** Appending a suffix without separator changes the last component
    only. *)
Lemma split_sep_app_plain base sfx :
  Py.contains "/" sfx = false ->
  split_sep (base ++ sfx)
  = (removelast (split_sep base)
       ++ [String.append (List.last (split_sep base) EmptyString) sfx])%list.
Proof.
  intros Hs. induction base as [| c base IH]; cbn [String.append split_sep].
  - cbn. apply split_sep_plain. exact Hs.
  - destruct (Ascii.eqb c "/").
    + rewrite IH. pose proof (split_sep_nonempty base) as Hne.
      destruct (split_sep base) as [| h t]; [congruence | reflexivity].
    + rewrite IH. pose proof (split_sep_nonempty base) as Hne.
      destruct (split_sep base) as [| h t]; [congruence |].
      destruct t as [| h' t']; reflexivity.
Qed.

Lemma final_name_app_plain base sfx :
  Py.contains "/" sfx = false ->
  final_name (base ++ sfx) = final_name base ++ sfx.
Proof.
  intros Hs. unfold final_name. rewrite (split_sep_app_plain base sfx Hs).
  apply last_last.
Qed.

Lemma removelast_split_app_plain base sfx :
  Py.contains "/" sfx = false ->
  removelast (split_sep (base ++ sfx)) = removelast (split_sep base).
Proof.
  intros Hs. rewrite (split_sep_app_plain base sfx Hs). apply removelast_last.
Qed.

Lemma OsPath_split_last p :
  split_sep p = (removelast (split_sep p) ++ [final_name p])%list.
Proof. apply app_removelast_last. apply split_sep_nonempty. Qed.

Lemma is_name_long s : (3 <= String.length s)%nat -> is_name s = true.
Proof.
  intros H. destruct s as [| a [| b [| c s]]]; simpl in H; try lia.
  unfold is_name. cbn [String.eqb negb andb].
  destruct (Ascii.eqb a "."); cbn [negb andb]; try reflexivity.
  destruct (Ascii.eqb b "."); reflexivity.
Qed.

(** [os.path.join] with a second part that grows by a suffix. *)
Lemma join_app a b sfx :
  Py.startswith sfx "/" = false ->
  join a (b ++ sfx) = join a b ++ sfx.
Proof.
  intros Hs. unfold join.
  assert (Hsw : Py.startswith (b ++ sfx) "/" = Py.startswith b "/").
  { destruct b as [| c b]; [exact Hs | apply startswith_sep_app; discriminate]. }
  rewrite Hsw. destruct (Py.startswith b "/"); [reflexivity |].
  destruct (String.eqb a "" || Py.endswith a "/");
    rewrite ?string_app_assoc; reflexivity.
Qed.

Lemma isabs_app base sfx :
  Py.startswith sfx "/" = false -> isabs (base ++ sfx) = isabs base.
Proof.
  intros Hs. unfold isabs. destruct base as [| c base]; [exact Hs |].
  apply startswith_sep_app. discriminate.
Qed.

Lemma eqb_app_nonempty base sfx :
  sfx <> "" -> String.eqb (base ++ sfx) "" = false.
Proof.
  intros Hs. apply String.eqb_neq. destruct base; simpl; [exact Hs | discriminate].
Qed.

End PathFacts.

(** ** The file system *)

Section OsFacts.
Import Os.
Local Close Scope string_scope.

Lemma node_at_snoc f (d : list string) n : node_at f (d ++ [n]) = f !! (d ++ [n]).
Proof. unfold node_at. destruct d; reflexivity. Qed.

Lemma snoc_neq (d d' : list string) (n n' : string) : n <> n' -> d ++ [n] <> d' ++ [n'].
Proof. intros Hn Heq. apply app_inj_tail in Heq as [_ Heq]. exact (Hn Heq). Qed.

Lemma walk_app f comps1 : forall cur comps2,
  walk f cur (comps1 ++ comps2)
  = match walk f cur comps1 with
    | Some c => walk f c comps2
    | None => None
    end.
Proof.
  induction comps1 as [| c comps1 IH]; intros cur comps2; simpl; [reflexivity |].
  destruct (step f cur c); [apply IH | reflexivity].
Qed.

Lemma step_is_dir f cur c cur' : step f cur c = Some cur' -> is_dir f cur = true.
Proof. unfold step. destruct (is_dir f cur); [reflexivity | discriminate]. Qed.

Lemma step_name f d n :
  OsPath.is_name n = true ->
  step f d n
  = if is_dir f d
    then match node_at f (d ++ [n]) with
         | Some _ => Some (d ++ [n])
         | None => None
         end
    else None.
Proof.
  unfold OsPath.is_name, step. intros H.
  apply andb_true_iff in H as [H H3]. apply andb_true_iff in H as [H1 H2].
  apply negb_true_iff in H1, H2, H3. rewrite H1, H2, H3. reflexivity.
Qed.

Lemma walk_snoc_name f cur init n :
  OsPath.is_name n = true ->
  walk f cur (init ++ [n])
  = match walk f cur init with
    | Some d => if is_dir f d
                then match node_at f (d ++ [n]) with
                     | Some _ => Some (d ++ [n])
                     | None => None
                     end
                else None
    | None => None
    end.
Proof.
  intros Hn. rewrite walk_app. destruct (walk f cur init) as [d |]; [| reflexivity].
  simpl. rewrite (step_name f d n Hn).
  destruct (is_dir f d); [| reflexivity].
  destruct (node_at f (d ++ [n])); reflexivity.
Qed.

Lemma same_dirs_sym f f' : same_dirs f f' -> same_dirs f' f.
Proof. intros H k. symmetry. apply H. Qed.


Lemma is_dir_node_at f k : is_dir f k = true -> node_at f k = Some Dir.
Proof. unfold is_dir. destruct (node_at f k) as [[] |]; congruence. Qed.

(** A walk that ends in a directory sees directories only, and goes
    the same way on a file system with more of them. *)
Lemma walk_to_dir_mono f f' :
  (forall k, is_dir f k = true -> is_dir f' k = true) ->
  forall comps cur d,
    walk f cur comps = Some d -> is_dir f d = true -> walk f' cur comps = Some d.
Proof.
  intros Hmono. induction comps as [| c rest IH]; intros cur d Hw Hd; [exact Hw |].
  simpl in Hw. destruct (step f cur c) as [cur' |] eqn:Hs; [| discriminate Hw].
  assert (Hcur' : is_dir f cur' = true).
  { destruct rest as [| c2 rest'].
    - simpl in Hw. injection Hw as ->. exact Hd.
    - simpl in Hw. destruct (step f cur' c2) eqn:Hs2; [| discriminate Hw].
      exact (step_is_dir _ _ _ _ Hs2). }
  assert (Hs' : step f' cur c = Some cur').
  { pose proof (step_is_dir _ _ _ _ Hs) as Hcur.
    unfold step in *. rewrite (Hmono cur Hcur). rewrite Hcur in Hs.
    destruct (String.eqb c "" || String.eqb c "."); [exact Hs |].
    destruct (String.eqb c "..").
    - destruct (is_dir f (parent cur)) eqn:Hp; [| discriminate Hs].
      rewrite (Hmono _ Hp). exact Hs.
    - destruct (node_at f (cur ++ [c])) eqn:Hn; [| discriminate Hs].
      injection Hs as <-.
      rewrite (is_dir_node_at _ _ (Hmono _ Hcur')). reflexivity. }
  simpl. rewrite Hs'. exact (IH _ _ Hw Hd).
Qed.

Lemma walk_to_dir_stable f f' :
  same_dirs f f' ->
  forall comps cur d,
    walk f cur comps = Some d -> is_dir f d = true -> walk f' cur comps = Some d.
Proof.
  intros Hsame. apply walk_to_dir_mono. intros k Hk. rewrite <- (Hsame k). exact Hk.
Qed.

Lemma is_dir_not_file f k : is_dir f k = true -> is_file f k = false.
Proof. unfold is_dir, is_file. destruct (node_at f k) as [[] |]; congruence. Qed.

Lemma walk_dir_inr f cur comps d :
  walk_dir f cur comps = inr d <-> walk f cur comps = Some d /\ is_dir f d = true.
Proof.
  unfold walk_dir. destruct (walk f cur comps) as [d0 |].
  - destruct (is_dir f d0) eqn:Hd; split.
    + intros H. injection H as <-. split; [reflexivity | exact Hd].
    + intros [H _]. injection H as <-. reflexivity.
    + discriminate.
    + intros [H Hd']. injection H as <-. congruence.
  - split; [discriminate | intros [H _]; discriminate H].
Qed.



(** What [locate] finds. *)
Lemma locate_Ok w p d n :
  locate w p = Ok (d, n)
  <-> String.eqb p "" = false
      /\ walk (fs w) (start w p) (removelast (OsPath.split_sep p)) = Some d
      /\ is_dir (fs w) d = true
      /\ n = OsPath.final_name p /\ OsPath.is_name n = true.
Proof.
  unfold locate, parentat. destruct (String.eqb p "") eqn:Hp.
  { split; [discriminate | intros [H _]; discriminate H]. }
  destruct (String.eqb (OsPath.final_name p) "") eqn:Hs.
  - split.
    + destruct (walk_dir _ _ _) as [e | d0]; [discriminate |].
      rewrite andb_false_r. discriminate.
    + intros (_ & _ & _ & -> & Hn). apply String.eqb_eq in Hs.
      rewrite Hs in Hn. discriminate Hn.
  - fold (OsPath.final_name p).
    destruct (walk_dir (fs w) (start w p) (removelast (OsPath.split_sep p)))
      as [e | d0] eqn:Hw.
    + split; [discriminate |]. intros (_ & Hw' & Hd & _).
      rewrite (proj2 (walk_dir_inr _ _ _ _) (conj Hw' Hd)) in Hw. discriminate Hw.
    + apply walk_dir_inr in Hw as [Hw Hd]. rewrite andb_true_r.
      destruct (OsPath.is_name (OsPath.final_name p)) eqn:Hn; split.
      * intros H. injection H as <- <-. repeat split; assumption.
      * intros (_ & Hw' & _ & -> & _). congruence.
      * discriminate.
      * intros (_ & _ & _ & -> & Hn'). congruence.
Qed.

Lemma locate_ok_stable w w' p x :
  same_dirs (fs w) (fs w') -> cwd w = cwd w' ->
  locate w p = Ok x -> locate w' p = Ok x.
Proof.
  intros Hsame Hcwd. destruct x as [d n]. rewrite !locate_Ok.
  intros (Hp & Hw & Hd & Hn & Hname). unfold start in *. rewrite <- Hcwd.
  split; [exact Hp |].
  split; [exact (walk_to_dir_stable _ _ Hsame _ _ _ Hw Hd) |].
  split; [rewrite <- (Hsame d); exact Hd |]. split; assumption.
Qed.

Lemma locate_stable_iff w w' p x :
  same_dirs (fs w) (fs w') -> cwd w = cwd w' ->
  locate w p = Ok x <-> locate w' p = Ok x.
Proof.
  intros Hsame Hcwd. split; apply locate_ok_stable;
    auto using same_dirs_sym.
Qed.

Lemma locate_name w p d n : locate w p = Ok (d, n) ->
  n = OsPath.final_name p /\ OsPath.is_name n = true /\ is_dir (fs w) d = true
  /\ String.eqb p "" = false
  /\ walk (fs w) (start w p) (removelast (OsPath.split_sep p)) = Some d.
Proof.
  intros H. apply locate_Ok in H as (Hp & Hw & Hd & Hn & Hname).
  repeat split; assumption.
Qed.

(** A path whose last component is a name resolves to the entry of that
    name in the directory of the path. *)
Lemma resolve_entry w p :
  OsPath.is_name (OsPath.final_name p) = true ->
  resolve w p
  = match locate w p with
    | Ok (d, n) => match node_at (fs w) (d ++ [n]) with
                   | Some _ => Some (d ++ [n])
                   | None => None
                   end
    | Raise _ => None
    end.
Proof.
  intros Hn. unfold resolve.
  destruct (locate w p) as [[d n] | e] eqn:Hl.
  - apply locate_Ok in Hl as (Hp & Hw & Hd & -> & _). rewrite Hp.
    rewrite (OsPath_split_last p) at 1.
    rewrite (walk_snoc_name _ _ _ _ Hn), Hw, Hd. reflexivity.
  - destruct (String.eqb p "") eqn:Hp; [reflexivity |].
    rewrite (OsPath_split_last p) at 1.
    rewrite (walk_snoc_name _ _ _ _ Hn).
    destruct (walk _ _ _) as [d |] eqn:Hw; [| reflexivity].
    destruct (is_dir (fs w) d) eqn:Hd; [| reflexivity].
    assert (Hl' : locate w p = Ok (d, OsPath.final_name p)).
    { apply locate_Ok. repeat split; assumption. }
    congruence.
Qed.



End OsFacts.

Section OsOperations.
Import Os.
Local Close Scope string_scope.

Lemma same_dirs_insert_file f k c m i :
  node_at f k <> Some Dir -> same_dirs f (<[k := File c m i]> f).
Proof.
  intros Hk k'. unfold is_dir. destruct k' as [| a k']; [reflexivity |].
  cbn [node_at]. destruct (decide (k = a :: k')) as [-> | Hne].
  - rewrite lookup_insert_eq. cbn [node_at] in Hk.
    destruct (f !! (a :: k')) as [[] |]; congruence.
  - rewrite lookup_insert_ne by exact Hne. reflexivity.
Qed.

Lemma same_dirs_delete_file f k c m i :
  node_at f k = Some (File c m i) -> same_dirs f (delete k f).
Proof.
  intros Hk k'. unfold is_dir. destruct k' as [| a k']; [reflexivity |].
  cbn [node_at]. destruct (decide (k = a :: k')) as [-> | Hne].
  - rewrite lookup_delete_eq. cbn [node_at] in Hk. rewrite Hk. reflexivity.
  - rewrite lookup_delete_ne by exact Hne. reflexivity.
Qed.

Lemma write_file_inv p c w w' :
  write_file p c w = (Ok tt, w') ->
  exists d, locate w p = Ok (d, OsPath.final_name p)
            /\ node_at (fs w) (d ++ [OsPath.final_name p]) <> Some Dir
            /\ w' = with_fs w (<[d ++ [OsPath.final_name p]
                                 := File c (clock w) false]> (fs w)).
Proof.
  unfold write_file. destruct (locate w p) as [[d n] | e] eqn:Hl; [| discriminate].
  destruct (locate_name _ _ _ _ Hl) as (-> & _).
  intros H. exists d. split; [reflexivity |].
  destruct (node_at (fs w) (d ++ [OsPath.final_name p])) as [[c0 m0 [] |] |];
    try discriminate H; injection H as <-; split; congruence.
Qed.

Lemma exists_entry w p :
  OsPath.is_name (OsPath.final_name p) = true ->
  exists_ w p = match entry w p with Some _ => true | None => false end.
Proof.
  intros Hn. unfold exists_, entry. rewrite (resolve_entry w p Hn).
  destruct (locate w p) as [[d n] |]; [| reflexivity].
  destruct (node_at (fs w) (d ++ [n])); reflexivity.
Qed.

Lemma isfile_entry w p :
  OsPath.is_name (OsPath.final_name p) = true ->
  isfile w p = match entry w p with Some (File _ _ _) => true | _ => false end.
Proof.
  intros Hn. unfold isfile, entry. rewrite (resolve_entry w p Hn).
  destruct (locate w p) as [[d n] |]; [| reflexivity].
  destruct (node_at (fs w) (d ++ [n])) as [[] |] eqn:Hnode; rewrite ?Hnode; reflexivity.
Qed.

Lemma read_file_entry w p :
  OsPath.is_name (OsPath.final_name p) = true ->
  read_file p w
  = (match entry w p with
     | Some (File c _ _) => Ok c
     | Some Dir => Raise (error_at EISDIR p)
     | None => Raise (error_at (lookup_errno w p) p)
     end, w).
Proof.
  intros Hn. unfold read_file, entry. rewrite (resolve_entry w p Hn).
  destruct (locate w p) as [[d n] |]; [| reflexivity].
  destruct (node_at (fs w) (d ++ [n])) as [[] |] eqn:Hnode; rewrite ?Hnode; reflexivity.
Qed.



Lemma remove_inv p w w' :
  OsPath.is_name (OsPath.final_name p) = true ->
  remove p w = (Ok tt, w') ->
  exists d c m, locate w p = Ok (d, OsPath.final_name p)
                /\ node_at (fs w) (d ++ [OsPath.final_name p]) = Some (File c m false)
                /\ w' = with_fs w (delete (d ++ [OsPath.final_name p]) (fs w)).
Proof.
  intros Hn. unfold remove. rewrite (resolve_entry w p Hn).
  destruct (locate w p) as [[d n] | e] eqn:Hl; [| discriminate].
  destruct (locate_name _ _ _ _ Hl) as (-> & _).
  destruct (node_at (fs w) (d ++ [OsPath.final_name p])) as [nd |] eqn:Hnode;
    [| discriminate].
  rewrite Hnode. destruct nd as [c m [] |]; try discriminate.
  intros H. injection H as <-. exists d, c, m.
  split; [reflexivity |]. split; [exact Hnode | reflexivity].
Qed.

(** The entry of [q] after a change that keeps the directories and the
    node under the name of [q]. *)
Lemma entry_stable w w' q :
  same_dirs (fs w) (fs w') -> cwd w = cwd w' ->
  (forall d, locate w q = Ok (d, OsPath.final_name q) ->
             node_at (fs w') (d ++ [OsPath.final_name q])
             = node_at (fs w) (d ++ [OsPath.final_name q])) ->
  entry w' q = entry w q.
Proof.
  intros Hsame Hcwd Hnode. unfold entry.
  destruct (locate w q) as [[d n] | e] eqn:Hl.
  - rewrite (locate_ok_stable _ _ _ _ Hsame Hcwd Hl).
    destruct (locate_name _ _ _ _ Hl) as (-> & _). apply Hnode. reflexivity.
  - destruct (locate w' q) as [x |] eqn:Hl'; [| reflexivity].
    apply (locate_stable_iff w w' q x Hsame Hcwd) in Hl'. congruence.
Qed.

Lemma entry_write_same p c w w' :
  write_file p c w = (Ok tt, w') -> entry w' p = Some (File c (clock w) false).
Proof.
  intros H. destruct (write_file_inv _ _ _ _ H) as (d & Hl & Hnd & ->).
  unfold entry.
  match goal with |- context [locate ?w1 p] =>
    assert (Hl' : locate w1 p = Ok (d, OsPath.final_name p))
  end.
  { apply (locate_ok_stable w); [| reflexivity | exact Hl].
    apply same_dirs_insert_file. exact Hnd. }
  rewrite Hl'. cbn. rewrite node_at_snoc. apply lookup_insert_eq.
Qed.

Lemma entry_write_other p c q w w' :
  write_file p c w = (Ok tt, w') ->
  OsPath.final_name q <> OsPath.final_name p ->
  entry w' q = entry w q.
Proof.
  intros H Hne. destruct (write_file_inv _ _ _ _ H) as (d & Hl & Hnd & ->).
  apply entry_stable.
  - apply same_dirs_insert_file. exact Hnd.
  - reflexivity.
  - intros d' _. cbn. rewrite !node_at_snoc. apply lookup_insert_ne.
    apply snoc_neq. congruence.
Qed.

Lemma entry_remove_same p w w' :
  OsPath.is_name (OsPath.final_name p) = true ->
  remove p w = (Ok tt, w') -> entry w' p = None.
Proof.
  intros Hn H. destruct (remove_inv _ _ _ Hn H) as (d & c & m & Hl & Hnd & ->).
  unfold entry.
  match goal with |- context [locate ?w1 p] =>
    assert (Hl' : locate w1 p = Ok (d, OsPath.final_name p))
  end.
  { apply (locate_ok_stable w); [| reflexivity | exact Hl].
    exact (same_dirs_delete_file _ _ _ _ _ Hnd). }
  rewrite Hl'. cbn. rewrite node_at_snoc. apply lookup_delete_eq.
Qed.

Lemma entry_remove_other p q w w' :
  OsPath.is_name (OsPath.final_name p) = true ->
  remove p w = (Ok tt, w') ->
  OsPath.final_name q <> OsPath.final_name p ->
  entry w' q = entry w q.
Proof.
  intros Hn H Hne. destruct (remove_inv _ _ _ Hn H) as (d & c & m & Hl & Hnd & ->).
  apply entry_stable.
  - exact (same_dirs_delete_file _ _ _ _ _ Hnd).
  - reflexivity.
  - intros d' _. cbn. rewrite !node_at_snoc. apply lookup_delete_ne.
    apply snoc_neq. congruence.
Qed.

End OsOperations.

(** ** The artifact store: lookup *)

Section LookupFacts.
Import Os.

Lemma contains_sep_startswith f :
  Py.contains "/" f = false -> Py.startswith f "/" = false.
Proof.
  destruct f as [| c f]; [reflexivity |].
  rewrite contains_sep_cons, startswith_sep_cons.
  intros H. apply orb_false_iff in H as [H _]. exact H.
Qed.




End LookupFacts.




(** ** The format converter *)




(** A derived name that runs through a regular file is not a missing
    file: [os.rename] raises [NotADirectoryError]. *)
Example convert_through_file :
  DocumentGenerator._convert_docx_to_pdf Scenario.silent_office
    ".env/a.docx" "out.pdf" Scenario.host
  = (Raise (NotADirectoryError
              "[Errno 20] Not a directory: '.env/a.pdf' -> 'out.pdf'"),
     Scenario.host).
Proof. vm_compute. reflexivity. Qed.

(** ** The field substitution engine *)

Section TemplateFacts.
Import TemplateProcessor.

Lemma startswith_nil s : Py.startswith s "" = true.
Proof. reflexivity. Qed.

Lemma startswith_cons a s b m :
  Py.startswith (String a s) (String b m) = Ascii.eqb b a && Py.startswith s m.
Proof.
  unfold Py.startswith. cbn [Py.strip_prefix]. destruct (Ascii.eqb b a); reflexivity.
Qed.

(** A marker that starts a text starts its first piece, or goes on
    behind it. *)
Lemma startswith_app_inv t : forall rest m,
  Py.startswith (t ++ rest) m = true ->
  Py.startswith t m = true \/ Py.startswith m t = true.
Proof.
  induction t as [| a t IH]; intros rest m H; [right; reflexivity |].
  destruct m as [| b m]; [left; reflexivity |].
  cbn [String.append] in H. rewrite startswith_cons in H.
  apply andb_true_iff in H as [Hab H]. rewrite !startswith_cons.
  rewrite (Ascii.eqb_sym a b), Hab. cbn [andb]. exact (IH _ _ H).
Qed.

Lemma startswith_app_l t : forall rest m,
  Py.startswith m (t ++ rest) = true -> Py.startswith m t = true.
Proof.
  induction t as [| a t IH]; intros rest m H; [reflexivity |].
  destruct m as [| b m]; [discriminate H |].
  cbn [String.append] in H. rewrite startswith_cons in *.
  apply andb_true_iff in H as [Hab H]. rewrite Hab. exact (IH _ _ H).
Qed.

Lemma opens_cons m c s :
  opens m (String c s) = false
  <-> Py.startswith (String c s) m = false /\ Py.startswith m (String c s) = false
      /\ opens m s = false.
Proof.
  cbn [opens]. rewrite !orb_false_iff. tauto.
Qed.

Lemma startswith_opens m c s rest :
  opens m (String c s) = false -> Py.startswith (String c s ++ rest) m = false.
Proof.
  intros H. apply opens_cons in H as (H1 & H2 & _).
  destruct (Py.startswith (String c s ++ rest) m) eqn:Hst; [| reflexivity].
  apply startswith_app_inv in Hst as [Hst | Hst]; congruence.
Qed.

Lemma opens_app m a b :
  opens m a = false -> opens m b = false -> opens m (a ++ b) = false.
Proof.
  intros Ha Hb. induction a as [| c a IH]; [exact Hb |].
  pose proof (startswith_opens m c a b Ha) as Hst.
  apply opens_cons in Ha as (_ & H2 & Ha).
  cbn [String.append] in *. apply opens_cons. split; [exact Hst |].
  split; [| exact (IH Ha)].
  destruct (Py.startswith m (String c (a ++ b))) eqn:Hm; [| reflexivity].
  apply (startswith_app_l (String c a) b m) in Hm. congruence.
Qed.

Lemma opens_contains b m s :
  opens (String b m) s = false -> Py.contains (String b m) s = false.
Proof.
  induction s as [| c s IH]; intros H; [reflexivity |].
  apply opens_cons in H as (H1 & _ & H). cbn [Py.contains].
  rewrite H1, (IH H). reflexivity.
Qed.

Lemma inert_opens k s : inert s = true -> opens (marker_text k) s = false.
Proof.
  unfold inert. intros H.
  apply andb_true_iff in H as [H H4]. apply andb_true_iff in H as [H H3].
  apply andb_true_iff in H as [H1 H2].
  apply negb_true_iff in H1, H2, H3, H4. destruct k; assumption.
Qed.

Lemma opens_inert s : (forall k, opens (marker_text k) s = false) -> inert s = true.
Proof.
  intros H. unfold inert.
  rewrite (H fecha : opens marker_fecha s = false).
  rewrite (H hora : opens marker_hora s = false).
  rewrite (H lugar : opens marker_lugar s = false).
  rewrite (H referencia : opens marker_referencia s = false). reflexivity.
Qed.

Lemma inert_app a b : inert a = true -> inert b = true -> inert (a ++ b) = true.
Proof.
  intros Ha Hb. apply opens_inert. intros k.
  apply opens_app; apply inert_opens; assumption.
Qed.

(** Inert text holds no marker. *)
Lemma inert_contains k s : inert s = true -> Py.contains (marker_text k) s = false.
Proof.
  intros H. apply (inert_opens k) in H.
  destruct k; exact (opens_contains _ _ _ H).
Qed.

(** Text that does not open the marker is copied. *)
Lemma scan_literal m v s rest :
  opens m s = false ->
  Py.replace_scan m v 0 (s ++ rest) = s ++ Py.replace_scan m v 0 rest.
Proof.
  induction s as [| c s IH]; intros Hs; [reflexivity |].
  pose proof (startswith_opens m c s rest Hs) as Hst.
  apply opens_cons in Hs as (_ & _ & Hs).
  cbn [String.append] in *. cbn [Py.replace_scan]. rewrite Hst, (IH Hs). reflexivity.
Qed.

(** An occurrence of the marker is replaced, and the scan goes on behind
    it. *)
Lemma scan_marker_same j v rest :
  Py.replace_scan (marker_text j) v 0 (marker_text j ++ rest)
  = v ++ Py.replace_scan (marker_text j) v 0 rest.
Proof. destruct j; vm_compute; reflexivity. Qed.

(** No occurrence of a marker starts inside another marker. *)
Lemma scan_marker_other j k v rest :
  j <> k ->
  Py.replace_scan (marker_text j) v 0 (marker_text k ++ rest)
  = marker_text k ++ Py.replace_scan (marker_text j) v 0 rest.
Proof. destruct j, k; intros H; try congruence; vm_compute; reflexivity. Qed.

Lemma contains_false_scan m v t :
  Py.contains m t = false -> Py.replace_scan m v 0 t = t.
Proof.
  induction t as [| c t IH]; [reflexivity |].
  cbn [Py.contains Py.replace_scan]. intros H.
  apply orb_false_iff in H as [H1 H2]. rewrite H1, (IH H2). reflexivity.
Qed.

Lemma replace_marker_scan r k v :
  replace_marker r (marker_text k, v)
  = {| Docx.text := Py.replace_scan (marker_text k) v 0 (Docx.text r);
       Docx.rPr := Docx.rPr r |}.
Proof.
  unfold replace_marker. cbn [fst snd].
  destruct (Py.contains (marker_text k) (Docx.text r)) eqn:Hc.
  - destruct k; reflexivity.
  - rewrite (contains_false_scan _ _ _ Hc). destruct r; reflexivity.
Qed.

Lemma partial_fill_ext done1 done2 data1 data2 segs :
  (forall k, k ∈ done1 <-> k ∈ done2) ->
  (forall k, k ∈ done1 -> field_value data1 k = field_value data2 k) ->
  partial_fill done1 data1 segs = partial_fill done2 data2 segs.
Proof.
  intros Hiff Hval. induction segs as [| [s | k] rest IH]; cbn [partial_fill].
  - reflexivity.
  - rewrite IH. reflexivity.
  - rewrite IH. f_equal.
    destruct (bool_decide_reflect (k ∈ done1)) as [Hin | Hout].
    + rewrite bool_decide_eq_true_2 by (apply Hiff; exact Hin). apply Hval, Hin.
    + rewrite bool_decide_eq_false_2 by (rewrite <- Hiff; exact Hout). reflexivity.
Qed.

(** One pass of [str.replace] fills one more marker. *)
Lemma scan_partial_fill j done data segs :
  j ∉ done -> plain segs = true ->
  (forall k, k ∈ done -> inert (field_value data k) = true) ->
  Py.replace_scan (marker_text j) (field_value data j) 0 (partial_fill done data segs)
  = partial_fill (j :: done) data segs.
Proof.
  intros Hj Hplain Hvals.
  induction segs as [| [s | k] rest IH]; cbn [partial_fill].
  - reflexivity.
  - cbn [plain forallb] in Hplain. apply andb_true_iff in Hplain as [Hs Hrest].
    rewrite (scan_literal _ _ _ _ (inert_opens j _ Hs)), (IH Hrest). reflexivity.
  - cbn [plain forallb] in Hplain.
    destruct (bool_decide_reflect (k ∈ done)) as [Hin | Hout].
    + rewrite bool_decide_eq_true_2 by (apply elem_of_cons; right; exact Hin).
      rewrite (scan_literal _ _ _ _ (inert_opens j _ (Hvals k Hin))), (IH Hplain).
      reflexivity.
    + destruct (decide (j = k)) as [-> | Hne].
      * rewrite bool_decide_eq_true_2 by (apply elem_of_cons; left; reflexivity).
        rewrite scan_marker_same, (IH Hplain). reflexivity.
      * rewrite bool_decide_eq_false_2.
        -- rewrite (scan_marker_other j k _ _ Hne), (IH Hplain). reflexivity.
        -- intros Hin. apply elem_of_cons in Hin as [-> | Hin]; [congruence | auto].
Qed.

Lemma plain_fields_value data k :
  plain_fields data = true -> inert (field_value data k) = true.
Proof.
  unfold plain_fields. intros H.
  apply andb_true_iff in H as [H H4]. apply andb_true_iff in H as [H H3].
  apply andb_true_iff in H as [H1 H2]. destruct k; assumption.
Qed.

(** What the loop over the markers makes of a run. *)
Lemma replace_in_run_fill data r segs :
  Docx.text r = render segs -> plain segs = true -> plain_fields data = true ->
  replace_in_run data r = {| Docx.text := fill data segs; Docx.rPr := Docx.rPr r |}.
Proof.
  intros Htext Hplain Hdata.
  pose proof (plain_fields_value data) as Hval.
  unfold replace_in_run, replacements. cbn [fold_left].
  change marker_fecha with (marker_text fecha).
  change marker_hora with (marker_text hora).
  change marker_lugar with (marker_text lugar).
  change marker_referencia with (marker_text referencia).
  change (get_or_empty data "fecha_evento") with (field_value data fecha).
  change (get_or_empty data "hora_evento") with (field_value data hora).
  change (get_or_empty data "lugar_evento") with (field_value data lugar).
  change (get_or_empty data "referencia_evento") with (field_value data referencia).
  rewrite !replace_marker_scan. cbn [Docx.text Docx.rPr]. f_equal.
  rewrite Htext. unfold render.
  assert (Hr : partial_fill [] ∅ segs = partial_fill [] data segs).
  { apply partial_fill_ext; [intros k; reflexivity | intros k Hk; inversion Hk]. }
  rewrite Hr.
  rewrite scan_partial_fill; [| inversion 1 | exact Hplain | inversion 1].
  rewrite scan_partial_fill; [| | exact Hplain | intros k _; apply Hval, Hdata].
  2: { intros H. repeat (apply elem_of_cons in H as [H | H]; [discriminate H |]).
       inversion H. }
  rewrite scan_partial_fill; [| | exact Hplain | intros k _; apply Hval, Hdata].
  2: { intros H. repeat (apply elem_of_cons in H as [H | H]; [discriminate H |]).
       inversion H. }
  rewrite scan_partial_fill; [| | exact Hplain | intros k _; apply Hval, Hdata].
  2: { intros H. repeat (apply elem_of_cons in H as [H | H]; [discriminate H |]).
       inversion H. }
  unfold fill. apply partial_fill_ext; [| reflexivity].
  intros k. rewrite !elem_of_cons. rewrite !elem_of_nil. tauto.
Qed.

(** The filled text is inert. *)
Lemma fill_inert data segs :
  plain segs = true -> plain_fields data = true -> inert (fill data segs) = true.
Proof.
  intros Hplain Hdata. unfold fill.
  induction segs as [| [s | k] rest IH]; cbn [partial_fill].
  - reflexivity.
  - cbn [plain forallb] in Hplain. apply andb_true_iff in Hplain as [Hs Hrest].
    apply inert_app; [exact Hs | exact (IH Hrest)].
  - cbn [plain forallb] in Hplain.
    rewrite bool_decide_eq_true_2.
    + apply inert_app; [apply plain_fields_value, Hdata | exact (IH Hplain)].
    + destruct k; repeat constructor.
Qed.

(** A run that was filled is left alone by another pass. *)
Lemma replace_in_run_idempotent data r segs :
  Docx.text r = render segs -> plain segs = true -> plain_fields data = true ->
  replace_in_run data (replace_in_run data r) = replace_in_run data r.
Proof.
  intros Htext Hplain Hdata.
  rewrite (replace_in_run_fill data r segs Htext Hplain Hdata).
  rewrite (replace_in_run_fill data _ [Lit (fill data segs)]).
  - cbn [Docx.rPr]. f_equal. unfold fill. cbn [partial_fill].
    apply string_app_nil_r.
  - cbn [Docx.text]. unfold render. cbn [partial_fill].
    symmetry. apply string_app_nil_r.
  - cbn [plain forallb]. rewrite (fill_inert data segs Hplain Hdata). reflexivity.
  - exact Hdata.
Qed.

End TemplateFacts.

Section TemplateStoreFacts.
Import TemplateProcessor.
Local Close Scope string_scope.

Lemma replace_in_runs_cons j l data st :
  _replace_in_runs (j :: l) data st
  = _replace_in_runs l data (alter (replace_in_run data) j st).
Proof. reflexivity. Qed.

Lemma replace_in_runs_app l1 l2 data st :
  _replace_in_runs (l1 ++ l2) data st
  = _replace_in_runs l2 data (_replace_in_runs l1 data st).
Proof. unfold _replace_in_runs. apply fold_left_app. Qed.

Lemma replace_in_runs_length l data : forall st,
  length (_replace_in_runs l data st) = length st.
Proof.
  induction l as [| j l IH]; intros st; [reflexivity |].
  rewrite replace_in_runs_cons, IH. apply length_alter.
Qed.

(** A run of the store after the loop: replaced when the loop reached
    it, however often, and untouched otherwise. *)
Lemma replace_in_runs_lookup data l : forall st (i : nat) r,
  st !! i = Some r ->
  replace_in_run data (replace_in_run data r) = replace_in_run data r ->
  _replace_in_runs l data st !! i
  = Some (if bool_decide (i ∈ l) then replace_in_run data r else r).
Proof.
  induction l as [| j l IH]; intros st i r Hi Hidem; [exact Hi |].
  rewrite replace_in_runs_cons. destruct (decide (j = i)) as [-> | Hne].
  - rewrite (IH _ i (replace_in_run data r)).
    + rewrite Hidem. rewrite (bool_decide_eq_true_2 (i ∈ i :: l)) by left.
      destruct (bool_decide (i ∈ l)); reflexivity.
    + rewrite list_lookup_alter_eq, Hi. reflexivity.
    + rewrite Hidem. exact Hidem.
  - rewrite (IH _ i r).
    + f_equal. destruct (bool_decide_reflect (i ∈ l)) as [Hin | Hout].
      * rewrite bool_decide_eq_true_2 by (right; exact Hin). reflexivity.
      * rewrite bool_decide_eq_false_2; [reflexivity |].
        intros Hin. apply elem_of_cons in Hin as [-> | Hin]; [congruence | auto].
    + rewrite list_lookup_alter_ne by exact Hne. exact Hi.
    + exact Hidem.
Qed.

(** The nested loops visit the concatenation of what they iterate. *)
Lemma fold_left_visits {X} (g : list Docx.run -> X -> list Docx.run)
  (flat : X -> list nat) data :
  (forall st x, g st x = _replace_in_runs (flat x) data st) ->
  forall xs st,
    fold_left g xs st = _replace_in_runs (concat (List.map flat xs)) data st.
Proof.
  intros Hg. induction xs as [| x xs IH]; intros st; [reflexivity |].
  cbn [fold_left List.map concat]. rewrite IH, Hg, replace_in_runs_app. reflexivity.
Qed.

Lemma concat_map_concat {A} (l : list (list (list A))) :
  concat (List.map (@concat A) l) = concat (concat l).
Proof.
  induction l as [| x l IH]; [reflexivity |].
  cbn [List.map concat]. rewrite concat_app, IH. reflexivity.
Qed.

Lemma replace_in_paragraphs_visits ps data st :
  replace_in_paragraphs ps data st = _replace_in_runs (concat ps) data st.
Proof.
  unfold replace_in_paragraphs.
  rewrite (fold_left_visits _ (fun p => p) data) by reflexivity.
  rewrite List.map_id. reflexivity.
Qed.

Lemma concat_map_concat2 {A} (l : list (list (list (list A)))) :
  concat (List.map (fun r => concat (concat r)) l) = concat (concat (concat l)).
Proof.
  induction l as [| x l IH]; [reflexivity |].
  cbn [List.map concat]. rewrite !concat_app, IH. reflexivity.
Qed.

Lemma concat_map_concat3 {A} (l : list (list (list (list (list A))))) :
  concat (List.map (fun t => concat (concat (concat t))) l)
  = concat (concat (concat (concat l))).
Proof.
  induction l as [| x l IH]; [reflexivity |].
  cbn [List.map concat]. rewrite !concat_app, IH. reflexivity.
Qed.

Lemma replace_in_tables_visits ts data st :
  replace_in_tables ts data st
  = _replace_in_runs (concat (concat (concat (concat ts)))) data st.
Proof.
  unfold replace_in_tables.
  rewrite (fold_left_visits _ (fun t => concat (concat (concat t))) data).
  - rewrite concat_map_concat3. reflexivity.
  - intros st' table.
    rewrite (fold_left_visits _ (fun r => concat (concat r)) data).
    + rewrite concat_map_concat2. reflexivity.
    + intros st'' row.
      rewrite (fold_left_visits _ (fun c => concat c) data).
      * rewrite concat_map_concat. reflexivity.
      * intros st3 cell. apply replace_in_paragraphs_visits.
Qed.

Lemma replace_in_document_visits data doc :
  Docx.runs (replace_in_document data doc)
  = _replace_in_runs (visited doc) data (Docx.runs doc).
Proof.
  unfold replace_in_document, visited. cbn [Docx.runs].
  rewrite replace_in_tables_visits, replace_in_paragraphs_visits, replace_in_runs_app.
  reflexivity.
Qed.

End TemplateStoreFacts.

Section ProcessTemplateFacts.
Import TemplateProcessor.

Lemma read_file_world p w : snd (Os.read_file p w) = w.
Proof.
  unfold Os.read_file. destruct (Os.resolve w p) as [k |]; [| reflexivity].
  destruct (Os.node_at (Os.fs w) k) as [[] |]; reflexivity.
Qed.

Lemma read_file_exists p w c w' :
  Os.read_file p w = (Ok c, w') -> Os.exists_ w p = true.
Proof.
  unfold Os.read_file, Os.exists_.
  destruct (Os.resolve w p); [reflexivity | discriminate].
Qed.

(** [process_template] returns exactly when the template is on disk as a
    document and the output can be written; what it writes is the
    document after the replacement loops. *)
Lemma process_template_ok template_type data output_path w o w' :
  process_template template_type data output_path w = (Ok o, w')
  <-> exists name doc,
        templates !! template_type = Some name
        /\ Os.read_file (OsPath.join template_dir name) w = (Ok (Os.DocxFile doc), w)
        /\ Os.write_file output_path (Os.DocxFile (replace_in_document data doc)) w
           = (Ok tt, w')
        /\ o = output_path.
Proof.
  unfold process_template. split.
  - intros H. bind_inv H. unfold lift in Hstep.
    destruct (templates !! template_type) as [name |] eqn:Hname;
      [| discriminate Hstep].
    injection Hstep as <- <-. cbv zeta in H.
    bind_inv H. unfold get in Hstep. injection Hstep as <- <-.
    destruct (Os.exists_ w (OsPath.join template_dir name)); cbn [negb] in H;
      [| discriminate H].
    bind_inv H. unfold Document in Hstep.
    pose proof (read_file_world (OsPath.join template_dir name) w) as Hw.
    destruct (Os.read_file (OsPath.join template_dir name) w) as [[c | e] w2]
      eqn:Hread; [| discriminate Hstep].
    cbn [snd] in Hw. subst w2.
    destruct c as [d | | |]; try discriminate Hstep.
    injection Hstep as <- <-.
    bind_inv H. injection H as <- <-.
    match goal with u : unit |- _ => destruct u end.
    exists name, d.
    repeat (split; [first [reflexivity | assumption] |]). reflexivity.
  - intros (name & doc & Hname & Hread & Hwrite & ->).
    rewrite Hname. unfold lift, bind at 1. cbv zeta.
    unfold get, bind at 1. rewrite (read_file_exists _ _ _ _ Hread). cbn [negb].
    unfold Document, bind at 1. rewrite Hread.
    unfold bind. rewrite Hwrite. reflexivity.
Qed.

End ProcessTemplateFacts.

(** C3, as the code has it. Text is inert when it neither holds one of
    the four markers nor ends with the beginning of one. When the four
    field values and the text of a run outside its markers are inert,
    [process_template] saves a document in which that run, whether of a
    body paragraph or of a table cell, carries its text with every marker
    replaced by its field and the same formatting, however often the
    loops reached it; none of the four markers is left in it. Runs the
    loops do not reach, the paragraphs and the tables are as in the
    template. With the reference emptied the call returns as well: the
    marker of an empty reference is replaced by the empty string. *)
Theorem process_template_fills_markers :
  forall (template_type : string) (data : gmap string string)
         (output_path : string) (w w' : Os.world) (o : string),
    TemplateProcessor.process_template template_type data output_path w = (Ok o, w') ->
    TemplateProcessor.plain_fields data = true ->
    exists name doc doc',
      TemplateProcessor.templates !! template_type = Some name
      /\ Os.read_file (OsPath.join TemplateProcessor.template_dir name) w
         = (Ok (Os.DocxFile doc), w)
      /\ o = output_path
      /\ Os.read_file output_path w' = (Ok (Os.DocxFile doc'), w')
      /\ Docx.paragraphs doc' = Docx.paragraphs doc
      /\ Docx.tables doc' = Docx.tables doc
      /\ List.length (Docx.runs doc') = List.length (Docx.runs doc)
      /\ (forall (i : nat) r,
            Docx.runs doc !! i = Some r ->
            (i ∉ TemplateProcessor.visited doc -> Docx.runs doc' !! i = Some r)
            /\ (i ∈ TemplateProcessor.visited doc ->
                forall segs,
                  Docx.text r = TemplateProcessor.render segs ->
                  TemplateProcessor.plain segs = true ->
                  Docx.runs doc' !! i
                  = Some {| Docx.text := TemplateProcessor.fill data segs;
                            Docx.rPr := Docx.rPr r |}
                  /\ forall k,
                       Py.contains (TemplateProcessor.marker_text k)
                         (TemplateProcessor.fill data segs) = false))
      /\ (exists w'',
            TemplateProcessor.process_template template_type
              (<["referencia_evento" := ""]> data) output_path w
            = (Ok output_path, w'')).
Proof.
  intros tt data out w w' o H Hdata.
  apply process_template_ok in H as (name & doc & Hname & Hread & Hwrite & ->).
  exists name, doc, (TemplateProcessor.replace_in_document data doc).
  split; [exact Hname |]. split; [exact Hread |]. split; [reflexivity |].
  split.
  { destruct (write_file_inv _ _ _ _ Hwrite) as (d & Hl & _).
    destruct (locate_name _ _ _ _ Hl) as (_ & Hn & _).
    rewrite (read_file_entry w' out Hn), (entry_write_same _ _ _ _ Hwrite).
    reflexivity. }
  split; [reflexivity |]. split; [reflexivity |].
  split; [rewrite replace_in_document_visits; apply replace_in_runs_length |].
  split.
  - intros i r Hi. rewrite replace_in_document_visits. split.
    + intros Hout.
      assert (Hgen : forall l st, i ∉ l -> st !! i = Some r ->
                TemplateProcessor._replace_in_runs l data st !! i = Some r).
      { induction l as [| j l IH]; intros st Hnot Hst; [exact Hst |].
        rewrite replace_in_runs_cons. apply IH.
        - intros Hin. apply Hnot. right. exact Hin.
        - rewrite list_lookup_alter_ne; [exact Hst |].
          intros ->. apply Hnot. left. }
      apply Hgen; assumption.
    + intros Hin segs Htext Hplain.
      rewrite (replace_in_runs_lookup data _ _ i r Hi
                 (replace_in_run_idempotent data r segs Htext Hplain Hdata)).
      rewrite (bool_decide_eq_true_2 _ Hin).
      rewrite (replace_in_run_fill data r segs Htext Hplain Hdata).
      split; [reflexivity |].
      intros k. exact (inert_contains k _ (fill_inert data segs Hplain Hdata)).
  - destruct (write_file_inv _ _ _ _ Hwrite) as (d & Hl & Hnd & _).
    eexists. apply process_template_ok. exists name, doc.
    split; [exact Hname |]. split; [exact Hread |]. split; [| reflexivity].
    unfold Os.write_file. rewrite Hl.
    destruct (Os.node_at (Os.fs w) (d ++ [OsPath.final_name out])%list)
      as [[c0 m0 [] |] |] eqn:Hnode.
    + unfold Os.write_file in Hwrite. rewrite Hl, Hnode in Hwrite. discriminate Hwrite.
    + reflexivity.
    + congruence.
    + reflexivity.
Qed.

(** The template of the scenario with an empty reference: the run of the
    merged cell, reached twice, ends as ["Ref: "]. *)
Lemma process_template_fills_markers_witness :
  exists w' doc',
    Os.read_file "temp_files/P_a4.docx" w' = (Ok (Os.DocxFile doc'), w')
    /\ Docx.runs doc' !! 3%nat = Some {| Docx.text := "Ref: "; Docx.rPr := "size=10" |}
    /\ Docx.runs doc' !! 0%nat
       = Some {| Docx.text := "Fecha: 15 de Diciembre a las 7:00 PM";
                 Docx.rPr := "bold" |}.
Proof.
  destruct (process_template_fills_markers "a4" Scenario.event "temp_files/P_a4.docx"
              Scenario.host
              (snd (TemplateProcessor.process_template "a4" Scenario.event
                      "temp_files/P_a4.docx" Scenario.host))
              "temp_files/P_a4.docx")
    as (name & doc & doc' & Hname & Hread & _ & Hout & _ & _ & _ & Hruns & _).
  - vm_compute. reflexivity.
  - vm_compute. reflexivity.
  - injection Hname as <-. vm_compute in Hread. injection Hread as <-.
    eexists _, doc'. split; [exact Hout |]. split.
    + refine (proj1 (proj2 (Hruns 3%nat _ eq_refl) _
                [TemplateProcessor.Lit "Ref: ";
                 TemplateProcessor.Mark TemplateProcessor.referencia] eq_refl eq_refl)).
      vm_compute. repeat constructor.
    + refine (proj1 (proj2 (Hruns 0%nat _ eq_refl) _
                [TemplateProcessor.Lit "Fecha: ";
                 TemplateProcessor.Mark TemplateProcessor.fecha;
                 TemplateProcessor.Lit " a las ";
                 TemplateProcessor.Mark TemplateProcessor.hora] eq_refl eq_refl)).
      vm_compute. repeat constructor.
Defined.

(** C3 as stated fails. The markers are replaced one after the other in
    the whole text of the run: a field value that holds a later marker is
    itself rewritten, so the marker is not replaced by its field; and a
    marker that the replacement of another one puts together out of
    non-marker text is replaced as well, so that text is not left as it
    was. *)
Lemma replace_in_runs_chained_counterexample :
  let data : gmap string string :=
    <["fecha_evento" := "{{hora_evento}}"]> (<["hora_evento" := "7:00 PM"]> ∅) in
  let data2 : gmap string string :=
    <["fecha_evento" := ""]> (<["hora_evento" := "7:00 PM"]> ∅) in
  TemplateProcessor._replace_in_runs [0%nat] data
    [ {| Docx.text := "{{fecha_evento}}"; Docx.rPr := "bold" |} ]
  = [ {| Docx.text := "7:00 PM"; Docx.rPr := "bold" |} ]
  /\ TemplateProcessor.field_value data TemplateProcessor.fecha = "{{hora_evento}}"
  /\ TemplateProcessor._replace_in_runs [0%nat] data2
       [ {| Docx.text := "{{hora{{fecha_evento}}_evento}}"; Docx.rPr := "bold" |} ]
     = [ {| Docx.text := "7:00 PM"; Docx.rPr := "bold" |} ]
  /\ ~ (forall (data : gmap string string) (r : Docx.run) segs,
          Docx.text r = TemplateProcessor.render segs ->
          TemplateProcessor.replace_in_run data r
          = {| Docx.text := TemplateProcessor.fill data segs; Docx.rPr := Docx.rPr r |}).
Proof.
  intros data data2. do 3 (split; [vm_compute; reflexivity |]).
  intros H.
  specialize (H data {| Docx.text := "{{fecha_evento}}"; Docx.rPr := "bold" |}
                [TemplateProcessor.Mark TemplateProcessor.fecha] eq_refl).
  vm_compute in H. discriminate H.
Qed.

(** Braces alone do not make text a marker: a hall named [{A}] is inert
    and is filled in as it is, while a marker, the beginning of one and
    a brace at the end are not. *)
Example inert_examples :
  TemplateProcessor.inert "Sala {A}" = true
  /\ TemplateProcessor.inert "{{nombre}}" = true
  /\ TemplateProcessor.inert "{{hora_evento}}" = false
  /\ TemplateProcessor.inert "{{hora" = false
  /\ TemplateProcessor.inert "Sala {" = false
  /\ TemplateProcessor.replace_in_run
       (<["lugar_evento" := "Sala {A}"]> Scenario.event)
       {| Docx.text := "Lugar: {{lugar_evento}} {B}"; Docx.rPr := "bold" |}
     = {| Docx.text := "Lugar: Sala {A} {B}"; Docx.rPr := "bold" |}.
Proof. vm_compute. repeat split. Qed.

(** ** The large format *)

Section LargeFormatFacts.
Import DocumentGenerator.

Variable E : externals.
Variable temp_storage : string.

(** The paths of the generator: the joined project name and a suffix. *)
Lemma generated_final_name project_name sfx :
  Py.contains "/" sfx = false ->
  OsPath.final_name (OsPath.join temp_storage (project_name ++ sfx))
  = OsPath.final_name (OsPath.join temp_storage project_name) ++ sfx.
Proof.
  intros Hs. rewrite join_app by (apply contains_sep_startswith; exact Hs).
  apply final_name_app_plain. exact Hs.
Qed.

Lemma generated_is_name project_name sfx :
  Py.contains "/" sfx = false -> (3 <= String.length sfx)%nat ->
  OsPath.is_name (OsPath.final_name (OsPath.join temp_storage (project_name ++ sfx)))
  = true.
Proof.
  intros Hs Hlen. rewrite (generated_final_name _ _ Hs).
  apply is_name_long. rewrite string_length_app. lia.
Qed.

Lemma generated_distinct project_name sfx1 sfx2 :
  Py.contains "/" sfx1 = false -> Py.contains "/" sfx2 = false -> sfx1 <> sfx2 ->
  OsPath.final_name (OsPath.join temp_storage (project_name ++ sfx1))
  <> OsPath.final_name (OsPath.join temp_storage (project_name ++ sfx2)).
Proof.
  intros H1 H2 Hne. rewrite (generated_final_name _ _ H1), (generated_final_name _ _ H2).
  intros Heq. apply string_app_inv_head in Heq. exact (Hne Heq).
Qed.

Lemma drawImage_inv c p x y width height w c' w' :
  OsPath.is_name (OsPath.final_name p) = true ->
  Reportlab.drawImage c p x y width height w = (Ok c', w') ->
  exists img m i,
    Os.entry w p = Some (Os.File (Os.TiffFile img) m i)
    /\ w' = w
    /\ c' = {| Reportlab.filename := Reportlab.filename c;
               Reportlab.pagesize := Reportlab.pagesize c;
               Reportlab.code :=
                 (Reportlab.code c ++ [Pdf.Image img x y width height])%list;
               Reportlab.pages := Reportlab.pages c |}.
Proof.
  intros Hn H. unfold Reportlab.drawImage in H. bind_inv H.
  rewrite (read_file_entry w p Hn) in Hstep. injection Hstep as Hc <-.
  destruct (Os.entry w p) as [[c0 m i |] |]; try discriminate Hc.
  injection Hc as ->. destruct a as [| | img |]; try discriminate H.
  injection H as <- <-. exists img, m, i. repeat split.
Qed.

(** What a successful run of [_generate_gigantografia] went through,
    from the write of the raster on. *)
Lemma generate_gigantografia_steps data project_name w name w' :
  _generate_gigantografia E temp_storage data project_name w = (Ok name, w') ->
  let docx_path := OsPath.join temp_storage (project_name ++ "_giga_temp.docx") in
  let pdf_temp_path := OsPath.join temp_storage (project_name ++ "_giga_temp.pdf") in
  let pdf_final_path := OsPath.join temp_storage (project_name ++ "_gigantografia.pdf") in
  let temp_img_path := OsPath.join temp_storage (project_name ++ "_temp.tiff") in
  exists img w2 w3 w4 w5 w6,
    Os.write_file temp_img_path
      (Os.TiffFile (Pil.resize target_size
                      (if negb (String.eqb (Pil.mode img) "CMYK")
                       then Pil.convert "CMYK" img else img))) w2 = (Ok tt, w3)
    /\ (exists c, Reportlab.drawImage (Reportlab.Canvas pdf_final_path (11811, 17717))
                    temp_img_path 0 0 11811 17717 w3 = (Ok c, w3)
                  /\ Reportlab.save c w3 = (Ok tt, w4))
    /\ Os.remove temp_img_path w4 = (Ok tt, w5)
    /\ Os.remove pdf_temp_path w5 = (Ok tt, w6)
    /\ Os.remove docx_path w6 = (Ok tt, w').
Proof.
  intros H. unfold _generate_gigantografia in H. cbv zeta in H.
  bind_step H as Htemplate. bind_step H as Hconvert.
  bind_step H as Himages. bind_step H as Himg.
  match goal with Hi : lift (Py.index _ 0) _ = (Ok ?i, _) |- _ => rename i into img end.
  bind_step H as Hwrite. bind_step H as Hdraw. bind_step H as Hsave.
  bind_step H as Hrm1. bind_step H as Hrm2. bind_step H as Hrm3.
  injection H as _ <-.
  repeat match goal with u : unit |- _ => destruct u end.
  assert (Hn : OsPath.is_name
                 (OsPath.final_name
                    (OsPath.join temp_storage (project_name ++ "_temp.tiff"))) = true).
  { apply generated_is_name; [reflexivity | simpl; lia]. }
  destruct (drawImage_inv _ _ _ _ _ _ _ _ _ Hn Hdraw) as (i0 & m0 & b0 & _ & -> & _).
  intros docx_path pdf_temp_path pdf_final_path temp_img_path.
  eexists img, _, _, _, _, _.
  split; [exact Hwrite |]. split; [eexists; split; [exact Hdraw | exact Hsave] |].
  split; [exact Hrm1 |]. split; [exact Hrm2 | exact Hrm3].
Qed.

End LargeFormatFacts.

Section LargeFormatResult.
Import DocumentGenerator.

Variable E : externals.
Variable temp_storage : string.

Lemma entry_remove_generated project_name sfx1 sfx2 w w' :
  Py.contains "/" sfx1 = false -> (3 <=? String.length sfx1)%nat = true ->
  Py.contains "/" sfx2 = false -> sfx2 <> sfx1 ->
  Os.remove (OsPath.join temp_storage (project_name ++ sfx1)) w = (Ok tt, w') ->
  Os.entry w' (OsPath.join temp_storage (project_name ++ sfx2))
  = Os.entry w (OsPath.join temp_storage (project_name ++ sfx2)).
Proof.
  intros H1 Hlen H2 Hne Hrm. apply Nat.leb_le in Hlen.
  apply (entry_remove_other _ _ _ _ (generated_is_name _ _ _ H1 Hlen) Hrm).
  apply generated_distinct; assumption.
Qed.

Lemma entry_removed_generated project_name sfx w w' :
  Py.contains "/" sfx = false -> (3 <=? String.length sfx)%nat = true ->
  Os.remove (OsPath.join temp_storage (project_name ++ sfx)) w = (Ok tt, w') ->
  Os.entry w' (OsPath.join temp_storage (project_name ++ sfx)) = None.
Proof.
  intros H1 Hlen Hrm. apply Nat.leb_le in Hlen.
  exact (entry_remove_same _ _ _ (generated_is_name _ _ _ H1 Hlen) Hrm).
Qed.

(** After a successful run the intermediate files are gone and the final
    PDF holds one page with the resized raster. *)
Lemma generate_gigantografia_entries data project_name w name w' :
  _generate_gigantografia E temp_storage data project_name w = (Ok name, w') ->
  Os.entry w' (OsPath.join temp_storage (project_name ++ "_temp.tiff")) = None
  /\ Os.entry w' (OsPath.join temp_storage (project_name ++ "_giga_temp.pdf")) = None
  /\ Os.entry w' (OsPath.join temp_storage (project_name ++ "_giga_temp.docx")) = None
  /\ exists img m,
       Os.entry w' (OsPath.join temp_storage (project_name ++ "_gigantografia.pdf"))
       = Some (Os.File
                 (Os.PdfFile
                    [ {| Pdf.pagesize := (11811, 17717);
                         Pdf.items :=
                           [ Pdf.Image
                               (Pil.resize target_size
                                  (if negb (String.eqb (Pil.mode img) "CMYK")
                                   then Pil.convert "CMYK" img else img))
                               0 0 11811 17717 ] |} ])
                 m false).
Proof.
  intros H.
  destruct (generate_gigantografia_steps E temp_storage _ _ _ _ _ H)
    as (img & w2 & w3 & w4 & w5 & w6 & Hwrite & (c & Hdraw & Hsave)
        & Hrm1 & Hrm2 & Hrm3).
  split; [| split; [| split]].
  - rewrite (entry_remove_generated _ "_giga_temp.docx" "_temp.tiff" _ _
               eq_refl eq_refl eq_refl ltac:(discriminate) Hrm3).
    rewrite (entry_remove_generated _ "_giga_temp.pdf" "_temp.tiff" _ _
               eq_refl eq_refl eq_refl ltac:(discriminate) Hrm2).
    exact (entry_removed_generated _ "_temp.tiff" _ _ eq_refl eq_refl Hrm1).
  - rewrite (entry_remove_generated _ "_giga_temp.docx" "_giga_temp.pdf" _ _
               eq_refl eq_refl eq_refl ltac:(discriminate) Hrm3).
    exact (entry_removed_generated _ "_giga_temp.pdf" _ _ eq_refl eq_refl Hrm2).
  - exact (entry_removed_generated _ "_giga_temp.docx" _ _ eq_refl eq_refl Hrm3).
  - rewrite (entry_remove_generated _ "_giga_temp.docx" "_gigantografia.pdf" _ _
               eq_refl eq_refl eq_refl ltac:(discriminate) Hrm3).
    rewrite (entry_remove_generated _ "_giga_temp.pdf" "_gigantografia.pdf" _ _
               eq_refl eq_refl eq_refl ltac:(discriminate) Hrm2).
    rewrite (entry_remove_generated _ "_temp.tiff" "_gigantografia.pdf" _ _
               eq_refl eq_refl eq_refl ltac:(discriminate) Hrm1).
    assert (Hn : OsPath.is_name
                   (OsPath.final_name
                      (OsPath.join temp_storage (project_name ++ "_temp.tiff"))) = true).
    { apply generated_is_name; [reflexivity | simpl; lia]. }
    destruct (drawImage_inv _ _ _ _ _ _ _ _ _ Hn Hdraw)
      as (img0 & m0 & i0 & Hentry & _ & ->).
    rewrite (entry_write_same _ _ _ _ Hwrite) in Hentry.
    injection Hentry as <- _ _.
    unfold Reportlab.save in Hsave. cbn in Hsave.
    exists img, (Os.clock w3). exact (entry_write_same _ _ _ _ Hsave).
Qed.

End LargeFormatResult.

(** C6, as the code has it. When [_generate_gigantografia] returns, the
    intermediate raster, the intermediate PDF and the intermediate
    document are gone and the final PDF is in place. The three
    [os.remove] calls are the last statements of the function: a run that
    raises before them leaves what it created, and an error of [os.remove]
    is raised to the caller. *)
Theorem generate_gigantografia_cleans_on_success :
  forall (E : DocumentGenerator.externals) (temp_storage : string)
         (data : gmap string string) (project_name : string)
         (w w' : Os.world) (name : string),
    DocumentGenerator._generate_gigantografia E temp_storage data project_name w
    = (Ok name, w') ->
    Os.exists_ w' (OsPath.join temp_storage (project_name ++ "_temp.tiff")) = false
    /\ Os.exists_ w' (OsPath.join temp_storage (project_name ++ "_giga_temp.pdf")) = false
    /\ Os.exists_ w' (OsPath.join temp_storage (project_name ++ "_giga_temp.docx")) = false
    /\ Os.isfile w' (OsPath.join temp_storage (project_name ++ "_gigantografia.pdf")) = true.
Proof.
  intros E ts data P w w' name H.
  destruct (generate_gigantografia_entries E ts _ _ _ _ _ H)
    as (H1 & H2 & H3 & img & m & H4).
  rewrite !exists_entry, isfile_entry
    by (apply generated_is_name; [reflexivity | simpl; lia]).
  rewrite H1, H2, H3, H4. repeat split.
Qed.

(** The successful run of the scenario. *)
Lemma generate_gigantografia_cleans_on_success_witness :
  let w' := snd (DocumentGenerator._generate_gigantografia Scenario.installed
                   "temp_files" Scenario.event "P" Scenario.host) in
  Os.exists_ w' "temp_files/P_temp.tiff" = false
  /\ Os.exists_ w' "temp_files/P_giga_temp.pdf" = false
  /\ Os.exists_ w' "temp_files/P_giga_temp.docx" = false
  /\ Os.isfile w' "temp_files/P_gigantografia.pdf" = true.
Proof.
  intros w'.
  apply (generate_gigantografia_cleans_on_success Scenario.installed "temp_files"
           Scenario.event "P" Scenario.host w' "P_gigantografia.pdf").
  vm_compute. reflexivity.
Defined.

(** C6 as stated fails: on a host where the rasteriser raises, the
    function raises and the intermediate document and the intermediate
    PDF stay in the storage directory. *)
Lemma generate_gigantografia_leaves_files_counterexample :
  let run := DocumentGenerator._generate_gigantografia Scenario.without_poppler
               "temp_files" Scenario.event "P" Scenario.host in
  fst run = Raise (LibraryError
                     "Unable to get page count. Is poppler installed and in PATH?")
  /\ Os.exists_ (snd run) "temp_files/P_giga_temp.docx" = true
  /\ Os.exists_ (snd run) "temp_files/P_giga_temp.pdf" = true
  /\ Os.exists_ Scenario.host "temp_files/P_giga_temp.docx" = false
  /\ Os.exists_ Scenario.host "temp_files/P_giga_temp.pdf" = false
  /\ ~ (forall E temp_storage data project_name w,
          let w' := snd (DocumentGenerator._generate_gigantografia E temp_storage
                           data project_name w) in
          Os.exists_ w' (OsPath.join temp_storage (project_name ++ "_giga_temp.docx"))
          = false
          /\ Os.exists_ w' (OsPath.join temp_storage (project_name ++ "_giga_temp.pdf"))
             = false
          /\ Os.exists_ w' (OsPath.join temp_storage (project_name ++ "_temp.tiff"))
             = false).
Proof.
  intros run. do 5 (split; [vm_compute; reflexivity |]).
  intros H.
  destruct (H Scenario.without_poppler "temp_files" Scenario.event "P" Scenario.host)
    as (Hdocx & _).
  vm_compute in Hdocx. discriminate Hdocx.
Qed.

(** C2. After every successful large-format generation the output PDF
    has exactly one page; its page size is 11811 x 17717 page units, the
    values [round(100 / 2.54 * 300)] and [round(150 / 2.54 * 300)] of a
    100 cm x 150 cm target at 300 DPI; the page shows one raster, drawn
    from the origin over the whole page, whose colour mode is CMYK and
    whose size is 11811 x 17717 pixels. *)
Theorem generate_gigantografia_page :
  forall (E : DocumentGenerator.externals) (temp_storage : string)
         (data : gmap string string) (project_name : string)
         (w w' : Os.world) (name : string),
    DocumentGenerator._generate_gigantografia E temp_storage data project_name w
    = (Ok name, w') ->
    exists img,
      Os.read_file (OsPath.join temp_storage (project_name ++ "_gigantografia.pdf")) w'
      = (Ok (Os.PdfFile [ {| Pdf.pagesize := (11811, 17717);
                             Pdf.items := [Pdf.Image img 0 0 11811 17717] |} ]), w')
      /\ Pil.mode img = "CMYK"
      /\ Pil.size img = (11811, 17717)
      /\ DocumentGenerator.target_size
         = (DocumentGenerator.pixels_of_cm 100 300,
            DocumentGenerator.pixels_of_cm 150 300)
      /\ DocumentGenerator.pixels_of_cm 100 300 = 11811
      /\ DocumentGenerator.pixels_of_cm 150 300 = 17717.
Proof.
  intros E ts data P w w' name H.
  destruct (generate_gigantografia_entries E ts _ _ _ _ _ H)
    as (_ & _ & _ & img & m & H4).
  eexists. split.
  - rewrite read_file_entry by (apply generated_is_name; [reflexivity | simpl; lia]).
    rewrite H4. reflexivity.
  - split; [| split; [reflexivity | split; [| split]]]; try (vm_compute; reflexivity).
    cbn [Pil.resize Pil.mode].
    destruct (String.eqb (Pil.mode img) "CMYK") eqn:Hm; cbn [negb].
    + apply String.eqb_eq. exact Hm.
    + reflexivity.
Qed.

(** The page of the scenario. *)
Lemma generate_gigantografia_page_witness :
  exists img,
    Os.read_file "temp_files/P_gigantografia.pdf"
      (snd (DocumentGenerator._generate_gigantografia Scenario.installed
              "temp_files" Scenario.event "P" Scenario.host))
    = (Ok (Os.PdfFile [ {| Pdf.pagesize := (11811, 17717);
                           Pdf.items := [Pdf.Image img 0 0 11811 17717] |} ]),
       snd (DocumentGenerator._generate_gigantografia Scenario.installed
              "temp_files" Scenario.event "P" Scenario.host))
    /\ Pil.mode img = "CMYK".
Proof.
  destruct (generate_gigantografia_page Scenario.installed "temp_files"
              Scenario.event "P" Scenario.host
              (snd (DocumentGenerator._generate_gigantografia Scenario.installed
                      "temp_files" Scenario.event "P" Scenario.host))
              "P_gigantografia.pdf")
    as (img & Hread & Hmode & _).
  - vm_compute. reflexivity.
  - exists img. split; [exact Hread | exact Hmode].
Defined.

(** ** The artifact store: eviction *)

Section SweepFacts.
Import Os.
Local Close Scope string_scope.

Variable storage_path : string.
Variable cleanup_hours : Z.









End SweepFacts.

Section SweepLoop.
Import Os.
Local Close Scope string_scope.

Variable storage_path : string.
Variable cleanup_hours : Z.




End SweepLoop.




(* ===================================================================== *)
(** * Part III: further properties of the code *)
(* ===================================================================== *)

(** ** The authentication service: sessions *)

Section SessionFacts.
Import AuthService.

Lemma is_authenticated_alter f sid sid' (ss : sessions) :
  (forall sd, authenticated (f sd) = authenticated sd) ->
  is_authenticated sid' (alter f sid ss) = is_authenticated sid' ss.
Proof.
  intros Hf. unfold is_authenticated. destruct (decide (sid = sid')) as [-> | Hne].
  - rewrite lookup_alter_eq. destruct (ss !! sid'); simpl; [apply Hf | reflexivity].
  - rewrite lookup_alter_ne by exact Hne. reflexivity.
Qed.

(** The session store a call of [validate_answer] leaves, whatever it
    returns or raises. *)
Lemma validate_answer_state sid q answer (ss : sessions) :
  snd (validate_answer sid q answer ss)
  = match ss !! sid with
    | None => ss
    | Some _ =>
        match Py.index security_questions (q - 1) with
        | Raise _ => ss
        | Ok qu =>
            if String.eqb (_normalize_text answer) (q_answer qu)
            then if q =? 3 then alter (set_authenticated true) sid ss
                 else alter (set_current_question (q + 1)) sid ss
            else alter (set_current_question 1) sid ss
        end
    end.
Proof.
  unfold validate_answer, bind, get, lift, modify, ret, raise.
  destruct (ss !! sid); [| reflexivity].
  destruct (Py.index security_questions (q - 1)) as [qu | e]; [| reflexivity].
  destruct (String.eqb (_normalize_text answer) (q_answer qu)).
  - destruct (q =? 3); [reflexivity |].
    destruct (Py.index security_questions q); reflexivity.
  - destruct (Py.index security_questions 0); reflexivity.
Qed.

Lemma index_questions_range (q : Z) :
  (q < -2 \/ 3 < q ->
   Py.index security_questions (q - 1)
   = Raise (IndexError (if (q <=? - 2 ^ 63) || (2 ^ 63 <? q)
                        then "cannot fit 'int' into an index-sized integer"
                        else "list index out of range")))
  /\ (-2 <= q <= 3 -> exists qu, Py.index security_questions (q - 1) = Ok qu)
  /\ (-2 <= q < 3 -> exists qu, Py.index security_questions q = Ok qu).
Proof.
  split; [| split].
  - intros Hq. unfold Py.index. cbn [List.length security_questions Z.of_nat].
    change (- 2 ^ 63) with (-9223372036854775808).
    change (2 ^ 63) with 9223372036854775808.
    destruct (Z.ltb_spec (q - 1) (- 9223372036854775808)) as [Hlo | Hlo].
    { assert (H0 : (q <=? - 9223372036854775808) = true) by (apply Z.leb_le; lia).
      rewrite H0. reflexivity. }
    destruct (Z.leb_spec 9223372036854775808 (q - 1)) as [Hhi | Hhi].
    { assert (H0 : (9223372036854775808 <? q) = true) by (apply Z.ltb_lt; lia).
      rewrite H0, !orb_true_r. reflexivity. }
    assert (H1 : (q <=? - 9223372036854775808) = false) by (apply Z.leb_gt; lia).
    assert (H2 : (9223372036854775808 <? q) = false) by (apply Z.ltb_ge; lia).
    rewrite H1, H2. cbn [orb].
    destruct (q - 1 <? 0) eqn:Hneg.
    + apply Z.ltb_lt in Hneg.
      destruct Hq as [Hq | Hq]; [| lia].
      assert (H0 : (0 <=? Z.of_nat 3 + (q - 1)) = false) by (apply Z.leb_gt; lia).
      cbv zeta. rewrite H0. reflexivity.
    + apply Z.ltb_ge in Hneg.
      destruct Hq as [Hq | Hq]; [lia |].
      assert (H0 : (q - 1 <? Z.of_nat 3) = false) by (apply Z.ltb_ge; lia).
      cbv zeta. rewrite H0, andb_false_r. reflexivity.
  - intros Hq.
    assert (q = -2 \/ q = -1 \/ q = 0 \/ q = 1 \/ q = 2 \/ q = 3)
      as [-> | [-> | [-> | [-> | [-> | ->]]]]] by lia; eexists; reflexivity.
  - intros Hq.
    assert (q = -2 \/ q = -1 \/ q = 0 \/ q = 1 \/ q = 2)
      as [-> | [-> | [-> | [-> | ->]]]] by lia; eexists; reflexivity.
Qed.

Lemma validate_answer_keeps_authenticated sid sid' q answer (ss : sessions) :
  is_authenticated sid' ss = true ->
  is_authenticated sid' (snd (validate_answer sid q answer ss)) = true.
Proof.
  intros H. rewrite validate_answer_state.
  destruct (ss !! sid) eqn:Hsid; [| exact H].
  destruct (Py.index security_questions (q - 1)) as [qu | e]; [| exact H].
  destruct (String.eqb (_normalize_text answer) (q_answer qu)).
  - destruct (q =? 3).
    + unfold is_authenticated in *. destruct (decide (sid = sid')) as [-> | Hne].
      * rewrite lookup_alter_eq. destruct (ss !! sid'); [reflexivity | discriminate H].
      * rewrite lookup_alter_ne by exact Hne. exact H.
    + rewrite is_authenticated_alter; [exact H | reflexivity].
  - rewrite is_authenticated_alter; [exact H | reflexivity].
Qed.

(** A call that sets the flag of a session is a call for that session
    with the last question and its answer. *)
Lemma validate_answer_sets_flag sid sid' q answer (ss : sessions) :
  is_authenticated sid' ss = false ->
  is_authenticated sid' (snd (validate_answer sid q answer ss)) = true ->
  sid' = sid /\ q = 3 /\ _normalize_text answer = "esperanza viva".
Proof.
  intros Hno Hyes. rewrite validate_answer_state in Hyes.
  destruct (ss !! sid) eqn:Hsid; [| congruence].
  destruct (Py.index security_questions (q - 1)) as [qu | e] eqn:Hqu;
    [| congruence].
  destruct (String.eqb (_normalize_text answer) (q_answer qu))
    eqn:Hans.
  - destruct (Z.eqb_spec q 3) as [-> | Hne].
    + cbn in Hqu. injection Hqu as <-. apply String.eqb_eq in Hans.
      split; [| split; [reflexivity | exact Hans]].
      destruct (decide (sid = sid')) as [-> | Hd]; [reflexivity |].
      unfold is_authenticated in *.
      rewrite lookup_alter_ne in Hyes by exact Hd. congruence.
    + rewrite is_authenticated_alter in Hyes; [congruence | reflexivity].
  - rewrite is_authenticated_alter in Hyes; [congruence | reflexivity].
Qed.

End SessionFacts.

(** X1. A session id that the store does not hold is refused: every
    call of [validate_answer] for it, whatever the question number and
    the answer, raises [ValueError] with the text of the code, and the
    store is left as it was; no call creates the session. *)
Theorem validate_answer_unknown_session :
  forall (sid : string) (ss : AuthService.sessions) (rqs : list AuthService.request),
    ss !! sid = None ->
    Forall (fun r => r = Raise (ValueError ("Sesi" ++ AuthService.oacute ++ "n inv"
                                            ++ AuthService.aacute ++ "lida")))
           (fst (AuthService.serve sid rqs ss))
    /\ List.length (fst (AuthService.serve sid rqs ss)) = List.length rqs
    /\ snd (AuthService.serve sid rqs ss) = ss.
Proof.
  intros sid ss rqs Hsid. induction rqs as [| rq rest IH]; cbn [AuthService.serve].
  - repeat split. constructor.
  - assert (Hone : AuthService.validate_answer sid (AuthService.rq_question rq)
                     (AuthService.rq_answer rq) ss
                   = (Raise (ValueError ("Sesi" ++ AuthService.oacute ++ "n inv"
                                         ++ AuthService.aacute ++ "lida")), ss)).
    { unfold AuthService.validate_answer, bind, get. rewrite Hsid. reflexivity. }
    rewrite Hone. destruct (AuthService.serve sid rest ss) as [rs ss2].
    cbn [fst snd] in *. destruct IH as (IH1 & IH2 & IH3).
    split; [constructor; [reflexivity | exact IH1] |].
    split; [cbn; rewrite IH2; reflexivity | exact IH3].
Qed.

(** Two requests for a session nobody created. *)
Lemma validate_answer_unknown_session_witness :
  fst (AuthService.serve "nobody"
         [ {| AuthService.rq_question := 1; AuthService.rq_answer := "iglesia central" |};
           {| AuthService.rq_question := 3; AuthService.rq_answer := "esperanza viva" |} ]
         (snd (AuthService.create_session "s1" ∅)))
  = [ Raise (ValueError ("Sesi" ++ AuthService.oacute ++ "n inv"
                         ++ AuthService.aacute ++ "lida"));
      Raise (ValueError ("Sesi" ++ AuthService.oacute ++ "n inv"
                         ++ AuthService.aacute ++ "lida")) ]
  /\ snd (AuthService.serve "nobody"
            [ {| AuthService.rq_question := 1; AuthService.rq_answer := "iglesia central" |};
              {| AuthService.rq_question := 3; AuthService.rq_answer := "esperanza viva" |} ]
            (snd (AuthService.create_session "s1" ∅)))
     = snd (AuthService.create_session "s1" ∅).
Proof.
  split; [vm_compute; reflexivity |].
  refine (proj2 (proj2 (validate_answer_unknown_session "nobody"
                          (snd (AuthService.create_session "s1" ∅)) _ _))).
  reflexivity.
Defined.

(** X2. The question number of a request is used as a list index
    without a check. For a known session, a number above 3 or below -2
    makes [validate_answer] raise [IndexError] before anything is
    written: the index is out of range, or, for a number beyond 64 bits,
    does not fit a machine index. Every number from -2 to 3 is answered,
    the numbers 0, -1 and -2 being read from the end of the list of
    questions. *)
Theorem validate_answer_question_out_of_range :
  forall (sid : string) (q : Z) (answer : string) (ss : AuthService.sessions)
         (sd : AuthService.SessionData),
    ss !! sid = Some sd ->
    (q < -2 \/ 3 < q ->
     AuthService.validate_answer sid q answer ss
     = (Raise (IndexError (if (q <=? - 2 ^ 63) || (2 ^ 63 <? q)
                           then "cannot fit 'int' into an index-sized integer"
                           else "list index out of range")), ss))
    /\ (-2 <= q <= 3 ->
        exists r, fst (AuthService.validate_answer sid q answer ss) = Ok r).
Proof.
  intros sid q answer ss sd Hsid.
  destruct (index_questions_range q) as (Hout & Hin & Hnext).
  split.
  - intros Hq. unfold AuthService.validate_answer, bind, get, lift.
    rewrite Hsid, (Hout Hq). reflexivity.
  - intros Hq. destruct (Hin Hq) as [qu Hqu].
    unfold AuthService.validate_answer, bind, get, lift, modify, ret.
    rewrite Hsid, Hqu.
    destruct (String.eqb (AuthService._normalize_text answer) (AuthService.q_answer qu)).
    + destruct (Z.eqb_spec q 3) as [-> | Hne]; [eexists; reflexivity |].
      destruct (Hnext ltac:(lia)) as [nq ->]. eexists. reflexivity.
    + eexists. reflexivity.
Qed.

(** Question 4 does not exist, nor does question [2 ^ 64]; question 0
    is the last one. *)
Lemma validate_answer_question_out_of_range_witness :
  AuthService.validate_answer "s1" 4 "lima" (snd (AuthService.create_session "s1" ∅))
  = (Raise (IndexError "list index out of range"),
     snd (AuthService.create_session "s1" ∅))
  /\ AuthService.validate_answer "s1" (2 ^ 64) "lima"
       (snd (AuthService.create_session "s1" ∅))
     = (Raise (IndexError "cannot fit 'int' into an index-sized integer"),
        snd (AuthService.create_session "s1" ∅))
  /\ exists r, fst (AuthService.validate_answer "s1" 0 "esperanza viva"
                      (snd (AuthService.create_session "s1" ∅))) = Ok r.
Proof.
  assert (Hs : snd (AuthService.create_session "s1" ∅) !! "s1"
               = Some {| AuthService.session_id := "s1";
                         AuthService.current_question := 1;
                         AuthService.authenticated := false |}) by reflexivity.
  destruct (validate_answer_question_out_of_range "s1" 4 "lima" _ _ Hs) as [H4 _].
  destruct (validate_answer_question_out_of_range "s1" (2 ^ 64) "lima" _ _ Hs)
    as [Hbig _].
  destruct (validate_answer_question_out_of_range "s1" 0 "esperanza viva" _ _ Hs)
    as [_ H0].
  split; [apply H4; right; lia |].
  split; [apply Hbig; right; reflexivity | apply H0; lia].
Defined.

(** X3. A session becomes authenticated in one way only: a call of
    [validate_answer] for that session with question number 3 and an
    answer whose normalised text is the stored answer of question 3. No
    other call, and no call for another session, sets the flag. *)
Theorem authentication_needs_final_answer :
  forall (sid sid' : string) (q : Z) (answer : string) (ss : AuthService.sessions),
    AuthService.is_authenticated sid' ss = false ->
    AuthService.is_authenticated sid'
      (snd (AuthService.validate_answer sid q answer ss)) = true ->
    sid' = sid /\ q = 3 /\ AuthService._normalize_text answer = "esperanza viva".
Proof.
  intros sid sid' q answer ss. apply validate_answer_sets_flag.
Qed.

(** The last answer on a fresh session. *)
Lemma authentication_needs_final_answer_witness :
  AuthService._normalize_text "Esperanza Viva!" = "esperanza viva".
Proof.
  exact (proj2 (proj2 (authentication_needs_final_answer "s1" "s1" 3 "Esperanza Viva!"
                         (snd (AuthService.create_session "s1" ∅)) eq_refl eq_refl))).
Defined.

(** X4. Nothing in [validate_answer] takes the authentication back: once
    a session is authenticated it stays so after every sequence of
    further calls, with any question numbers and answers, for this or
    another session; a wrong answer resets [current_question] only. *)
Theorem authentication_is_permanent :
  forall (sid sid' : string) (rqs : list AuthService.request)
         (ss : AuthService.sessions),
    AuthService.is_authenticated sid' ss = true ->
    AuthService.is_authenticated sid' (snd (AuthService.serve sid rqs ss)) = true.
Proof.
  intros sid sid' rqs. induction rqs as [| rq rest IH]; intros ss H; [exact H |].
  cbn [AuthService.serve].
  pose proof (validate_answer_keeps_authenticated sid sid'
                (AuthService.rq_question rq) (AuthService.rq_answer rq) ss H) as H1.
  destruct (AuthService.validate_answer sid (AuthService.rq_question rq)
              (AuthService.rq_answer rq) ss) as [r ss1].
  cbn [snd] in H1. specialize (IH ss1 H1).
  destruct (AuthService.serve sid rest ss1) as [rs ss2]. exact IH.
Qed.

(** An authenticated session that then answers wrongly, and asks for a
    question that does not exist. *)
Lemma authentication_is_permanent_witness :
  let ss := snd (AuthService.validate_answer "s1" 3 "esperanza viva"
                   (snd (AuthService.create_session "s1" ∅))) in
  AuthService.is_authenticated "s1"
    (snd (AuthService.serve "s1"
            [ {| AuthService.rq_question := 1; AuthService.rq_answer := "no" |};
              {| AuthService.rq_question := 9; AuthService.rq_answer := "no" |} ] ss))
  = true.
Proof.
  intros ss. apply (authentication_is_permanent "s1" "s1"). reflexivity.
Defined.

(** X5. [create_session] enters the new id with [current_question] 1 and
    not authenticated, returns the id with the first question, and
    leaves every other session as it was; the new session is known to
    [validate_answer], which answers its first question. *)
Theorem create_session_fresh :
  forall (uuid : string) (ss : AuthService.sessions),
    exists q,
      AuthService.create_session uuid ss
      = (Ok (uuid, q),
         <[uuid := {| AuthService.session_id := uuid;
                      AuthService.current_question := 1;
                      AuthService.authenticated := false |}]> ss)
      /\ AuthService.q_number q = 1
      /\ AuthService.is_authenticated uuid (snd (AuthService.create_session uuid ss))
         = false
      /\ (forall other, other <> uuid ->
            snd (AuthService.create_session uuid ss) !! other = ss !! other)
      /\ (forall answer, exists r,
            fst (AuthService.validate_answer uuid 1 answer
                   (snd (AuthService.create_session uuid ss))) = Ok r
            /\ AuthService.success r
               = String.eqb (AuthService._normalize_text answer) "iglesia central").
Proof.
  intros uuid ss. eexists. split; [reflexivity |]. split; [reflexivity |].
  assert (Hs : snd (AuthService.create_session uuid ss)
               = <[uuid := {| AuthService.session_id := uuid;
                              AuthService.current_question := 1;
                              AuthService.authenticated := false |}]> ss)
    by reflexivity.
  rewrite Hs. split; [| split].
  - unfold AuthService.is_authenticated. rewrite lookup_insert_eq. reflexivity.
  - intros other Hne. apply lookup_insert_ne. congruence.
  - intros answer.
    destruct (validate_answer_step uuid
                (<[uuid := {| AuthService.session_id := uuid;
                              AuthService.current_question := 1;
                              AuthService.authenticated := false |}]> ss)
                _ 1 answer (lookup_insert_eq _ _ _) ltac:(lia)) as (r & Hr & Hok).
    exists r. rewrite Hr. split; [reflexivity | exact Hok].
Qed.

(** ** The authentication service: normalisation of answers *)

Section NormalizeFacts.
Import Py.

Lemma lower_char_idempotent c : lower_char (lower_char c) = lower_char c.
Proof. destruct c as [[] [] [] [] [] [] [] []]; vm_compute; reflexivity. Qed.

Lemma isspace_lower_char c : isspace (lower_char c) = isspace c.
Proof. destruct c as [[] [] [] [] [] [] [] []]; vm_compute; reflexivity. Qed.

Lemma space_isspace c : Ascii.eqb " " c = true -> isspace c = true.
Proof. intros H. apply Ascii.eqb_eq in H. subst c. reflexivity. Qed.

Lemma not_space c : isspace c = false -> Ascii.eqb " " c = false.
Proof.
  intros H. destruct (Ascii.eqb " " c) eqn:E; [| reflexivity].
  rewrite (space_isspace c E) in H. discriminate H.
Qed.

Lemma lower_cons c s : lower (String c s) = String (lower_char c) (lower s).
Proof. reflexivity. Qed.

Lemma lower_idempotent s : lower (lower s) = lower s.
Proof.
  induction s as [| c s IH]; [reflexivity |].
  rewrite !lower_cons, lower_char_idempotent, IH. reflexivity.
Qed.

Lemma lstrip_lower s : lstrip (lower s) = lower (lstrip s).
Proof.
  induction s as [| c s IH]; [reflexivity |].
  rewrite lower_cons. cbn [lstrip]. rewrite isspace_lower_char.
  destruct (isspace c); [exact IH | reflexivity].
Qed.

Lemma rstrip_lower s : rstrip (lower s) = lower (rstrip s).
Proof.
  induction s as [| c s IH]; [reflexivity |].
  rewrite lower_cons. cbn [rstrip]. rewrite IH, isspace_lower_char.
  destruct (rstrip s) as [| a r]; [| reflexivity].
  cbn [lower map_chars]. destruct (isspace c); reflexivity.
Qed.

Lemma strip_lower s : strip (lower s) = lower (strip s).
Proof. unfold strip. rewrite lstrip_lower, rstrip_lower. reflexivity. Qed.

Lemma rstrip_snoc s c : isspace c = true -> rstrip (s ++ String c "") = rstrip s.
Proof.
  intros Hc. induction s as [| a s IH]; cbn [String.append rstrip].
  - rewrite Hc. reflexivity.
  - rewrite IH. reflexivity.
Qed.

Lemma strip_snoc s c : isspace c = true -> strip (s ++ String c "") = strip s.
Proof.
  intros Hc. unfold strip. induction s as [| a s IH]; cbn [String.append lstrip].
  - rewrite Hc. reflexivity.
  - destruct (isspace a); [exact IH |].
    exact (rstrip_snoc (String a s) c Hc).
Qed.

Lemma lower_filter p s : lower s = s -> lower (filter_chars p s) = filter_chars p s.
Proof.
  induction s as [| c s IH]; [reflexivity |].
  rewrite lower_cons. intros H. injection H as Hc Hs. cbn [filter_chars].
  destruct (p c); [| exact (IH Hs)].
  rewrite lower_cons, Hc, (IH Hs). reflexivity.
Qed.

Lemma lower_collapse b s :
  lower s = s -> lower (collapse_spaces b s) = collapse_spaces b s.
Proof.
  revert b. induction s as [| c s IH]; intros b; [reflexivity |].
  rewrite lower_cons. intros H. injection H as Hc Hs. cbn [collapse_spaces].
  destruct (isspace c).
  - destruct b; [exact (IH true Hs) |].
    rewrite lower_cons, (IH true Hs). reflexivity.
  - rewrite lower_cons, Hc, (IH false Hs). reflexivity.
Qed.

Lemma filter_chars_all p s :
  forallb p (list_ascii_of_string (filter_chars p s)) = true.
Proof.
  induction s as [| c s IH]; [reflexivity |].
  cbn [filter_chars]. destruct (p c) eqn:Hp; [| exact IH].
  cbn [list_ascii_of_string forallb]. rewrite Hp, IH. reflexivity.
Qed.

(** After the whitespace is collapsed, a character is a word character
    or the space. *)
Lemma collapse_chars b s :
  forallb (fun c => isword c || isspace c) (list_ascii_of_string s) = true ->
  forallb (fun c => isword c || Ascii.eqb c " ")
          (list_ascii_of_string (collapse_spaces b s)) = true.
Proof.
  revert b. induction s as [| c s IH]; intros b; [reflexivity |].
  cbn [list_ascii_of_string forallb]. intros H.
  apply andb_true_iff in H as [Hc Hs]. cbn [collapse_spaces].
  destruct (isspace c) eqn:Hsp.
  - destruct b; [exact (IH true Hs) |].
    cbn [list_ascii_of_string forallb]. rewrite (IH true Hs).
    rewrite Ascii.eqb_refl, orb_true_r. reflexivity.
  - cbn [list_ascii_of_string forallb]. rewrite (IH false Hs).
    rewrite orb_false_r in Hc. rewrite Hc. reflexivity.
Qed.

Lemma startswith_space_cons c s : startswith (String c s) " " = Ascii.eqb " " c.
Proof.
  unfold startswith. cbn [strip_prefix]. destruct (Ascii.eqb " " c); reflexivity.
Qed.

Lemma startswith_spaces_cons c s :
  startswith (String c s) "  " = Ascii.eqb " " c && startswith s " ".
Proof.
  unfold startswith. cbn [strip_prefix]. destruct (Ascii.eqb " " c); reflexivity.
Qed.

(** No two spaces follow one another, and no space opens the text when
    the scan is inside a run of whitespace. *)
Lemma collapse_no_double b s :
  contains "  " (collapse_spaces b s) = false
  /\ (b = true -> startswith (collapse_spaces b s) " " = false).
Proof.
  revert b. induction s as [| c s IH]; intros b.
  - split; reflexivity.
  - cbn [collapse_spaces]. destruct (isspace c) eqn:Hsp.
    + destruct b.
      * exact (IH true).
      * destruct (IH true) as [H1 H2]. split; [| discriminate].
        cbn [contains]. rewrite startswith_spaces_cons, (H2 eq_refl), H1.
        rewrite andb_false_r. reflexivity.
    + destruct (IH false) as [H1 _]. split.
      * cbn [contains]. rewrite startswith_spaces_cons, (not_space c Hsp), H1.
        reflexivity.
      * intros _. rewrite startswith_space_cons. exact (not_space c Hsp).
Qed.

End NormalizeFacts.

(** X6. The text [_normalize_text] returns holds word characters and
    single spaces only: every character is of the class [\w] or is the
    space, no two spaces follow one another, and lowering the case
    changes nothing. *)
Theorem normalize_text_shape :
  forall text : string,
    forallb (fun c => Py.isword c || Ascii.eqb c " ")
            (list_ascii_of_string (AuthService._normalize_text text)) = true
    /\ Py.contains "  " (AuthService._normalize_text text) = false
    /\ Py.lower (AuthService._normalize_text text) = AuthService._normalize_text text.
Proof.
  intros text. unfold AuthService._normalize_text. split; [| split].
  - apply collapse_chars. apply filter_chars_all.
  - exact (proj1 (collapse_no_double false _)).
  - apply lower_collapse, lower_filter, lower_idempotent.
Qed.

(** X7. The verdict on an answer does not depend on the case of its
    letters nor on whitespace around it: lowering the case of the text,
    putting a whitespace character in front of it or after it leaves the
    normalised text, to which the stored answer is compared, the same. *)
Theorem normalize_text_ignores_case_and_margins :
  forall text : string,
    AuthService._normalize_text (Py.lower text) = AuthService._normalize_text text
    /\ (forall c, Py.isspace c = true ->
          AuthService._normalize_text (String c text) = AuthService._normalize_text text
          /\ AuthService._normalize_text (text ++ String c "")
             = AuthService._normalize_text text).
Proof.
  intros text. unfold AuthService._normalize_text. split.
  - rewrite strip_lower, lower_idempotent. reflexivity.
  - intros c Hc. split.
    + unfold Py.strip. cbn [Py.lstrip]. rewrite Hc. reflexivity.
    + rewrite (strip_snoc text c Hc). reflexivity.
Qed.

(** A tabulator in front of the answer and a line feed behind it. *)
Lemma normalize_text_ignores_case_and_margins_witness :
  AuthService._normalize_text (String "009"%char "Lima")
  = AuthService._normalize_text "Lima"
  /\ AuthService._normalize_text ("Lima" ++ String "010"%char "")
     = AuthService._normalize_text "Lima".
Proof.
  exact (proj2 (normalize_text_ignores_case_and_margins "Lima") "009"%char eq_refl).
Defined.

(** ** The field substitution engine: errors and what is left alone *)

Section TemplateMore.
Import TemplateProcessor.
Local Close Scope string_scope.

Lemma templates_other template_type :
  template_type <> "a4" -> template_type <> "4x1" ->
  templates !! template_type = None.
Proof.
  intros H1 H2. unfold templates.
  rewrite lookup_insert_ne by congruence. rewrite lookup_insert_ne by congruence.
  apply lookup_empty.
Qed.

Lemma write_file_raise p c w e w' : Os.write_file p c w = (Raise e, w') -> w' = w.
Proof.
  unfold Os.write_file. destruct (Os.locate w p) as [[d n] | e0].
  - destruct (Os.node_at (Os.fs w) (d ++ [n])) as [[c0 m0 [] |] |];
      intros H; inversion H; reflexivity.
  - intros H. inversion H. reflexivity.
Qed.

Lemma Document_world p w : snd (Document p w) = w.
Proof.
  unfold Document. destruct (Os.read_file p w) as [[[d | | |] | e] w0]; reflexivity.
Qed.

(** A call of [process_template] that raises has written nothing. *)
Lemma process_template_raise template_type data output_path w e w' :
  process_template template_type data output_path w = (Raise e, w') -> w' = w.
Proof.
  unfold process_template, bind, lift, get, raise, ret.
  destruct (templates !! template_type) as [name |]; [| intros H; inversion H; reflexivity].
  destruct (Os.exists_ w (OsPath.join template_dir name)); cbn [negb];
    [| intros H; inversion H; reflexivity].
  pose proof (Document_world (OsPath.join template_dir name) w) as Hw.
  destruct (Document (OsPath.join template_dir name) w) as [[doc | e0] w0].
  - cbn [snd] in Hw. subst w0.
    destruct (Os.write_file output_path _ w) as [[u | e1] w1] eqn:Hwrite.
    + discriminate.
    + intros H. inversion H. subst. exact (write_file_raise _ _ _ _ _ Hwrite).
  - cbn [snd] in Hw. subst w0. intros H. inversion H. reflexivity.
Qed.

Lemma rPr_replace_in_run data r : Docx.rPr (replace_in_run data r) = Docx.rPr r.
Proof.
  unfold replace_in_run, replacements. cbn [fold_left].
  unfold replace_marker. cbn [fst snd].
  repeat match goal with
         | |- context [if ?b then _ else _] => destruct b; cbn [Docx.rPr Docx.text]
         end; reflexivity.
Qed.

Lemma map_rPr_alter data (i : nat) (st : list Docx.run) :
  List.map Docx.rPr (alter (replace_in_run data) i st) = List.map Docx.rPr st.
Proof.
  revert i. induction st as [| r st IH]; intros i; [reflexivity |].
  destruct i as [| i]; cbn [alter list_alter List.map].
  - rewrite rPr_replace_in_run. reflexivity.
  - f_equal. apply IH.
Qed.

Lemma map_rPr_replace_in_runs data l : forall st,
  List.map Docx.rPr (_replace_in_runs l data st) = List.map Docx.rPr st.
Proof.
  induction l as [| j l IH]; intros st; [reflexivity |].
  rewrite replace_in_runs_cons, IH. apply map_rPr_alter.
Qed.

(** The test [marker in run.text] for the four markers. *)
Lemma replace_in_run_no_marker data r :
  forallb (fun k => negb (Py.contains (marker_text k) (Docx.text r)))
          [fecha; hora; lugar; referencia] = true ->
  replace_in_run data r = r.
Proof.
  cbn [forallb marker_text]. intros H.
  apply andb_true_iff in H as [H1 H]. apply andb_true_iff in H as [H2 H].
  apply andb_true_iff in H as [H3 H]. apply andb_true_iff in H as [H4 _].
  apply negb_true_iff in H1, H2, H3, H4.
  unfold replace_in_run, replacements. cbn [fold_left].
  unfold replace_marker at 4. cbn [fst snd]. rewrite H1.
  unfold replace_marker at 3. cbn [fst snd]. rewrite H2.
  unfold replace_marker at 2. cbn [fst snd]. rewrite H3.
  unfold replace_marker. cbn [fst snd]. rewrite H4. reflexivity.
Qed.

Lemma alter_fixed {A} (f : A -> A) (i : nat) (st : list A) :
  (forall r, st !! i = Some r -> f r = r) -> alter f i st = st.
Proof.
  revert i. induction st as [| a st IH]; intros i H; [reflexivity |].
  destruct i as [| i]; cbn [alter list_alter].
  - rewrite (H a eq_refl). reflexivity.
  - f_equal. apply IH. intros r Hr. apply H. exact Hr.
Qed.

Lemma replace_in_runs_fixed data l : forall st,
  forallb (fun i => match st !! i with
                    | Some r => forallb (fun k => negb (Py.contains (marker_text k)
                                                          (Docx.text r)))
                                        [fecha; hora; lugar; referencia]
                    | None => true
                    end) l = true ->
  _replace_in_runs l data st = st.
Proof.
  induction l as [| j l IH]; intros st H; [reflexivity |].
  cbn [forallb] in H. apply andb_true_iff in H as [Hj Hl].
  rewrite replace_in_runs_cons.
  assert (Hfix : alter (replace_in_run data) j st = st).
  { apply alter_fixed. intros r Hr. rewrite Hr in Hj.
    exact (replace_in_run_no_marker data r Hj). }
  rewrite Hfix. exact (IH st Hl).
Qed.

End TemplateMore.

Section TemplatePaths.
Import TemplateProcessor.

Lemma endswith_refl s : Py.endswith s s = true.
Proof. destruct s; cbn [Py.endswith]; rewrite String.eqb_refl; reflexivity. Qed.

Lemma endswith_app a s : Py.endswith (a ++ s) s = true.
Proof.
  induction a as [| c a IH]; [apply endswith_refl |].
  cbn [String.append Py.endswith]. rewrite IH. apply orb_true_r.
Qed.

(** The paths the generators write their documents to do not end in the
    name of a template. *)
Lemma generated_not_template temp_storage project_name sfx name :
  Py.contains "/" sfx = false -> Py.endswith name sfx = false ->
  OsPath.final_name (OsPath.join temp_storage (project_name ++ sfx)) <> name.
Proof.
  intros Hs He Heq. rewrite (generated_final_name temp_storage _ _ Hs) in Heq.
  rewrite <- Heq, endswith_app in He. discriminate He.
Qed.

Lemma blocked_here f cur n : Os.blocked f cur ["."; n] = Os.is_file f cur.
Proof.
  cbn [Os.blocked]. destruct (Os.is_dir f cur) eqn:Hd.
  - assert (Hs : Os.step f cur "." = Some cur)
      by (unfold Os.step; rewrite Hd; reflexivity).
    rewrite Hs, (is_dir_not_file _ _ Hd). destruct (Os.step f cur n); reflexivity.
  - assert (Hs : Os.step f cur "." = None)
      by (unfold Os.step; rewrite Hd; reflexivity).
    rewrite Hs. apply orb_false_r.
Qed.

(** A template that cannot be looked up is missing: its path names an
    entry of the working directory. *)
Lemma lookup_errno_template name w :
  In name ["Formato a4.docx"; "Formato 4x1.docx"] ->
  Os.lookup_errno w (OsPath.join template_dir name) = Os.ENOENT.
Proof.
  intros Hname.
  destruct Hname as [<- | [<- | []]];
    unfold Os.lookup_errno, Os.walk_errno;
    match goal with |- context [Os.blocked ?f ?c _] =>
      change (Os.blocked f c _) with (Os.blocked f (Os.cwd w) ["."; "Formato a4.docx"])
      || change (Os.blocked f c _) with (Os.blocked f (Os.cwd w) ["."; "Formato 4x1.docx"])
    end;
    rewrite blocked_here; cbn [String.eqb Ascii.eqb Bool.eqb OsPath.join];
    change (Os.start w _) with (Os.cwd w);
    destruct (Os.is_dir (Os.fs w) (Os.cwd w)) eqn:Hd;
    rewrite ?(is_dir_not_file _ _ Hd); reflexivity.
Qed.

End TemplatePaths.

(** X8. The two errors [process_template] raises before it opens a
    document. A template type other than [a4] and [4x1], such as
    [gigantografia], is not a key of [self.templates]: the call raises
    [KeyError] with the type. A template that is not on disk makes it
    raise [FileNotFoundError] with the text [Plantilla no encontrada:]
    and the path, [./Formato a4.docx] or [./Formato 4x1.docx]. In both
    cases nothing is written. *)
Theorem process_template_errors :
  forall (template_type : string) (data : gmap string string)
         (output_path : string) (w : Os.world),
    (template_type <> "a4" -> template_type <> "4x1" ->
     TemplateProcessor.process_template template_type data output_path w
     = (Raise (KeyError template_type), w))
    /\ (Os.exists_ w "./Formato a4.docx" = false ->
        TemplateProcessor.process_template "a4" data output_path w
        = (Raise (FileNotFoundError "Plantilla no encontrada: ./Formato a4.docx"), w))
    /\ (Os.exists_ w "./Formato 4x1.docx" = false ->
        TemplateProcessor.process_template "4x1" data output_path w
        = (Raise (FileNotFoundError "Plantilla no encontrada: ./Formato 4x1.docx"), w)).
Proof.
  intros tt data out w. split; [| split].
  - intros H1 H2. unfold TemplateProcessor.process_template, bind, lift.
    rewrite (templates_other tt H1 H2). reflexivity.
  - intros H. unfold TemplateProcessor.process_template, bind, lift, get, raise.
    change (TemplateProcessor.templates !! "a4") with (Some "Formato a4.docx").
    cbv iota beta.
    change (OsPath.join TemplateProcessor.template_dir "Formato a4.docx")
      with "./Formato a4.docx".
    rewrite H. reflexivity.
  - intros H. unfold TemplateProcessor.process_template, bind, lift, get, raise.
    change (TemplateProcessor.templates !! "4x1") with (Some "Formato 4x1.docx").
    cbv iota beta.
    change (OsPath.join TemplateProcessor.template_dir "Formato 4x1.docx")
      with "./Formato 4x1.docx".
    rewrite H. reflexivity.
Qed.

(** The large format is no template type, and the host that lost its
    template. *)
Lemma process_template_errors_witness :
  TemplateProcessor.process_template "gigantografia" Scenario.event
    "temp_files/P.docx" Scenario.host
  = (Raise (KeyError "gigantografia"), Scenario.host)
  /\ TemplateProcessor.process_template "a4" Scenario.event
       "temp_files/P.docx" Scenario.host_without_a4
     = (Raise (FileNotFoundError "Plantilla no encontrada: ./Formato a4.docx"),
        Scenario.host_without_a4).
Proof.
  split.
  - apply (proj1 (process_template_errors "gigantografia" Scenario.event
                    "temp_files/P.docx" Scenario.host)); discriminate.
  - apply (proj1 (proj2 (process_template_errors "a4" Scenario.event
                           "temp_files/P.docx" Scenario.host_without_a4))).
    vm_compute. reflexivity.
Defined.

(** X9. [process_template] writes all or nothing: whenever it raises,
    for a missing key, a missing or unreadable template or an output path
    that cannot be written, the host is exactly as before the call. *)
Theorem process_template_raises_nothing_written :
  forall (template_type : string) (data : gmap string string)
         (output_path : string) (w w' : Os.world) (e : exn),
    TemplateProcessor.process_template template_type data output_path w = (Raise e, w') ->
    w' = w.
Proof.
  intros tt data out w w' e H. exact (process_template_raise tt data out w e w' H).
Qed.

(** An output path in a directory that does not exist. *)
Lemma process_template_raises_nothing_written_witness :
  snd (TemplateProcessor.process_template "a4" Scenario.event
         "no_such_dir/P_a4.docx" Scenario.host) = Scenario.host.
Proof.
  apply (process_template_raises_nothing_written "a4" Scenario.event
           "no_such_dir/P_a4.docx" Scenario.host _
           (Os.enoent "no_such_dir/P_a4.docx")).
  vm_compute. reflexivity.
Defined.

(** X10. The formatting and the structure of a template survive the
    replacement for every field set, with or without braces in the
    values: the document after the loops has the same paragraphs and
    tables and, run by run, the same formatting as the template; only
    texts of runs change. *)
Theorem replace_in_document_keeps_formatting :
  forall (data : gmap string string) (doc : Docx.document),
    Docx.paragraphs (TemplateProcessor.replace_in_document data doc)
    = Docx.paragraphs doc
    /\ Docx.tables (TemplateProcessor.replace_in_document data doc) = Docx.tables doc
    /\ List.map Docx.rPr (Docx.runs (TemplateProcessor.replace_in_document data doc))
       = List.map Docx.rPr (Docx.runs doc).
Proof.
  intros data doc. split; [reflexivity |]. split; [reflexivity |].
  rewrite replace_in_document_visits. apply map_rPr_replace_in_runs.
Qed.

(** X11. A marker is found only inside one run. When no run that the
    loops reach holds one of the four markers in its text, the document
    is saved as it was read, whatever the field values; in particular a
    marker that the template splits over two runs is not replaced. *)
Theorem replace_in_document_without_markers :
  forall (data : gmap string string) (doc : Docx.document),
    forallb (fun i => match Docx.runs doc !! i with
                      | Some r =>
                          forallb (fun k => negb (Py.contains
                                                    (TemplateProcessor.marker_text k)
                                                    (Docx.text r)))
                                  [ TemplateProcessor.fecha; TemplateProcessor.hora;
                                    TemplateProcessor.lugar;
                                    TemplateProcessor.referencia ]
                      | None => true
                      end) (TemplateProcessor.visited doc) = true ->
    TemplateProcessor.replace_in_document data doc = doc.
Proof.
  intros data doc H.
  pose proof (replace_in_document_visits data doc) as Hruns.
  rewrite (replace_in_runs_fixed data _ _ H) in Hruns.
  destruct doc as [rs ps ts]. unfold TemplateProcessor.replace_in_document in *.
  cbn [Docx.runs Docx.paragraphs Docx.tables] in *. rewrite Hruns. reflexivity.
Qed.

(** The marker of the date, split after [fecha_]. *)
Lemma replace_in_document_without_markers_witness :
  TemplateProcessor.replace_in_document Scenario.event Scenario.split_marker
  = Scenario.split_marker.
Proof.
  apply (replace_in_document_without_markers Scenario.event Scenario.split_marker).
  vm_compute. reflexivity.
Defined.

(** X12. The templates are never written by the generators. Whatever
    the storage directory and the project name, the three paths a
    generator hands to [process_template] end in [_a4.docx], [_4x1.docx]
    or [_giga_temp.docx], and after the call, returned or raised, each of
    the two template files reads as it did before. *)
Theorem process_template_keeps_templates :
  forall (template_type : string) (data : gmap string string)
         (temp_storage project_name sfx name : string) (w : Os.world),
    In sfx ["_a4.docx"; "_4x1.docx"; "_giga_temp.docx"] ->
    In name ["Formato a4.docx"; "Formato 4x1.docx"] ->
    let w' := snd (TemplateProcessor.process_template template_type data
                     (OsPath.join temp_storage (project_name ++ sfx)) w) in
    fst (Os.read_file (OsPath.join TemplateProcessor.template_dir name) w')
    = fst (Os.read_file (OsPath.join TemplateProcessor.template_dir name) w).
Proof.
  intros tt data ts P sfx name w Hsfx Hname w'.
  assert (Hn : OsPath.is_name
                 (OsPath.final_name (OsPath.join TemplateProcessor.template_dir name))
               = true).
  { destruct Hname as [<- | [<- | []]]; reflexivity. }
  assert (Hne : OsPath.final_name (OsPath.join TemplateProcessor.template_dir name)
                <> OsPath.final_name (OsPath.join ts (P ++ sfx))).
  { intros Heq. symmetry in Heq. revert Heq. apply generated_not_template.
    - destruct Hsfx as [<- | [<- | [<- | []]]]; reflexivity.
    - destruct Hsfx as [<- | [<- | [<- | []]]];
        destruct Hname as [<- | [<- | []]]; reflexivity. }
  rewrite !(read_file_entry _ _ Hn). cbn [fst].
  assert (He : Os.entry w' (OsPath.join TemplateProcessor.template_dir name)
               = Os.entry w (OsPath.join TemplateProcessor.template_dir name)).
  { subst w'.
    destruct (TemplateProcessor.process_template tt data (OsPath.join ts (P ++ sfx)) w)
      as [[o | e] w1] eqn:Hrun; cbn [snd].
    - apply process_template_ok in Hrun as (nm & doc & _ & _ & Hwrite & _).
      exact (entry_write_other _ _ _ _ _ Hwrite Hne).
    - rewrite (process_template_raise _ _ _ _ _ _ Hrun). reflexivity. }
  rewrite He, !(lookup_errno_template name _ Hname). reflexivity.
Qed.

(** The template of the compact variant after the document of the
    project of the scenario was written. *)
Lemma process_template_keeps_templates_witness :
  fst (Os.read_file "./Formato a4.docx"
         (snd (TemplateProcessor.process_template "a4" Scenario.event
                 (OsPath.join "temp_files" (Scenario.project ++ "_a4.docx"))
                 Scenario.host)))
  = fst (Os.read_file "./Formato a4.docx" Scenario.host).
Proof.
  apply (process_template_keeps_templates "a4" Scenario.event "temp_files"
           Scenario.project "_a4.docx" "Formato a4.docx" Scenario.host).
  - simpl. left. reflexivity.
  - simpl. left. reflexivity.
Defined.

(** ** The generators: LibreOffice, names and the loop *)

Section ReplaceFacts.

(** A prefix test does not see past a character the pattern does not
    hold. *)
Lemma strip_prefix_foreign p c u : forall t,
  forallb (fun a => negb (Ascii.eqb a c)) (list_ascii_of_string p) = true ->
  Py.startswith (t ++ String c u) p = Py.startswith t p.
Proof.
  unfold Py.startswith. induction p as [| a p IH]; intros t Hp; [reflexivity |].
  cbn [list_ascii_of_string forallb] in Hp. apply andb_true_iff in Hp as [Ha Hp].
  apply negb_true_iff in Ha.
  destruct t as [| b t]; cbn [String.append Py.strip_prefix].
  - rewrite Ha. reflexivity.
  - destruct (Ascii.eqb a b); [exact (IH t Hp) | reflexivity].
Qed.

(** Text without the pattern is copied by [str.replace], up to a
    character the pattern does not hold. *)
Lemma scan_foreign old new c u : forall b,
  forallb (fun a => negb (Ascii.eqb a c)) (list_ascii_of_string old) = true ->
  Py.contains old b = false ->
  Py.replace_scan old new 0 (b ++ String c u)
  = b ++ Py.replace_scan old new 0 (String c u).
Proof.
  intros b Hold. induction b as [| a b IH]; intros Hb; [reflexivity |].
  cbn [Py.contains] in Hb. apply orb_false_iff in Hb as [Hhead Htail].
  change (String a b ++ String c u) with (String a (b ++ String c u)).
  cbn [Py.replace_scan].
  change (String a (b ++ String c u)) with (String a b ++ String c u).
  rewrite (strip_prefix_foreign old c u (String a b) Hold), Hhead, (IH Htail).
  reflexivity.
Qed.

(** The name [_convert_docx_to_pdf] derives for a document named by a
    base without [.docx], an underscore, a tag and [.docx]. *)
Lemma derived_pdf_name base tag :
  Py.contains ".docx" base = false ->
  Py.replace_scan ".docx" ".pdf" 0 (String "_" (tag ++ ".docx"))
  = String "_" (tag ++ ".pdf") ->
  Py.replace (base ++ String "_" (tag ++ ".docx")) ".docx" ".pdf"
  = base ++ String "_" (tag ++ ".pdf").
Proof.
  intros Hbase Htag. unfold Py.replace.
  rewrite (scan_foreign ".docx" ".pdf" "_" (tag ++ ".docx") base eq_refl Hbase), Htag.
  reflexivity.
Qed.

End ReplaceFacts.

Section GeneratorMore.
Import DocumentGenerator.

Variable E : externals.
Variable temp_storage : string.

Lemma subprocess_run_missing cmd w w1 :
  run_process E cmd w = (None, w1) ->
  subprocess_run E cmd w = (Raise (Os.enoent (List.hd EmptyString cmd)), w1).
Proof. unfold subprocess_run. intros ->. reflexivity. Qed.

(** When the derived name is the requested path, the converter is the
    call of LibreOffice and nothing else. *)
Lemma convert_is_subprocess docx_path pdf_path w :
  Py.replace docx_path ".docx" ".pdf" = pdf_path ->
  _convert_docx_to_pdf E docx_path pdf_path w
  = subprocess_run E [ "libreoffice"; "--headless"; "--convert-to"; "pdf";
                       "--outdir"; OsPath.dirname pdf_path; docx_path ] w.
Proof.
  intros Hname. unfold _convert_docx_to_pdf, bind. rewrite Hname, String.eqb_refl.
  cbn [negb]. destruct (subprocess_run E _ w) as [[[] | e] w1]; reflexivity.
Qed.

Lemma subprocess_run_ok cmd w w' :
  subprocess_run E cmd w = (Ok tt, w') <-> run_process E cmd w = (Some 0, w').
Proof.
  unfold subprocess_run. destruct (run_process E cmd w) as [[rc |] w1].
  - destruct (Z.eqb_spec rc 0) as [-> | Hne]; split; intros H;
      try discriminate H; try (injection H as <-; reflexivity).
    injection H as Hrc _. congruence.
  - split; intros H; discriminate H.
Qed.

(** A generator of a PDF variant: the template is filled, LibreOffice is
    called, and the name is returned. *)
Lemma generate_pdf_outcome template_type tag data project_name w name w' :
  Py.contains ".docx" (OsPath.join temp_storage project_name) = false ->
  Py.replace_scan ".docx" ".pdf" 0 (String "_" (tag ++ ".docx"))
  = String "_" (tag ++ ".pdf") ->
  Py.contains "/" (String "_" (tag ++ ".docx")) = false ->
  Py.contains "/" (String "_" (tag ++ ".pdf")) = false ->
  let docx_path := OsPath.join temp_storage (project_name ++ String "_" (tag ++ ".docx")) in
  let pdf_path := OsPath.join temp_storage (project_name ++ String "_" (tag ++ ".pdf")) in
  (bind (TemplateProcessor.process_template template_type data docx_path)
     (fun _ => bind (_convert_docx_to_pdf E docx_path pdf_path)
                 (fun _ => ret (project_name ++ String "_" (tag ++ ".pdf")))) w
   = (Ok name, w')
   <-> exists o w1,
         TemplateProcessor.process_template template_type data docx_path w = (Ok o, w1)
         /\ run_process E [ "libreoffice"; "--headless"; "--convert-to"; "pdf";
                            "--outdir"; OsPath.dirname pdf_path; docx_path ] w1
            = (Some 0, w')
         /\ name = project_name ++ String "_" (tag ++ ".pdf")).
Proof.
  intros Hbase Htag Hs1 Hs2 docx_path pdf_path.
  assert (Hname : Py.replace docx_path ".docx" ".pdf" = pdf_path).
  { unfold docx_path, pdf_path.
    rewrite !join_app by (apply contains_sep_startswith; assumption).
    apply derived_pdf_name; assumption. }
  split.
  - intros H. bind_step H as Htemplate. bind_step H as Hconvert.
    injection H as <- <-.
    rewrite (convert_is_subprocess _ _ _ Hname) in Hconvert.
    repeat match goal with u : unit |- _ => destruct u end.
    apply subprocess_run_ok in Hconvert.
    eexists _, _. split; [exact Htemplate |]. split; [exact Hconvert | reflexivity].
  - intros (o & w1 & Htemplate & Hrun & ->).
    rewrite (bind_of_ok _ _ _ _ _ Htemplate).
    apply subprocess_run_ok in Hrun.
    rewrite <- (convert_is_subprocess _ _ _ Hname) in Hrun.
    rewrite (bind_of_ok _ _ _ _ _ Hrun). reflexivity.
Qed.

(** Without LibreOffice no generator returns: it raises what its call
    of [process_template] raises, or the error of the launch. *)
Lemma generate_without_office template_type docx pdf (k : M Os.world string) data w :
  (forall cmd w0, fst (run_process E cmd w0) = None) ->
  fst (bind (TemplateProcessor.process_template template_type data docx)
         (fun _ => bind (_convert_docx_to_pdf E docx pdf) (fun _ => k)) w)
  = Raise match fst (TemplateProcessor.process_template template_type data docx w) with
          | Ok _ => Os.enoent "libreoffice"
          | Raise e => e
          end.
Proof.
  intros Hnone.
  assert (Hconv : forall w0,
             _convert_docx_to_pdf E docx pdf w0
             = (Raise (Os.enoent "libreoffice"), snd (run_process E
                  [ "libreoffice"; "--headless"; "--convert-to"; "pdf";
                    "--outdir"; OsPath.dirname pdf; docx ] w0))).
  { intros w0. unfold _convert_docx_to_pdf. apply bind_of_raise.
    specialize (Hnone [ "libreoffice"; "--headless"; "--convert-to"; "pdf";
                        "--outdir"; OsPath.dirname pdf; docx ] w0).
    destruct (run_process E _ w0) as [o w1] eqn:Hrun. cbn [fst snd] in *. subst o.
    exact (subprocess_run_missing _ _ _ Hrun). }
  unfold bind at 1.
  destruct (TemplateProcessor.process_template template_type data docx w)
    as [[o | e] w1] eqn:Ht; cbn [fst].
  - unfold bind. rewrite Hconv. reflexivity.
  - reflexivity.
Qed.

End GeneratorMore.

(** X13. When the executable of LibreOffice is not found,
    [_convert_docx_to_pdf] raises the [FileNotFoundError] of
    [subprocess.run], which names [libreoffice]; nothing is renamed. *)
Theorem convert_docx_to_pdf_executable_missing :
  forall (E : DocumentGenerator.externals) (docx_path pdf_path : string)
         (w w1 : Os.world),
    DocumentGenerator.run_process E
      [ "libreoffice"; "--headless"; "--convert-to"; "pdf";
        "--outdir"; OsPath.dirname pdf_path; docx_path ] w = (None, w1) ->
    DocumentGenerator._convert_docx_to_pdf E docx_path pdf_path w
    = (Raise (FileNotFoundError "[Errno 2] No such file or directory: 'libreoffice'"),
       w1).
Proof.
  intros E docx pdf w w1 Hrun. unfold DocumentGenerator._convert_docx_to_pdf.
  apply bind_of_raise. exact (subprocess_run_missing E _ _ _ Hrun).
Qed.

(** The host without LibreOffice. *)
Lemma convert_docx_to_pdf_executable_missing_witness :
  DocumentGenerator._convert_docx_to_pdf Scenario.without_office
    "temp_files/P_a4.docx" "temp_files/P_a4.pdf" Scenario.host
  = (Raise (FileNotFoundError "[Errno 2] No such file or directory: 'libreoffice'"),
     Scenario.host).
Proof.
  apply (convert_docx_to_pdf_executable_missing Scenario.without_office
           "temp_files/P_a4.docx" "temp_files/P_a4.pdf" Scenario.host Scenario.host).
  reflexivity.
Defined.

(** X14. On a host where LibreOffice cannot be launched, [generate_all]
    returns three entries with status [error] and an empty file name.
    The error of each entry is the one the generator's own call of
    [process_template] raises, for its template and its document path
    on the host the generators before it left, and the
    [FileNotFoundError] that names [libreoffice] when that call
    returns. *)
Theorem generate_all_without_libreoffice :
  forall (E : DocumentGenerator.externals) (temp_storage : string)
         (data : gmap string string) (project_name : string) (w : Os.world),
    (forall cmd w0, fst (DocumentGenerator.run_process E cmd w0) = None) ->
    let w1 := snd (DocumentGenerator._generate_a4 E temp_storage data project_name w) in
    let w2 := snd (DocumentGenerator._generate_4x1 E temp_storage data project_name w1) in
    let w3 := snd (DocumentGenerator._generate_gigantografia E temp_storage data
                     project_name w2) in
    let raised template_type name w0 :=
      match fst (TemplateProcessor.process_template template_type data
                   (OsPath.join temp_storage (project_name ++ name)) w0) with
      | Ok _ => FileNotFoundError "[Errno 2] No such file or directory: 'libreoffice'"
      | Raise e => e
      end in
    DocumentGenerator.generate_all E temp_storage data project_name w
    = (Ok [ DocumentGenerator.error_info "a4" (raised "a4" "_a4.docx" w);
            DocumentGenerator.error_info "4x1" (raised "4x1" "_4x1.docx" w1);
            DocumentGenerator.error_info "gigantografia"
              (raised "a4" "_giga_temp.docx" w2) ], w3).
Proof.
  intros E ts data P w Hnone w1 w2 w3 raised. rewrite generate_all_unfold.
  fold w1. fold w2. fold w3.
  assert (H1 : fst (DocumentGenerator._generate_a4 E ts data P w)
               = Raise (raised "a4" "_a4.docx" w)).
  { unfold DocumentGenerator._generate_a4.
    apply (generate_without_office E "a4" _ _ _ data w Hnone). }
  assert (H2 : fst (DocumentGenerator._generate_4x1 E ts data P w1)
               = Raise (raised "4x1" "_4x1.docx" w1)).
  { unfold DocumentGenerator._generate_4x1.
    apply (generate_without_office E "4x1" _ _ _ data w1 Hnone). }
  assert (H3 : fst (DocumentGenerator._generate_gigantografia E ts data P w2)
               = Raise (raised "a4" "_giga_temp.docx" w2)).
  { unfold DocumentGenerator._generate_gigantografia.
    apply (generate_without_office E "a4" _ _ _ data w2 Hnone). }
  rewrite H1, H2, H3. reflexivity.
Qed.

(** The request of the scenario on the host without LibreOffice: the
    three templates are filled, and each launch fails. *)
Lemma generate_all_without_libreoffice_witness :
  fst (DocumentGenerator.generate_all Scenario.without_office "temp_files"
         Scenario.event "P" Scenario.host)
  = Ok [ DocumentGenerator.error_info "a4" (Os.enoent "libreoffice");
         DocumentGenerator.error_info "4x1" (Os.enoent "libreoffice");
         DocumentGenerator.error_info "gigantografia" (Os.enoent "libreoffice") ].
Proof.
  rewrite (generate_all_without_libreoffice Scenario.without_office "temp_files"
             Scenario.event "P" Scenario.host).
  - vm_compute. reflexivity.
  - intros cmd w0. reflexivity.
Defined.

(** X15. When [.docx] occurs nowhere in the joined path of the storage
    directory and the project name, the name the converter derives is the
    requested path, so nothing is renamed, and [_generate_a4] and
    [_generate_4x1] return exactly when the template processor returns
    and LibreOffice then exits with status 0. The state of the host is
    the one LibreOffice left: the generator does not look for the PDF and
    does not remove the filled document. *)
Theorem generate_pdf_variants_outcome :
  forall (E : DocumentGenerator.externals) (temp_storage : string)
         (data : gmap string string) (project_name : string)
         (w w' : Os.world) (name : string),
    Py.contains ".docx" (OsPath.join temp_storage project_name) = false ->
    (DocumentGenerator._generate_a4 E temp_storage data project_name w = (Ok name, w')
     <-> exists o w1,
           TemplateProcessor.process_template "a4" data
             (OsPath.join temp_storage (project_name ++ "_a4.docx")) w = (Ok o, w1)
           /\ DocumentGenerator.run_process E
                [ "libreoffice"; "--headless"; "--convert-to"; "pdf"; "--outdir";
                  OsPath.dirname (OsPath.join temp_storage (project_name ++ "_a4.pdf"));
                  OsPath.join temp_storage (project_name ++ "_a4.docx") ] w1
              = (Some 0, w')
           /\ name = project_name ++ "_a4.pdf")
    /\ (DocumentGenerator._generate_4x1 E temp_storage data project_name w = (Ok name, w')
        <-> exists o w1,
              TemplateProcessor.process_template "4x1" data
                (OsPath.join temp_storage (project_name ++ "_4x1.docx")) w = (Ok o, w1)
              /\ DocumentGenerator.run_process E
                   [ "libreoffice"; "--headless"; "--convert-to"; "pdf"; "--outdir";
                     OsPath.dirname (OsPath.join temp_storage (project_name ++ "_4x1.pdf"));
                     OsPath.join temp_storage (project_name ++ "_4x1.docx") ] w1
                 = (Some 0, w')
              /\ name = project_name ++ "_4x1.pdf").
Proof.
  intros E ts data P w w' name Hbase. split.
  - exact (generate_pdf_outcome E ts "a4" "a4" data P w name w' Hbase
             eq_refl eq_refl eq_refl).
  - exact (generate_pdf_outcome E ts "4x1" "4x1" data P w name w' Hbase
             eq_refl eq_refl eq_refl).
Qed.

(** A LibreOffice that exits with status 0 and writes nothing: the
    compact variant is reported as generated, and its filled document is
    in the storage directory. *)
Lemma generate_pdf_variants_outcome_witness :
  DocumentGenerator._generate_a4 Scenario.silent_office "temp_files"
    Scenario.event "P" Scenario.host
  = (Ok "P_a4.pdf",
     snd (TemplateProcessor.process_template "a4" Scenario.event
            "temp_files/P_a4.docx" Scenario.host)).
Proof.
  apply (proj1 (generate_pdf_variants_outcome Scenario.silent_office "temp_files"
                  Scenario.event "P" Scenario.host
                  (snd (TemplateProcessor.process_template "a4" Scenario.event
                          "temp_files/P_a4.docx" Scenario.host))
                  "P_a4.pdf" eq_refl)).
  eexists _, _. split; [vm_compute; reflexivity |]. split; reflexivity.
Defined.

(** X16. A rasteriser that returns no page makes the large format fail
    at [images[0]] with [IndexError]. The cleanup at the end of the
    function is not reached: the host is left as the converter left it,
    with the intermediate files. *)
Theorem generate_gigantografia_without_pages :
  forall (E : DocumentGenerator.externals) (temp_storage : string)
         (data : gmap string string) (project_name : string)
         (w w1 w2 : Os.world) (o : string),
    TemplateProcessor.process_template "a4" data
      (OsPath.join temp_storage (project_name ++ "_giga_temp.docx")) w = (Ok o, w1) ->
    DocumentGenerator._convert_docx_to_pdf E
      (OsPath.join temp_storage (project_name ++ "_giga_temp.docx"))
      (OsPath.join temp_storage (project_name ++ "_giga_temp.pdf")) w1 = (Ok tt, w2) ->
    DocumentGenerator.convert_from_path E
      (OsPath.join temp_storage (project_name ++ "_giga_temp.pdf")) 300 w2 = Ok [] ->
    DocumentGenerator._generate_gigantografia E temp_storage data project_name w
    = (Raise (IndexError "list index out of range"), w2).
Proof.
  intros E ts data P w w1 w2 o Htemplate Hconvert Himages.
  unfold DocumentGenerator._generate_gigantografia. cbv zeta.
  rewrite (bind_of_ok _ _ _ _ _ Htemplate), (bind_of_ok _ _ _ _ _ Hconvert).
  unfold bind at 1. rewrite Himages. reflexivity.
Qed.

(** The host whose rasteriser finds no page: the intermediate document
    and PDF stay. *)
Lemma generate_gigantografia_without_pages_witness :
  let run := DocumentGenerator._generate_gigantografia Scenario.no_pages "temp_files"
               Scenario.event "P" Scenario.host in
  fst run = Raise (IndexError "list index out of range")
  /\ Os.exists_ (snd run) "temp_files/P_giga_temp.docx" = true
  /\ Os.exists_ (snd run) "temp_files/P_giga_temp.pdf" = true.
Proof.
  intros run.
  pose proof (generate_gigantografia_without_pages Scenario.no_pages "temp_files"
                Scenario.event "P" Scenario.host
                (snd (TemplateProcessor.process_template "a4" Scenario.event
                        "temp_files/P_giga_temp.docx" Scenario.host))
                (snd (DocumentGenerator._convert_docx_to_pdf Scenario.no_pages
                        "temp_files/P_giga_temp.docx" "temp_files/P_giga_temp.pdf"
                        (snd (TemplateProcessor.process_template "a4" Scenario.event
                                "temp_files/P_giga_temp.docx" Scenario.host))))
                "temp_files/P_giga_temp.docx") as H.
  subst run. rewrite H.
  - split; [reflexivity |]. split; vm_compute; reflexivity.
  - vm_compute. reflexivity.
  - vm_compute. reflexivity.
  - reflexivity.
Defined.

(** X17. The two versions of [generate_all] in the design agree: the
    loop over the three generator methods of the error-handling section
    returns, for every input and every behaviour of the tools, the same
    list and leaves the same state as the version with three [try]
    blocks in a row. *)
Theorem generate_all_loop_agrees :
  forall (E : DocumentGenerator.externals) (temp_storage : string)
         (data : gmap string string) (project_name : string) (w : Os.world),
    DocumentGenerator.generate_all_loop E temp_storage data project_name w
    = DocumentGenerator.generate_all E temp_storage data project_name w.
Proof.
  intros E ts data P w.
  unfold DocumentGenerator.generate_all_loop, DocumentGenerator.generate_all.
  cbn [for_fold]. unfold bind, try_except, ret.
  destruct (DocumentGenerator._generate_a4 E ts data P w) as [[n1 | e1] w1];
    destruct (DocumentGenerator._generate_4x1 E ts data P w1) as [[n2 | e2] w2];
    destruct (DocumentGenerator._generate_gigantografia E ts data P w2)
      as [[n3 | e3] w3];
    reflexivity.
Qed.

(** ** The artifact store: construction and a root that is not there *)

Section SplitFacts.
Import OsPath.

Lemma all_sep_snoc s : all_sep s = true -> s ++ "/" = String "/" s.
Proof.
  induction s as [| c s IH]; [reflexivity |]. cbn [all_sep String.append].
  intros H. apply andb_true_iff in H as [Hc Hs]. apply Ascii.eqb_eq in Hc. subst c.
  rewrite (IH Hs). reflexivity.
Qed.

Lemma all_sep_cons_app s r : all_sep s = true -> s ++ String "/" r = String "/" (s ++ r).
Proof.
  induction s as [| c s IH]; [reflexivity |]. cbn [all_sep String.append].
  intros H. apply andb_true_iff in H as [Hc Hs]. apply Ascii.eqb_eq in Hc. subst c.
  rewrite (IH Hs). reflexivity.
Qed.

Lemma all_sep_app a b : all_sep a = true -> all_sep b = true -> all_sep (a ++ b) = true.
Proof.
  induction a as [| c a IH]; intros Ha Hb; [exact Hb |]. cbn [all_sep String.append] in *.
  apply andb_true_iff in Ha as [Hc Ha]. rewrite Hc, (IH Ha Hb). reflexivity.
Qed.

(** What [rstrip('/')] takes away are separators. *)
Lemma rstrip_sep_spec h : exists s, all_sep s = true /\ h = rstrip_sep h ++ s.
Proof.
  induction h as [| c h (s & Hs & IH)]; [exists ""; split; reflexivity |].
  cbn [rstrip_sep]. destruct (rstrip_sep h) as [| b r] eqn:Hr.
  - cbn [String.append] in IH. subst h.
    destruct (Ascii.eqb c "/") eqn:Hc.
    + exists (String c s). split; [cbn [all_sep]; rewrite Hc, Hs |]; reflexivity.
    + exists s. split; [exact Hs | reflexivity].
  - exists s. split; [exact Hs |].
    change (String c h = String c (String b r ++ s)). rewrite <- IH. reflexivity.
Qed.

Lemma rstrip_sep_empty h : rstrip_sep h = "" -> all_sep h = true.
Proof.
  intros H. destruct (rstrip_sep_spec h) as (s & Hs & Hh).
  rewrite H in Hh. cbn [String.append] in Hh. subst h. exact Hs.
Qed.

Lemma rstrip_sep_snoc a : rstrip_sep (a ++ "/") = rstrip_sep a.
Proof.
  induction a as [| c a IH]; [reflexivity |].
  cbn [String.append rstrip_sep]. rewrite IH. reflexivity.
Qed.

(** [rfind('/')] cuts behind the last separator. *)
Lemma rpartition_spec p :
  p = fst (rpartition p) ++ snd (rpartition p)
  /\ Py.contains "/" (snd (rpartition p)) = false
  /\ (fst (rpartition p) = "" \/ exists h, fst (rpartition p) = h ++ "/").
Proof.
  induction p as [| c p (IH1 & IH2 & IH3)]; [repeat split; left; reflexivity |].
  cbn [rpartition]. destruct (rpartition p) as [h t]. cbn [fst snd] in *.
  destruct h as [| b h].
  - cbn [String.append] in IH1. subst t.
    destruct (Ascii.eqb c "/") eqn:Hc; cbn [fst snd String.append].
    + apply Ascii.eqb_eq in Hc. subst c.
      split; [reflexivity |]. split; [exact IH2 |]. right. exists "". reflexivity.
    + split; [reflexivity |]. split; [| left; reflexivity].
      rewrite contains_sep_cons, Ascii.eqb_sym, Hc, IH2. reflexivity.
  - cbn [fst snd String.append]. split; [rewrite IH1; reflexivity |].
    split; [exact IH2 |]. right.
    destruct IH3 as [IH3 | [h' IH3]]; [discriminate IH3 |].
    exists (String c h'). cbn [String.append]. rewrite IH3. reflexivity.
Qed.

(** The head of [os.path.split]: empty, all separators, or a proper
    beginning of the path that a separator follows. *)
Lemma dirname_cases p :
  (dirname p = "" /\ p = basename p)
  \/ (dirname p <> "" /\ all_sep (dirname p) = true /\ p = dirname p ++ basename p)
  \/ (dirname p <> "" /\ all_sep (dirname p) = false
      /\ exists s, all_sep s = true /\ p = dirname p ++ String "/" (s ++ basename p)).
Proof.
  destruct (rpartition_spec p) as (Hp & _ & Hh).
  unfold dirname, basename. destruct (rpartition p) as [h t]. cbn [fst snd] in *.
  destruct Hh as [-> | [h' ->]]; [left; split; [reflexivity | exact Hp] |].
  assert (Hne : String.eqb (h' ++ "/") "" = false)
    by (apply eqb_app_nonempty; discriminate).
  rewrite Hne. cbn [negb andb].
  destruct (all_sep (h' ++ "/")) eqn:Hall; cbn [negb].
  - right. left. split; [| split; [exact Hall | exact Hp]].
    intros H. rewrite H in Hne. discriminate Hne.
  - right. right. rewrite rstrip_sep_snoc.
    destruct (rstrip_sep_spec h') as (s & Hs & Hh').
    assert (Hr : rstrip_sep h' <> "").
    { intros H. apply rstrip_sep_empty in H.
      rewrite (all_sep_app h' "/" H eq_refl) in Hall. discriminate Hall. }
    split; [exact Hr |]. split.
    + destruct (all_sep (rstrip_sep h')) eqn:Hall'; [| reflexivity].
      rewrite Hh' in Hall at 1.
      rewrite string_app_assoc in Hall.
      rewrite (all_sep_app _ _ Hall' (all_sep_app s "/" Hs eq_refl)) in Hall.
      discriminate Hall.
    + exists s. split; [exact Hs |].
      rewrite Hp at 1. rewrite Hh' at 1.
      rewrite !string_app_assoc. cbn [String.append].
      rewrite (all_sep_cons_app s t Hs). reflexivity.
Qed.

Lemma dirname_length p : (String.length (dirname p) <= String.length p)%nat.
Proof.
  destruct (dirname_cases p) as [[H _] | [(_ & _ & H) | (_ & _ & s & _ & H)]].
  - rewrite H. cbn. lia.
  - rewrite H at 2. rewrite string_length_app. lia.
  - rewrite H at 2. rewrite string_length_app. lia.
Qed.

Lemma dirname_shorter p :
  basename p <> "" -> (String.length (dirname p) < String.length p)%nat.
Proof.
  intros Ht.
  assert (Hlen : (0 < String.length (basename p))%nat).
  { destruct (basename p); [congruence | cbn; lia]. }
  destruct (dirname_cases p) as [[H1 H] | [(_ & _ & H) | (_ & _ & s & _ & H)]].
  - rewrite H1, H. exact Hlen.
  - rewrite H at 2. rewrite string_length_app. lia.
  - rewrite H at 2. rewrite string_length_app. cbn [String.length]. lia.
Qed.

End SplitFacts.

Section ResolveFacts.
Import Os.

Lemma with_fs_same w : with_fs w (fs w) = w.
Proof. destruct w; reflexivity. Qed.

Lemma is_dir_root f : is_dir f [] = true.
Proof. reflexivity. Qed.

Lemma walk_all_sep f cur s :
  OsPath.all_sep s = true -> is_dir f cur = true ->
  walk f cur (OsPath.split_sep s) = Some cur.
Proof.
  intros Hs Hd. induction s as [| c s IH]; cbn [OsPath.split_sep walk].
  - unfold step. rewrite Hd. reflexivity.
  - cbn [OsPath.all_sep] in Hs. apply andb_true_iff in Hs as [Hc Hs].
    rewrite Hc. cbn [walk]. unfold step at 1. rewrite Hd. cbn [String.eqb orb].
    exact (IH Hs).
Qed.

(** A path of separators is the root. *)
Lemma resolve_all_sep w s :
  s <> "" -> OsPath.all_sep s = true -> resolve w s = Some [].
Proof.
  intros Hne Hs. unfold resolve, start, OsPath.isabs.
  destruct s as [| c s]; [congruence |]. cbn [String.eqb].
  pose proof Hs as Hs'. cbn [OsPath.all_sep] in Hs'.
  apply andb_true_iff in Hs' as [Hc _].
  rewrite startswith_sep_cons, Ascii.eqb_sym, Hc.
  apply walk_all_sep; [exact Hs | reflexivity].
Qed.

(** What a path leads to lies behind what its beginnings lead to. *)
Lemma resolve_prefix w q r k :
  q <> "" -> resolve w (q ++ String "/" r) = Some k ->
  exists kq, resolve w q = Some kq.
Proof.
  intros Hq. unfold resolve, start, OsPath.isabs.
  rewrite (eqb_app_nonempty q (String "/" r)) by discriminate.
  rewrite (startswith_sep_app q _ Hq), split_sep_app_sep, walk_app.
  assert (Hqe : String.eqb q "" = false) by (apply String.eqb_neq; exact Hq).
  rewrite Hqe.
  destruct (walk (fs w) _ (OsPath.split_sep q)) as [kq |]; [| discriminate].
  intros _. exists kq. reflexivity.
Qed.

Lemma resolve_dirname w p k :
  resolve w p = Some k -> OsPath.dirname p <> "" -> exists_ w (OsPath.dirname p) = true.
Proof.
  intros Hr Hne. unfold exists_.
  destruct (dirname_cases p) as [[H _] | [(_ & Hall & _) | (_ & _ & s & _ & H)]].
  - congruence.
  - rewrite (resolve_all_sep w _ Hne Hall). reflexivity.
  - rewrite H in Hr. destruct (resolve_prefix w _ _ _ Hne Hr) as [kq ->]. reflexivity.
Qed.

Lemma strip_trailing_spec (l : list string) :
  exists e, l = (strip_trailing l ++ e)%list /\ Forall (fun c => c = "") e.
Proof.
  induction l as [| c l (e & Hl & He)]; [exists []; split; [reflexivity | constructor] |].
  cbn [strip_trailing]. destruct (strip_trailing l) as [| x r].
  - cbn [app] in Hl. subst l. destruct (String.eqb_spec c "") as [-> | Hc].
    + exists ("" :: e). split; [reflexivity | constructor; [reflexivity | exact He]].
    + exists e. split; [reflexivity | exact He].
  - exists e. split; [| exact He]. rewrite Hl at 1. reflexivity.
Qed.

Lemma strip_trailing_last (l : list string) :
  strip_trailing l <> [] -> List.last (strip_trailing l) "" <> "".
Proof.
  induction l as [| c l IH]; [cbn; congruence |].
  cbn [strip_trailing]. destruct (strip_trailing l) as [| x r].
  - destruct (String.eqb_spec c "") as [-> | Hc]; [congruence |]. intros _. exact Hc.
  - intros _. change (List.last (x :: r) "" <> ""). apply IH. discriminate.
Qed.

Lemma walk_empties f cur (e : list string) :
  Forall (fun c => c = "") e -> e <> [] ->
  walk f cur e = if is_dir f cur then Some cur else None.
Proof.
  intros He. revert cur. induction He as [| c e -> He IH]; intros cur Hne; [congruence |].
  cbn [walk]. unfold step. destruct (is_dir f cur) eqn:Hd; [| reflexivity].
  cbn [String.eqb orb]. destruct e as [| c' e']; [reflexivity |].
  rewrite IH by discriminate. rewrite Hd. reflexivity.
Qed.

(** The entry a path leads to, from the directory of its last
    component. Behind a regular file no separator may follow. *)
Lemma resolve_parentat w p d n slash :
  parentat w p = inr (d, n, slash) -> OsPath.is_name n = true ->
  resolve w p = match node_at (fs w) (d ++ [n])%list with
                | Some Dir => Some (d ++ [n])%list
                | Some (File _ _ _) => if slash then None else Some (d ++ [n])%list
                | None => None
                end.
Proof.
  unfold parentat, resolve. destruct (String.eqb p ""); [discriminate |].
  destruct (String.eqb (OsPath.final_name p) "") eqn:Hs.
  - destruct (walk_dir _ _ _) as [e | d0] eqn:Hw; [discriminate |].
    intros H Hn. injection H as <- <- <-.
    apply walk_dir_inr in Hw as [Hw Hd].
    destruct (strip_trailing_spec (OsPath.split_sep p)) as (e & Hsplit & He).
    remember (strip_trailing (OsPath.split_sep p)) as l eqn:El.
    assert (Hl : l <> []).
    { intros ->. discriminate Hn. }
    assert (Hne : e <> []).
    { intros ->. rewrite app_nil_r in Hsplit. apply String.eqb_eq in Hs.
      unfold OsPath.final_name in Hs. rewrite Hsplit in Hs.
      subst l. exact (strip_trailing_last _ Hl Hs). }
    rewrite Hsplit, walk_app.
    rewrite (app_removelast_last "" Hl) at 1.
    rewrite (walk_snoc_name _ _ _ _ Hn), Hw, Hd.
    destruct (node_at (fs w) (d0 ++ [List.last l ""])%list) as [nd |] eqn:Hnode;
      [| reflexivity].
    rewrite (walk_empties _ _ e He Hne). unfold is_dir. rewrite Hnode.
    destruct nd; reflexivity.
  - destruct (walk_dir _ _ _) as [e | d0] eqn:Hw; [discriminate |].
    intros H Hn. injection H as <- <- <-.
    apply walk_dir_inr in Hw as [Hw Hd].
    rewrite (OsPath_split_last p) at 1.
    rewrite (walk_snoc_name _ _ _ _ Hn), Hw, Hd.
    destruct (node_at (fs w) _) as [[] |]; reflexivity.
Qed.

Lemma parentat_mono w w' p x :
  (forall k, is_dir (fs w) k = true -> is_dir (fs w') k = true) ->
  cwd w' = cwd w ->
  parentat w p = inr x -> parentat w' p = inr x.
Proof.
  intros Hmono Hcwd. unfold parentat, start. rewrite Hcwd.
  destruct (String.eqb p ""); [discriminate |].
  destruct (walk_dir (fs w) _ _) as [e | d] eqn:Hw; [discriminate |].
  apply walk_dir_inr in Hw as [Hw Hd].
  rewrite (proj2 (walk_dir_inr (fs w') _ _ d)
             (conj (walk_to_dir_mono _ _ Hmono _ _ _ Hw Hd) (Hmono _ Hd))).
  intros H. exact H.
Qed.

Lemma is_dir_insert_dir f k k' :
  is_dir f k' = true -> is_dir (<[k := Dir]> f) k' = true.
Proof.
  unfold is_dir. destruct k' as [| a k']; [reflexivity |]. cbn [node_at].
  destruct (decide (k = a :: k')) as [-> | Hne].
  - rewrite lookup_insert_eq. reflexivity.
  - rewrite lookup_insert_ne by exact Hne. intros H. exact H.
Qed.

End ResolveFacts.

Section MakedirsFacts.
Import Os.
Local Close Scope string_scope.

Lemma mkdir_inv p w w' :
  mkdir p w = (Ok tt, w') ->
  exists d n slash,
    parentat w p = inr (d, n, slash) /\ OsPath.is_name n = true
    /\ fs w !! (d ++ [n]) = None
    /\ w' = with_fs w (<[d ++ [n] := Dir]> (fs w)).
Proof.
  unfold mkdir. destruct (parentat w p) as [e | [[d n] slash]]; [discriminate |].
  destruct (OsPath.is_name n) eqn:Hn; [| discriminate].
  rewrite node_at_snoc. destruct (fs w !! (d ++ [n])) eqn:Hnode; [discriminate |].
  intros H. injection H as <-. exists d, n, slash. repeat split; assumption.
Qed.

Lemma mkdir_raise p w e w' : mkdir p w = (Raise e, w') -> w' = w.
Proof.
  unfold mkdir. destruct (parentat w p) as [e0 | [[d n] slash]];
    [intros H; injection H as _ <-; reflexivity |].
  destruct (OsPath.is_name n); [| intros H; injection H as _ <-; reflexivity].
  destruct (node_at (fs w) (d ++ [n])); [intros H; injection H as _ <-; reflexivity |].
  discriminate.
Qed.

(** [os.mkdir] refuses a path that leads somewhere. *)
Lemma mkdir_existing p w k : resolve w p = Some k -> exists e, mkdir p w = (Raise e, w).
Proof.
  intros Hr. unfold mkdir.
  destruct (parentat w p) as [e | [[d n] slash]] eqn:Hp; [eexists; reflexivity |].
  destruct (OsPath.is_name n) eqn:Hn; [| eexists; reflexivity].
  rewrite (resolve_parentat _ _ _ _ _ Hp Hn) in Hr.
  destruct (node_at (fs w) (d ++ [n])); [eexists; reflexivity | discriminate Hr].
Qed.

(** The four parts of a host that [os.makedirs] leaves as they are. *)
Lemma mkdir_keeps p w r w' :
  mkdir p w = (r, w') ->
  (forall k nd, fs w !! k = Some nd -> fs w' !! k = Some nd)
  /\ cwd w' = cwd w /\ clock w' = clock w /\ stdout w' = stdout w.
Proof.
  destruct r as [[] | e]; intros H.
  - apply mkdir_inv in H as (d & n & slash & _ & _ & Hnode & ->).
    split; [| repeat split]. intros k nd Hk. cbn [fs with_fs].
    rewrite lookup_insert_ne; [exact Hk | congruence].
  - apply mkdir_raise in H. subst w'. repeat split. intros k nd Hk. exact Hk.
Qed.

Lemma mkdir_exist_ok_cases name w :
  mkdir_exist_ok name w
  = match mkdir name w with
    | (Ok a, w') => (Ok a, w')
    | (Raise e, w') => if isdir w' name then (Ok tt, w') else (Raise e, w')
    end.
Proof.
  unfold mkdir_exist_ok, try_except, bind, get, raise, ret.
  destruct (mkdir name w) as [[a | e] w']; [reflexivity |].
  destruct (isdir w' name); reflexivity.
Qed.

Lemma mkdir_exist_ok_keeps name w r w' :
  mkdir_exist_ok name w = (r, w') ->
  (forall k nd, fs w !! k = Some nd -> fs w' !! k = Some nd)
  /\ cwd w' = cwd w /\ clock w' = clock w /\ stdout w' = stdout w.
Proof.
  rewrite mkdir_exist_ok_cases.
  destruct (mkdir name w) as [[a | e] w1] eqn:Hm.
  - intros H. injection H as <- <-. exact (mkdir_keeps _ _ _ _ Hm).
  - destruct (isdir w1 name); intros H; injection H as <- <-;
      exact (mkdir_keeps _ _ _ _ Hm).
Qed.

(** With [exist_ok=True], a directory that is there is accepted. *)
Lemma mkdir_exist_ok_existing name w d :
  resolve w name = Some d -> is_dir (fs w) d = true ->
  mkdir_exist_ok name w = (Ok tt, w).
Proof.
  intros Hr Hd. rewrite mkdir_exist_ok_cases.
  destruct (mkdir_existing name w d Hr) as [e ->].
  unfold isdir. rewrite Hr, Hd. reflexivity.
Qed.

(** When the last step of [os.makedirs] returns, the path leads to a
    directory. *)
Lemma mkdir_exist_ok_isdir name w w' :
  mkdir_exist_ok name w = (Ok tt, w') -> isdir w' name = true.
Proof.
  rewrite mkdir_exist_ok_cases.
  destruct (mkdir name w) as [[[] | e] w1] eqn:Hm.
  - intros H. injection H as <-.
    apply mkdir_inv in Hm as (d & n & slash & Hp & Hn & Hnode & ->).
    assert (Hp' : parentat (with_fs w (<[d ++ [n] := Dir]> (fs w))) name
                  = inr (d, n, slash)).
    { apply (parentat_mono w); [| reflexivity | exact Hp].
      intros k Hk. cbn [fs with_fs]. apply is_dir_insert_dir. exact Hk. }
    unfold isdir. rewrite (resolve_parentat _ _ _ _ _ Hp' Hn).
    cbn [fs with_fs]. rewrite node_at_snoc, lookup_insert_eq.
    unfold is_dir. rewrite node_at_snoc, lookup_insert_eq. reflexivity.
  - destruct (isdir w1 name) eqn:Hdir; [| discriminate].
    intros H. injection H as <-. exact Hdir.
Qed.

(** One call of [makedirs], with the two uses of [os.path.split]
    written out: the path without the separators at its end is cut into
    head and tail. *)
Lemma makedirs_rec_unfold fuel name w :
  makedirs_rec fuel name w
  = let base := if String.eqb (OsPath.basename name) ""
                then OsPath.dirname name else name in
    let head := OsPath.dirname base in
    let tail := OsPath.basename base in
    if negb (String.eqb head "") && negb (String.eqb tail "") && negb (exists_ w head)
    then match match fuel with
               | S fuel' =>
                   try_except (makedirs_rec fuel' head)
                     (fun e => match e with
                               | FileExistsError _ => ret tt
                               | _ => raise e
                               end) w
               | O => (Ok tt, w)
               end with
         | (Ok _, w1) =>
             if String.eqb tail "." then (Ok tt, w1) else mkdir_exist_ok name w1
         | (Raise e, w1) => (Raise e, w1)
         end
    else mkdir_exist_ok name w.
Proof.
  destruct fuel; cbn [makedirs_rec]; unfold OsPath.split;
    destruct (String.eqb (OsPath.basename name) ""); cbv zeta;
    unfold bind, get, ret;
    (destruct (negb _ && negb _ && negb _); [| reflexivity]);
    try (destruct (try_except _ _ w) as [[a | e] w1]);
    try (destruct (String.eqb _ ".")); reflexivity.
Qed.

Lemma makedirs_rec_keeps fuel : forall name w r w',
  makedirs_rec fuel name w = (r, w') ->
  (forall k nd, fs w !! k = Some nd -> fs w' !! k = Some nd)
  /\ cwd w' = cwd w /\ clock w' = clock w /\ stdout w' = stdout w.
Proof.
  assert (Hrefl : forall w,
             (forall k nd, fs w !! k = Some nd -> fs w !! k = Some nd)
             /\ cwd w = cwd w /\ clock w = clock w /\ stdout w = stdout w).
  { intros w. repeat split. intros k nd Hk. exact Hk. }
  assert (Htrans : forall w w1 w',
             (forall k nd, fs w !! k = Some nd -> fs w1 !! k = Some nd)
             /\ cwd w1 = cwd w /\ clock w1 = clock w /\ stdout w1 = stdout w ->
             (forall k nd, fs w1 !! k = Some nd -> fs w' !! k = Some nd)
             /\ cwd w' = cwd w1 /\ clock w' = clock w1 /\ stdout w' = stdout w1 ->
             (forall k nd, fs w !! k = Some nd -> fs w' !! k = Some nd)
             /\ cwd w' = cwd w /\ clock w' = clock w /\ stdout w' = stdout w).
  { intros w w1 w' (H1 & H2 & H3 & H4) (H1' & H2' & H3' & H4').
    split; [intros k nd Hk; apply H1', H1, Hk |]. repeat split; congruence. }
  induction fuel as [| fuel IH]; intros name w r w'; rewrite makedirs_rec_unfold;
    cbv zeta;
    match goal with |- context [if ?c then _ else _] => destruct c end;
    try (apply mkdir_exist_ok_keeps).
  - destruct (String.eqb _ "."); [intros H; injection H as <- <-; apply Hrefl |].
    apply mkdir_exist_ok_keeps.
  - unfold try_except.
    destruct (makedirs_rec fuel _ w) as [[a | e] w1] eqn:Hrec;
      pose proof (IH _ _ _ _ Hrec) as Hk1.
    + destruct (String.eqb _ ".").
      * intros H. injection H as <- <-. exact Hk1.
      * intros H. exact (Htrans _ _ _ Hk1 (mkdir_exist_ok_keeps _ _ _ _ H)).
    + destruct e; unfold raise, ret;
        try (intros H; injection H as <- <-; exact Hk1).
      destruct (String.eqb _ ".").
      * intros H. injection H as <- <-. exact Hk1.
      * intros H. exact (Htrans _ _ _ Hk1 (mkdir_exist_ok_keeps _ _ _ _ H)).
Qed.

(** When [makedirs] returns for a path whose last part is not [.], the
    path leads to a directory. *)
Lemma makedirs_rec_isdir fuel name w w' :
  OsPath.basename (if String.eqb (OsPath.basename name) ""
                   then OsPath.dirname name else name) <> "."%string ->
  makedirs_rec fuel name w = (Ok tt, w') -> isdir w' name = true.
Proof.
  intros Htail. rewrite makedirs_rec_unfold. cbv zeta.
  apply String.eqb_neq in Htail. rewrite Htail.
  match goal with |- context [if ?c then _ else _] => destruct c end;
    [| apply mkdir_exist_ok_isdir].
  match goal with |- context [match ?x with (_, _) => _ end] =>
    destruct x as [[a | e] w1] end; [apply mkdir_exist_ok_isdir | discriminate].
Qed.

(** A path that leads to a directory is left alone. *)
Lemma makedirs_rec_existing fuel name w d :
  resolve w name = Some d -> is_dir (fs w) d = true ->
  makedirs_rec fuel name w = (Ok tt, w).
Proof.
  intros Hr Hd. rewrite makedirs_rec_unfold. cbv zeta.
  assert (Hhead : forall base k,
             resolve w base = Some k -> OsPath.dirname base <> ""%string ->
             exists_ w (OsPath.dirname base) = true)
    by (intros base k; apply resolve_dirname).
  match goal with |- context [negb (exists_ w ?h)] =>
    destruct (String.eqb_spec h "") as [Hempty | Hne]
  end; [cbn [negb andb]; exact (mkdir_exist_ok_existing _ _ _ Hr Hd) |].
  cbn [negb andb].
  match goal with |- context [negb (exists_ w ?h)] =>
    assert (Hex : exists_ w h = true)
  end.
  { destruct (String.eqb (OsPath.basename name) "").
    - destruct (String.eqb_spec (OsPath.dirname name) "") as [He | Hne1].
      + rewrite He in Hne. exfalso. apply Hne. reflexivity.
      + pose proof (Hhead _ _ Hr Hne1) as H1. unfold exists_ in H1.
        destruct (resolve w (OsPath.dirname name)) as [k1 |] eqn:Hr1;
          [| discriminate H1].
        exact (Hhead _ _ Hr1 Hne).
    - exact (Hhead _ _ Hr Hne). }
  rewrite Hex, andb_false_r. cbn [negb].
  exact (mkdir_exist_ok_existing _ _ _ Hr Hd).
Qed.

(** The length of the path is fuel enough. *)
Lemma makedirs_rec_fuel fuel : forall fuel' name w,
  (String.length name <= fuel)%nat -> (String.length name <= fuel')%nat ->
  makedirs_rec fuel name w = makedirs_rec fuel' name w.
Proof.
  induction fuel as [| fuel IH]; intros fuel' name w Hf Hf'.
  - destruct name; [| cbn in Hf; lia]. destruct fuel'; reflexivity.
  - destruct fuel' as [| fuel'].
    { destruct name; [| cbn in Hf'; lia]. reflexivity. }
    rewrite !makedirs_rec_unfold. cbv zeta.
    match goal with |- context [negb (String.eqb ?h "") && negb (String.eqb ?t "")
                                && negb (exists_ w ?h)] =>
      destruct (negb (String.eqb h "") && negb (String.eqb t "")
                && negb (exists_ w h)) eqn:Hc; [| reflexivity];
      assert (Hlen : (String.length h < String.length name)%nat)
    end.
    { apply andb_true_iff in Hc as [Hc _]. apply andb_true_iff in Hc as [_ Ht].
      apply negb_true_iff, String.eqb_neq in Ht.
      eapply Nat.lt_le_trans; [exact (dirname_shorter _ Ht) |].
      destruct (String.eqb (OsPath.basename name) ""); [apply dirname_length | lia]. }
    unfold try_except. rewrite (IH fuel' _ w) by lia. reflexivity.
Qed.

Lemma makedirs_ok p w w' :
  makedirs p w = (Ok tt, w') ->
  (forall k nd, fs w !! k = Some nd -> fs w' !! k = Some nd)
  /\ cwd w' = cwd w /\ clock w' = clock w /\ stdout w' = stdout w.
Proof. apply makedirs_rec_keeps. Qed.

Lemma makedirs_existing p w d :
  resolve w p = Some d -> is_dir (fs w) d = true -> makedirs p w = (Ok tt, w).
Proof. apply makedirs_rec_existing. Qed.

Lemma makedirs_resolves p w w' :
  OsPath.basename (if String.eqb (OsPath.basename p) ""
                   then OsPath.dirname p else p) <> "."%string ->
  makedirs p w = (Ok tt, w') ->
  exists d, resolve w' p = Some d /\ is_dir (fs w') d = true.
Proof.
  intros Htail H. apply (makedirs_rec_isdir _ _ _ _ Htail) in H.
  unfold isdir in H. destruct (resolve w' p) as [d |]; [| discriminate H].
  exists d. split; [reflexivity | exact H].
Qed.

End MakedirsFacts.

(** X18. The constructors of [FileService] and [DocumentGenerator] make
    the same call of [os.makedirs]. When it returns, every file and
    directory that was on the host is still there unchanged, and the
    working directory, the clock and the output are as before. Unless
    the last part of the storage path is [.], the path then leads to a
    directory. *)
Theorem init_creates_storage :
  forall (path : string) (w w' : Os.world),
    FileService.init path w = (Ok tt, w') ->
    DocumentGenerator.init path w = (Ok tt, w')
    /\ (OsPath.basename (if String.eqb (OsPath.basename path) ""
                         then OsPath.dirname path else path) <> "." ->
        exists d, Os.resolve w' path = Some d /\ Os.is_dir (Os.fs w') d = true)
    /\ (forall k nd, Os.fs w !! k = Some nd -> Os.fs w' !! k = Some nd)
    /\ Os.cwd w' = Os.cwd w /\ Os.clock w' = Os.clock w /\ Os.stdout w' = Os.stdout w.
Proof.
  intros path w w' H. split; [exact H |].
  split; [intros Htail; exact (makedirs_resolves path w w' Htail H) |].
  exact (makedirs_ok path w w' H).
Qed.

(** A storage directory two levels below the working directory. *)
Lemma init_creates_storage_witness :
  let w' := snd (FileService.init "var/afiches" Scenario.host) in
  Os.resolve w' "var/afiches" = Some ["srv"; "app"; "var"; "afiches"]
  /\ Os.fs w' !! ["srv"; "app"; ".env"] = Some (Os.File (Os.Bytes "SECRET=1") 1000 false).
Proof.
  intros w'.
  destruct (init_creates_storage "var/afiches" Scenario.host w')
    as (_ & _ & Hkeep & _).
  - vm_compute. reflexivity.
  - split; [vm_compute; reflexivity |]. apply Hkeep. vm_compute. reflexivity.
Defined.

(** The exception: [os.makedirs] passes over the [FileExistsError] of
    the call for the head of the path and takes a tail [.] to be there.
    For a storage path that runs through a directory still to be made
    and ends in a regular file and [.], the constructor returns and the
    path leads nowhere. *)
Example init_behind_a_file :
  let run := FileService.init "new/../.env/." Scenario.host in
  fst run = Ok tt
  /\ Os.fs (snd run) !! ["srv"; "app"; "new"] = Some Os.Dir
  /\ Os.exists_ (snd run) "new/../.env/." = false
  /\ fst (FileService.init "new/../.env" Scenario.host)
     = Raise (FileExistsError "[Errno 17] File exists: 'new/../.env'")
  /\ fst (FileService.init ".env/sub" Scenario.host)
     = Raise (NotADirectoryError "[Errno 20] Not a directory: '.env/sub'").
Proof. vm_compute. repeat split. Qed.

(** X19. With [exist_ok=True] the constructors accept a storage
    directory that is already there: when the path leads to a directory,
    both return and the host is exactly as before, so a service can be
    constructed again over the files of an earlier run. *)
Theorem init_existing_storage :
  forall (path : string) (w : Os.world) (d : list string),
    Os.resolve w path = Some d ->
    Os.is_dir (Os.fs w) d = true ->
    FileService.init path w = (Ok tt, w)
    /\ DocumentGenerator.init path w = (Ok tt, w).
Proof.
  intros path w d Hr Hd. split; exact (makedirs_existing path w d Hr Hd).
Qed.

(** The storage directory of the scenario, with its files. *)
Lemma init_existing_storage_witness :
  FileService.init "temp_files" Scenario.stored = (Ok tt, Scenario.stored).
Proof.
  apply (proj1 (init_existing_storage "temp_files" Scenario.stored
                  ["srv"; "app"; "temp_files"] eq_refl eq_refl)).
Defined.



(** A storage path that runs through a regular file is not missing: the
    listing fails with [NotADirectoryError]. *)
Example cleanup_old_files_through_file :
  Os.exists_ Scenario.stored ".env/sub" = false
  /\ FileService.cleanup_old_files ".env/sub" 24 Scenario.stored
     = (Raise (NotADirectoryError "[Errno 20] Not a directory: '.env/sub'"),
        Scenario.stored).
Proof. vm_compute. split; reflexivity. Qed.

(** ** The endpoints *)

Section EndpointFacts.
Import AuthService.

(** A store in which a session is not authenticated stays so as long as
    no request is the last question with its answer. *)
Lemma serve_not_authenticated sid sid' rqs : forall (ss : sessions),
  is_authenticated sid' ss = false ->
  Forall (fun rq => ~ (rq_question rq = 3
                       /\ _normalize_text (rq_answer rq) = "esperanza viva")) rqs ->
  is_authenticated sid' (snd (serve sid rqs ss)) = false.
Proof.
  induction rqs as [| rq rest IH]; intros ss Hno Hall; [exact Hno |].
  inversion Hall as [| ? ? Hrq Hrest]; subst. cbn [serve].
  assert (H1 : is_authenticated sid'
                 (snd (validate_answer sid (rq_question rq) (rq_answer rq) ss)) = false).
  { destruct (is_authenticated sid'
                (snd (validate_answer sid (rq_question rq) (rq_answer rq) ss))) eqn:Hyes;
      [| reflexivity].
    destruct (validate_answer_sets_flag sid sid' _ _ ss Hno Hyes) as (_ & Hq & Ha).
    exfalso. apply Hrq. split; assumption. }
  destruct (validate_answer sid (rq_question rq) (rq_answer rq) ss) as [r ss1].
  cbn [snd] in H1. specialize (IH ss1 H1 Hrest).
  destruct (serve sid rest ss1) as [rs ss2]. exact IH.
Qed.

(** What [validate_answer] returns for one of the three questions. *)
Lemma validate_answer_result sid (ss : sessions) sd q answer :
  ss !! sid = Some sd ->
  1 <= q <= 3 ->
  let correct := String.eqb (_normalize_text answer) (expected_answer q) in
  exists r,
    validate_answer sid q answer ss = (Ok r, alter (rule q correct) sid ss)
    /\ success r = correct
    /\ (correct = false ->
        message r = Some "Respuesta incorrecta. Reiniciando..."
        /\ next_question r = Some 1)
    /\ (correct = true -> q = 3 ->
        message r = Some ("Autenticaci" ++ oacute ++ "n exitosa")
        /\ next_question r = None /\ question_text r = None)
    /\ (correct = true -> q < 3 ->
        message r = None /\ next_question r = Some (q + 1)).
Proof.
  intros Hsid Hq correct. unfold validate_answer.
  rewrite (bind_of_ok get _ ss ss ss eq_refl). rewrite Hsid.
  destruct (index_questions q Hq) as (qu & Hqu & Hans).
  unfold lift at 1. unfold bind at 1. rewrite Hqu, Hans.
  fold correct. unfold rule.
  destruct correct.
  - destruct (Z.eqb_spec q 3) as [-> | Hne].
    + eexists. split; [reflexivity |]. split; [reflexivity |].
      split; [discriminate |]. split; [intros _ _; repeat split | lia].
    + assert (Hlt : (q <? 3) = true) by (apply Z.ltb_lt; lia). rewrite Hlt.
      assert (q = 1 \/ q = 2) as [-> | ->] by lia;
        (eexists; split; [reflexivity |]; split; [reflexivity |];
         split; [discriminate |]; split; [intros _ Hq3; discriminate Hq3 |];
         intros _ _; split; reflexivity).
  - eexists. split; [reflexivity |]. split; [reflexivity |].
    split; [intros _; split; reflexivity |]. split; discriminate.
Qed.

End EndpointFacts.

(** X21. The endpoint of the answer validation never answers 401. The
    service reports an unknown session with [ValueError], which is not
    the [InvalidSessionError] the endpoint maps to 401: the request is
    answered with status 500 and the detail of the general handler, and
    the session store is unchanged. *)
Theorem validate_endpoint_unknown_session :
  forall (request : Api.ValidateAnswerRequest) (ss : AuthService.sessions),
    (forall detail, fst (Api.validate_answer request ss) <> Api.HTTPException 401 detail)
    /\ (ss !! Api.session_id request = None ->
        Api.validate_answer request ss
        = (Api.HTTPException 500 "Error interno del servidor", ss)).
Proof.
  intros request ss. split.
  - intros detail. unfold Api.validate_answer.
    destruct (bind _ _ ss) as [[v | e] ss']; cbn [fst Api.is_InvalidSessionError];
      discriminate.
  - intros Hsid. unfold Api.validate_answer, bind at 1.
    unfold AuthService.validate_answer, bind, get. rewrite Hsid. reflexivity.
Qed.

(** A request for a session nobody created. *)
Lemma validate_endpoint_unknown_session_witness :
  Api.validate_answer
    {| Api.session_id := "nobody"; Api.question_number := 1;
       Api.answer := "iglesia central" |} ∅
  = (Api.HTTPException 500 "Error interno del servidor", ∅).
Proof.
  apply (proj2 (validate_endpoint_unknown_session
                  {| Api.session_id := "nobody"; Api.question_number := 1;
                     Api.answer := "iglesia central" |} ∅)).
  reflexivity.
Defined.

(** X22. What the endpoint of the answer validation answers for a known
    session and a question from 1 to 3. A wrong answer gets status 200
    with [success] false, the restart message and question 1. The right
    answer to question 3 gets status 200 with [success] true and the
    message of the authentication. The right answer to question 1 or 2
    makes the service return a dict without [message], a field
    [ValidationResponse] requires: building the response fails, the
    general handler answers 500, and the session has moved on to the
    next question all the same. *)
Theorem validate_endpoint_outcomes :
  forall (sid : string) (q : Z) (answer : string) (ss : AuthService.sessions)
         (sd : AuthService.SessionData),
    ss !! sid = Some sd ->
    1 <= q <= 3 ->
    let request := {| Api.session_id := sid; Api.question_number := q;
                      Api.answer := answer |} in
    let correct := String.eqb (AuthService._normalize_text answer)
                              (AuthService.expected_answer q) in
    snd (Api.validate_answer request ss) = alter (AuthService.rule q correct) sid ss
    /\ (correct = false ->
        exists text,
          fst (Api.validate_answer request ss)
          = Api.Response {| Api.success := false;
                            Api.message := "Respuesta incorrecta. Reiniciando...";
                            Api.next_question := Some 1;
                            Api.question_text := text |})
    /\ (correct = true -> q = 3 ->
        fst (Api.validate_answer request ss)
        = Api.Response {| Api.success := true;
                          Api.message := "Autenticaci" ++ AuthService.oacute
                                         ++ "n exitosa";
                          Api.next_question := None;
                          Api.question_text := None |})
    /\ (correct = true -> q < 3 ->
        fst (Api.validate_answer request ss)
        = Api.HTTPException 500 "Error interno del servidor").
Proof.
  intros sid q answer ss sd Hsid Hq request correct.
  destruct (validate_answer_result sid ss sd q answer Hsid Hq)
    as (r & Hr & Hs & Hwrong & Hlast & Hnext).
  fold correct in Hr, Hs, Hwrong, Hlast, Hnext.
  unfold Api.validate_answer, request. cbn [Api.session_id Api.question_number Api.answer].
  rewrite (bind_of_ok _ _ _ _ _ Hr). unfold lift, Api.ValidationResponse_of.
  destruct r as [rs rm rn rt]. cbn [AuthService.success AuthService.message
                                    AuthService.next_question AuthService.question_text] in *.
  destruct rm as [m |]; cbn [fst snd Api.is_InvalidSessionError].
  - split; [reflexivity |]. split; [| split].
    + intros Hc. destruct (Hwrong Hc) as [Hm Hn]. injection Hm as ->. subst rn.
      rewrite Hs, Hc. eexists. reflexivity.
    + intros Hc H3. destruct (Hlast Hc H3) as (Hm & Hn & Ht).
      injection Hm as ->. subst rn rt. rewrite Hs, Hc. reflexivity.
    + intros Hc H3. destruct (Hnext Hc H3) as [Hm _]. discriminate Hm.
  - split; [reflexivity |]. split; [| split].
    + intros Hc. destruct (Hwrong Hc) as [Hm _]. discriminate Hm.
    + intros Hc H3. destruct (Hlast Hc H3) as (Hm & _). discriminate Hm.
    + intros _ _. reflexivity.
Qed.

(** The right answer to the first question on a fresh session: status
    500, and the session is at question 2. *)
Lemma validate_endpoint_outcomes_witness :
  let ss := snd (AuthService.create_session "s1" ∅) in
  let request := {| Api.session_id := "s1"; Api.question_number := 1;
                    Api.answer := "Iglesia Central" |} in
  fst (Api.validate_answer request ss)
  = Api.HTTPException 500 "Error interno del servidor"
  /\ snd (Api.validate_answer request ss) !! "s1"
     = Some {| AuthService.session_id := "s1"; AuthService.current_question := 2;
               AuthService.authenticated := false |}.
Proof.
  intros ss request.
  assert (Hs : ss !! "s1" = Some {| AuthService.session_id := "s1";
                                    AuthService.current_question := 1;
                                    AuthService.authenticated := false |})
    by reflexivity.
  destruct (validate_endpoint_outcomes "s1" 1 "Iglesia Central" ss _ Hs ltac:(lia))
    as (Hstate & _ & _ & Hnext).
  split.
  - apply Hnext; [reflexivity | lia].
  - unfold request. rewrite Hstate. reflexivity.
Defined.

(** X23. No document is generated for a session that has not given the
    last answer. Starting from a store in which the session is not
    authenticated, after any sequence of answer validations none of which
    is question 3 with its answer, the generation endpoint answers 401 for
    every event and project name, the generators are not called and the
    host is unchanged. *)
Theorem generate_requires_final_answer :
  forall (E : DocumentGenerator.externals) (temp_storage : string)
         (request : Api.GenerateRequest) (sid : string)
         (rqs : list AuthService.request) (ss : AuthService.sessions) (w : Os.world),
    AuthService.is_authenticated (Api.g_session_id request) ss = false ->
    Forall (fun rq => ~ (AuthService.rq_question rq = 3
                         /\ AuthService._normalize_text (AuthService.rq_answer rq)
                            = "esperanza viva")) rqs ->
    Api.generate_documents E temp_storage request
      (snd (AuthService.serve sid rqs ss)) w
    = (Api.HTTPException 401 ("Sesi" ++ AuthService.oacute ++ "n no autenticada"), w).
Proof.
  intros E ts request sid rqs ss w Hno Hall. unfold Api.generate_documents.
  rewrite (serve_not_authenticated sid _ rqs ss Hno Hall). reflexivity.
Qed.

(** A session that answered the first two questions only. *)
Lemma generate_requires_final_answer_witness :
  Api.generate_documents Scenario.installed "temp_files"
    {| Api.g_session_id := "s1"; Api.fecha_evento := "15 de Diciembre";
       Api.hora_evento := "7:00 PM"; Api.lugar_evento := "Auditorio Central";
       Api.referencia_evento := ""; Api.nombre_proyecto := "P" |}
    (snd (AuthService.serve "s1"
            [ {| AuthService.rq_question := 1; AuthService.rq_answer := "iglesia central" |};
              {| AuthService.rq_question := 2; AuthService.rq_answer := "lima" |} ]
            (snd (AuthService.create_session "s1" ∅))))
    Scenario.host
  = (Api.HTTPException 401 ("Sesi" ++ AuthService.oacute ++ "n no autenticada"),
     Scenario.host).
Proof.
  apply (generate_requires_final_answer Scenario.installed "temp_files").
  - reflexivity.
  - constructor; [intros [H _]; discriminate H |].
    constructor; [intros [H _]; discriminate H | constructor].
Defined.

(** X24. For an authenticated session the generation endpoint answers
    400 when the project name is empty or whitespace, and nothing is
    generated. Otherwise it answers 200 with [success] true and the
    three entries of [generate_all], for a4, 4x1 and gigantografia in
    this order: [generate_all] catches every error of the generators, so
    the two handlers that answer 500 are never entered, and [success] is
    true whatever the status of the entries. *)
Theorem generate_documents_outcomes :
  forall (E : DocumentGenerator.externals) (temp_storage : string)
         (request : Api.GenerateRequest) (ss : AuthService.sessions) (w : Os.world),
    AuthService.is_authenticated (Api.g_session_id request) ss = true ->
    (Py.strip (Api.nombre_proyecto request) = "" ->
     Api.generate_documents E temp_storage request ss w
     = (Api.HTTPException 400
          ("nombre_proyecto no puede estar vac" ++ Api.iacute ++ "o"), w))
    /\ (Py.strip (Api.nombre_proyecto request) <> "" ->
        exists i1 i2 i3 w',
          Api.generate_documents E temp_storage request ss w
          = (Api.Response {| Api.g_success := true; Api.documents := [i1; i2; i3] |}, w')
          /\ DocumentGenerator.generate_all E temp_storage (Api.event_data request)
               (Api.nombre_proyecto request) w = (Ok [i1; i2; i3], w')
          /\ List.map DocumentGenerator.type [i1; i2; i3]
             = ["a4"; "4x1"; "gigantografia"]).
Proof.
  intros E ts request ss w Hauth. unfold Api.generate_documents. rewrite Hauth.
  cbn [negb]. split.
  - intros Hblank. rewrite Hblank. reflexivity.
  - intros Hname. apply String.eqb_neq in Hname. rewrite Hname.
    rewrite generate_all_unfold. cbv zeta.
    eexists _, _, _, _. split; [reflexivity |]. split; [reflexivity |].
    unfold DocumentGenerator.info_of.
    repeat match goal with
           | |- context [match ?r with Ok _ => _ | Raise _ => _ end] => destruct r
           end; reflexivity.
Qed.

(** An authenticated session on the host without LibreOffice: the
    answer says [success], and its three entries are errors. *)
Lemma generate_documents_outcomes_witness :
  let ss := snd (AuthService.validate_answer "s1" 3 "esperanza viva"
                   (snd (AuthService.create_session "s1" ∅))) in
  let request := {| Api.g_session_id := "s1"; Api.fecha_evento := "15 de Diciembre";
                    Api.hora_evento := "7:00 PM";
                    Api.lugar_evento := "Auditorio Central";
                    Api.referencia_evento := ""; Api.nombre_proyecto := "P" |} in
  exists i1 i2 i3 w',
    Api.generate_documents Scenario.without_office "temp_files" request ss Scenario.host
    = (Api.Response {| Api.g_success := true; Api.documents := [i1; i2; i3] |}, w')
    /\ List.map DocumentGenerator.status [i1; i2; i3] = ["error"; "error"; "error"].
Proof.
  intros ss request.
  destruct (generate_documents_outcomes Scenario.without_office "temp_files" request ss
              Scenario.host eq_refl) as [_ H].
  destruct (H ltac:(discriminate)) as (i1 & i2 & i3 & w' & Hrun & Hall & _).
  exists i1, i2, i3, w'. split; [exact Hrun |].
  vm_compute in Hall. injection Hall as <- <- <- _. reflexivity.
Defined.



(** ** The login view, the store and the guard *)

Section LoginFacts.
Import LoginView.

Variable Server : Type.
Variable validateAnswer :
  Js.value -> Js.value -> Js.value -> Server -> settled AnswerData * Server.

(** [handleSubmit] never writes the session id. *)
Lemma handleSubmit_sessionId p s :
  SessionStore.sessionId (store (fst (handleSubmit validateAnswer p s)))
  = SessionStore.sessionId (store p).
Proof.
  unfold handleSubmit.
  destruct (validateAnswer _ _ _ s) as [[r | m] s'];
    [destruct (Js.truthy (success r)); [destruct (Js.truthy (next_question r)) |] |];
    reflexivity.
Qed.

Lemma submit_all_sessionId texts : forall p s,
  SessionStore.sessionId (store (fst (submit_all validateAnswer texts p s)))
  = SessionStore.sessionId (store p).
Proof.
  induction texts as [| text rest IH]; intros p s; [reflexivity |].
  cbn [submit_all].
  pose proof (handleSubmit_sessionId (type_answer text p) s) as H1.
  destruct (handleSubmit validateAnswer (type_answer text p) s) as [p' s'].
  cbn [fst] in H1. rewrite IH, H1. reflexivity.
Qed.

(** Unless the server ends the questions, a submission leaves the store
    and the router alone. *)
Lemma handleSubmit_store p s :
  (forall sid q a s0 r s1,
      validateAnswer sid q a s0 = (Resolved r, s1) ->
      Js.truthy (success r) = true -> Js.truthy (next_question r) = true) ->
  store (fst (handleSubmit validateAnswer p s)) = store p
  /\ pushed (fst (handleSubmit validateAnswer p s)) = pushed p.
Proof.
  intros Hnever. unfold handleSubmit.
  destruct (validateAnswer _ _ _ s) as [[r | m] s'] eqn:Hcall; [| split; reflexivity].
  destruct (Js.truthy (success r)) eqn:Hs; [| split; reflexivity].
  rewrite (Hnever _ _ _ _ _ _ Hcall Hs). split; reflexivity.
Qed.

Lemma submit_all_store texts : forall p s,
  (forall sid q a s0 r s1,
      validateAnswer sid q a s0 = (Resolved r, s1) ->
      Js.truthy (success r) = true -> Js.truthy (next_question r) = true) ->
  store (fst (submit_all validateAnswer texts p s)) = store p
  /\ pushed (fst (submit_all validateAnswer texts p s)) = pushed p.
Proof.
  induction texts as [| text rest IH]; intros p s Hnever; [split; reflexivity |].
  cbn [submit_all].
  pose proof (handleSubmit_store (type_answer text p) s Hnever) as [H1 H2].
  destruct (handleSubmit validateAnswer (type_answer text p) s) as [p' s'].
  cbn [fst] in H1, H2. destruct (IH p' s' Hnever) as [H3 H4].
  rewrite H3, H4, H1, H2. split; reflexivity.
Qed.

End LoginFacts.

Section GuardFacts.

Lemma guard_decision to st :
  Router.beforeEach to st
  = if Js.truthy (Router.meta_requiresAuth to)
       && negb (Js.truthy (SessionStore.isAuthenticated st))
    then Router.Redirect "login" else Router.Proceed.
Proof.
  unfold Router.beforeEach, Js.and_, Js.not_.
  destruct (Js.truthy (Router.meta_requiresAuth to)) eqn:Hreq; cbn [andb].
  - reflexivity.
  - rewrite Hreq. reflexivity.
Qed.

Lemma guard_null_session st :
  SessionStore.sessionId st = Js.null ->
  Router.beforeEach Router.generator st = Router.Redirect "login".
Proof.
  intros Hnull. apply guard_unauthenticated; [reflexivity |].
  rewrite truthy_isAuthenticated, Hnull. apply andb_false_r.
Qed.

End GuardFacts.

(** X26. The guard on the three routes of the router. A navigation to
    [welcome] or [login], which declare no [meta], always proceeds,
    whatever the store holds; a navigation to [generator] proceeds
    exactly when [isAuthenticated] is truthy; and the guard redirects
    nowhere but to [login], and only for a route whose [requiresAuth] is
    truthy. *)
Theorem guard_on_declared_routes :
  forall (st : SessionStore.state),
    Router.beforeEach Router.welcome st = Router.Proceed
    /\ Router.beforeEach Router.login st = Router.Proceed
    /\ (Router.beforeEach Router.generator st = Router.Proceed
        <-> Js.truthy (SessionStore.isAuthenticated st) = true)
    /\ (forall to name,
          Router.beforeEach to st = Router.Redirect name ->
          name = "login" /\ Js.truthy (Router.meta_requiresAuth to) = true
          /\ Js.truthy (SessionStore.isAuthenticated st) = false).
Proof.
  intros st. split; [reflexivity |]. split; [reflexivity |]. split.
  - rewrite guard_decision. cbn [Router.generator Router.meta_requiresAuth Js.truthy andb].
    destruct (Js.truthy (SessionStore.isAuthenticated st)); cbn [negb];
      split; intros H; first [reflexivity | discriminate H].
  - intros to name. rewrite guard_decision.
    destruct (Js.truthy (Router.meta_requiresAuth to)); cbn [andb];
      [| discriminate].
    destruct (Js.truthy (SessionStore.isAuthenticated st)); cbn [negb];
      [discriminate |].
    intros H. injection H as <-. repeat split.
Qed.

(** The store with a session id and the flag set. *)
Lemma guard_on_declared_routes_witness :
  Router.beforeEach Router.generator
    (SessionStore.setAuthenticated (Js.boolean true)
       (SessionStore.setSession (Js.str "s1") SessionStore.init))
  = Router.Proceed.
Proof.
  apply (proj1 (proj2 (proj2 (guard_on_declared_routes
                                (SessionStore.setAuthenticated (Js.boolean true)
                                   (SessionStore.setSession (Js.str "s1")
                                      SessionStore.init)))))).
  reflexivity.
Defined.

(** X27. When the call that starts the session fails, the login view
    shows an error and keeps working on a store without session id:
    [onMounted] is the only place that sets it. Whatever the user then
    submits and whatever the server answers, the session id stays [null],
    and the guard sends every navigation to the generator back to
    [login], also after a response that ended the questions. *)
Theorem login_without_session_is_redirected :
  forall (Server : Type)
         (startSession : Server -> LoginView.settled LoginView.StartData * Server)
         (validateAnswer : Js.value -> Js.value -> Js.value -> Server ->
                           LoginView.settled LoginView.AnswerData * Server)
         (s s' : Server) (m : Js.value) (texts : list string),
    startSession s = (LoginView.Rejected m, s') ->
    let p0 := fst (LoginView.onMounted startSession
                     (LoginView.setup SessionStore.init) s) in
    let p := fst (LoginView.submit_all validateAnswer texts p0 s') in
    LoginView.errorMessage (LoginView.view p0)
    = Js.str ("Error al iniciar sesi" ++ AuthService.oacute
              ++ "n. Por favor, intenta de nuevo.")
    /\ SessionStore.sessionId (LoginView.store p) = Js.null
    /\ Router.beforeEach Router.generator (LoginView.store p) = Router.Redirect "login".
Proof.
  intros Server startSession validateAnswer s s' m texts Hstart p0 p.
  assert (Hp0 : p0 = fst (LoginView.onMounted startSession
                            (LoginView.setup SessionStore.init) s)) by reflexivity.
  unfold LoginView.onMounted in Hp0. rewrite Hstart in Hp0. cbn [fst] in Hp0.
  assert (Hnull : SessionStore.sessionId (LoginView.store p) = Js.null).
  { unfold p. rewrite submit_all_sessionId, Hp0. reflexivity. }
  split; [rewrite Hp0; reflexivity |]. split; [exact Hnull |].
  exact (guard_null_session _ Hnull).
Qed.

(** The server cannot be reached at first and later accepts an answer
    as the last one: the view pushes the generator route, and the guard
    redirects it. *)
Lemma login_without_session_is_redirected_witness :
  let p := fst (LoginView.submit_all Scenario.accepting ["esperanza viva"]
                  (fst (LoginView.onMounted Scenario.unreachable
                          (LoginView.setup SessionStore.init) tt)) tt) in
  LoginView.pushed p = ["generator"]
  /\ Router.beforeEach Router.generator (LoginView.store p) = Router.Redirect "login".
Proof.
  intros p. split; [reflexivity |].
  exact (proj2 (proj2 (login_without_session_is_redirected unit Scenario.unreachable
                         Scenario.accepting tt tt
                         (Js.str "No se pudo conectar con el servidor")
                         ["esperanza viva"] eq_refl))).
Defined.

(** X28. The response that ends the questions opens the generator. When
    the store holds a session id and the server answers a submission
    with a truthy [success] and no next question, [handleSubmit] sets
    the flag of the store, pushes the route [generator], and the guard
    lets that navigation proceed. *)
Theorem login_final_success_opens_generator :
  forall (Server : Type)
         (validateAnswer : Js.value -> Js.value -> Js.value -> Server ->
                           LoginView.settled LoginView.AnswerData * Server)
         (p : LoginView.page) (s s' : Server) (r : LoginView.AnswerData),
    SessionStore.sessionId (LoginView.store p) <> Js.null ->
    validateAnswer (SessionStore.sessionId (LoginView.store p))
      (LoginView.currentQuestion (LoginView.view p))
      (LoginView.answer (LoginView.view p)) s = (LoginView.Resolved r, s') ->
    Js.truthy (LoginView.success r) = true ->
    Js.truthy (LoginView.next_question r) = false ->
    let p' := fst (LoginView.handleSubmit validateAnswer p s) in
    LoginView.pushed p' = (LoginView.pushed p ++ ["generator"])%list
    /\ SessionStore.isAuthenticated (LoginView.store p') = Js.boolean true
    /\ Router.beforeEach Router.generator (LoginView.store p') = Router.Proceed.
Proof.
  intros Server validateAnswer p s s' r Hid Hcall Hs Hn p'.
  assert (Hp' : p' = fst (LoginView.handleSubmit validateAnswer p s)) by reflexivity.
  unfold LoginView.handleSubmit in Hp'. rewrite Hcall, Hs, Hn in Hp'. cbn [fst] in Hp'.
  assert (Hauth : SessionStore.isAuthenticated (LoginView.store p') = Js.boolean true).
  { rewrite Hp'. cbn [LoginView.store].
    rewrite (isAuthenticated_boolean
               (SessionStore.setAuthenticated (Js.boolean true) (LoginView.store p))
               true eq_refl).
    cbn [SessionStore.setAuthenticated SessionStore.sessionId andb].
    rewrite bool_decide_eq_false_2 by exact Hid. reflexivity. }
  split; [rewrite Hp'; reflexivity |]. split; [exact Hauth |].
  rewrite guard_decision, Hauth. reflexivity.
Qed.

(** A view whose store holds the session id [s1]. *)
Lemma login_final_success_opens_generator_witness :
  let p := LoginView.type_answer "esperanza viva"
             (LoginView.setup (SessionStore.setSession (Js.str "s1") SessionStore.init)) in
  Router.beforeEach Router.generator
    (LoginView.store (fst (LoginView.handleSubmit Scenario.accepting p tt)))
  = Router.Proceed.
Proof.
  intros p.
  refine (proj2 (proj2 (login_final_success_opens_generator unit Scenario.accepting
                          p tt tt _ _ eq_refl eq_refl eq_refl))).
  discriminate.
Defined.

(** X29. Wrong answers, intermediate questions and failed calls leave
    the session store and the router alone. As long as the server gives
    a next question with every successful response, after any sequence
    of submissions the store is the one the view started with and no
    route has been pushed. *)
Theorem login_store_untouched_before_final_success :
  forall (Server : Type)
         (validateAnswer : Js.value -> Js.value -> Js.value -> Server ->
                           LoginView.settled LoginView.AnswerData * Server)
         (texts : list string) (p : LoginView.page) (s : Server),
    (forall sid q a s0 r s1,
        validateAnswer sid q a s0 = (LoginView.Resolved r, s1) ->
        Js.truthy (LoginView.success r) = true ->
        Js.truthy (LoginView.next_question r) = true) ->
    LoginView.store (fst (LoginView.submit_all validateAnswer texts p s))
    = LoginView.store p
    /\ LoginView.pushed (fst (LoginView.submit_all validateAnswer texts p s))
       = LoginView.pushed p.
Proof.
  intros Server validateAnswer texts p s Hnever.
  exact (submit_all_store Server validateAnswer texts p s Hnever).
Qed.

(** A server whose calls all fail. *)
Lemma login_store_untouched_before_final_success_witness :
  LoginView.store
    (fst (LoginView.submit_all
            (fun _ _ _ (s : unit) =>
               (LoginView.Rejected (Js.str "No se pudo conectar con el servidor"), s))
            ["iglesia central"; "lima"]
            (LoginView.setup (SessionStore.setSession (Js.str "s1") SessionStore.init))
            tt))
  = SessionStore.setSession (Js.str "s1") SessionStore.init.
Proof.
  refine (proj1 (login_store_untouched_before_final_success unit _
                   ["iglesia central"; "lima"] _ tt _)).
  intros sid q a s0 r s1 H. discriminate H.
Defined.

(** X30. Mounting the login view again after the authentication gives
    the store a new session id and keeps its flag: [setSession] writes
    the id only. For a start response with a session id, the store is
    then authenticated for the new session, which has answered nothing,
    and the guard lets a navigation to the generator proceed. *)
Theorem login_remount_keeps_flag :
  forall (Server : Type)
         (startSession : Server -> LoginView.settled LoginView.StartData * Server)
         (p : LoginView.page) (s s' : Server) (r : LoginView.StartData),
    startSession s = (LoginView.Resolved r, s') ->
    Js.truthy (SessionStore.authenticated (LoginView.store p)) = true ->
    LoginView.session_id r <> Js.null ->
    let p' := fst (LoginView.onMounted startSession p s) in
    SessionStore.sessionId (LoginView.store p') = LoginView.session_id r
    /\ SessionStore.authenticated (LoginView.store p')
       = SessionStore.authenticated (LoginView.store p)
    /\ Router.beforeEach Router.generator (LoginView.store p') = Router.Proceed.
Proof.
  intros Server startSession p s s' r Hstart Hflag Hid p'.
  assert (Hp' : p' = fst (LoginView.onMounted startSession p s)) by reflexivity.
  unfold LoginView.onMounted in Hp'. rewrite Hstart in Hp'. cbn [fst] in Hp'.
  split; [rewrite Hp'; reflexivity |]. split; [rewrite Hp'; reflexivity |].
  rewrite guard_decision, truthy_isAuthenticated, Hp'.
  cbn [LoginView.store SessionStore.setSession SessionStore.authenticated
       SessionStore.sessionId].
  rewrite Hflag, bool_decide_eq_false_2 by exact Hid. reflexivity.
Qed.

(** An authenticated store, and a server that starts the session [s2]. *)
Lemma login_remount_keeps_flag_witness :
  let st := SessionStore.setAuthenticated (Js.boolean true)
              (SessionStore.setSession (Js.str "s1") SessionStore.init) in
  let start := fun s : unit =>
                 (LoginView.Resolved
                    {| LoginView.session_id := Js.str "s2";
                       LoginView.question_number := Js.number 1;
                       LoginView.total_questions := Js.undefined;
                       LoginView.start_question_text := Js.str "?" |}, s) in
  SessionStore.sessionId
    (LoginView.store (fst (LoginView.onMounted start (LoginView.setup st) tt)))
  = Js.str "s2"
  /\ Router.beforeEach Router.generator
       (LoginView.store (fst (LoginView.onMounted start (LoginView.setup st) tt)))
     = Router.Proceed.
Proof.
  intros st start.
  destruct (login_remount_keeps_flag unit start (LoginView.setup st) tt tt _
              eq_refl eq_refl ltac:(discriminate)) as (H1 & _ & H3).
  split; [exact H1 | exact H3].
Defined.
